(** * virtual-sensor-hub: the log checker and the log parser, verified

    A shallow embedding of [tools/check_log.py] and of the computing part
    of [tools/parse_logs.py], followed by the properties of the log
    analytics engine.

    Conventions of the embedding.
    - A Python [str] is a [string]; a character is a code point below 256.
    - A Python [int] is a [Z]; [//] by a positive divisor is [Z.div].
    - A Python [float] is an IEEE 754 binary64 number ([Float64]), with
      NaN, the infinities and rounding; the moving average is computed on
      these. The parser takes the conversions [float] and [int] as
      parameters, and the summary takes the statistics of pandas as an
      interface ([Series]), so that their statements hold whatever the
      floats are; their examples run on decimal literals read as exact
      rationals ([PyFloat], [exact_series]).
    - A [dict] is a [gmap]; a pandas [DataFrame] built from a list of row
      dicts is the list of its rows, the empty list being the frame without
      columns.
    - An exception is a value of [pyexn] carried by [pyresult]. *)

From Stdlib Require Import ZArith QArith Qminmax Qround Lia List Permutation Sorted.
From Stdlib Require Import Ascii String SpecFloat.
From stdpp Require Import gmap strings list fin_maps.

Local Open Scope Z_scope.

(** ** Python strings *)

Module PyStr.

Definition code (c : ascii) : N := N_of_ascii c.

(** [str.isspace] on one character (code points below 256). *)
Definition is_space (c : ascii) : bool :=
  let n := code c in
  (((9 <=? n) && (n <=? 13)) || ((28 <=? n) && (n <=? 32))
   || (n =? 133) || (n =? 160))%N.

Fixpoint lstrip (s : string) : string :=
  match s with
  | EmptyString => EmptyString
  | String c r => if is_space c then lstrip r else s
  end.

Fixpoint rstrip (s : string) : string :=
  match s with
  | EmptyString => EmptyString
  | String c r =>
      match rstrip r with
      | EmptyString => if is_space c then EmptyString else String c EmptyString
      | r' => String c r'
      end
  end.

(** [s.strip()] *)
Definition strip (s : string) : string := rstrip (lstrip s).

(** [s.split(sep)] for a separator of one character. *)
Fixpoint split (sep : ascii) (s : string) : list string :=
  match s with
  | EmptyString => [EmptyString]
  | String c r =>
      if Ascii.eqb c sep then EmptyString :: split sep r
      else match split sep r with
           | h :: t => String c h :: t
           | [] => [String c EmptyString]
           end
  end.

Definition LF : ascii := "010"%char.
Definition CR : ascii := "013"%char.

(** Text mode with universal newlines: CR LF and a lone CR read as LF. *)
Fixpoint universal_newlines (s : string) : string :=
  match s with
  | EmptyString => EmptyString
  | String c r =>
      if Ascii.eqb c CR then
        match r with
        | String c' r' =>
            if Ascii.eqb c' LF then String LF (universal_newlines r')
            else String LF (universal_newlines r)
        | EmptyString => String LF EmptyString
        end
      else String c (universal_newlines r)
  end.

(** Iterating over a file object: the lines, each with its newline. *)
Fixpoint readlines (s : string) : list string :=
  match s with
  | EmptyString => []
  | String c r =>
      if Ascii.eqb c LF then String c EmptyString :: readlines r
      else match readlines r with
           | h :: t => String c h :: t
           | [] => [String c EmptyString]
           end
  end.

Definition file_lines (text : string) : list string :=
  readlines (universal_newlines text).

End PyStr.

(** ** Python exceptions *)

Inductive pyexn : Type :=
| ValueError
| OverflowError
| IndexError
| KeyError.

Inductive pyresult (A : Type) : Type :=
| Ok (a : A)
| Raise (e : pyexn).
Arguments Ok {A} a.
Arguments Raise {A} e.

#[global] Instance pyresult_ret : MRet pyresult := fun A a => Ok a.

#[global] Instance pyresult_bind : MBind pyresult := fun A B k m =>
  match m with
  | Ok a => k a
  | Raise e => Raise e
  end.

(** [try: body / except Exception: handler] *)
Definition try_except {A} (body : pyresult A) (handler : pyexn -> pyresult A)
  : pyresult A :=
  match body with
  | Ok a => Ok a
  | Raise e => handler e
  end.

(** [xs[i]] on a list, for [0 <= i]. *)
Definition py_getitem {A} (xs : list A) (i : nat) : pyresult A :=
  match xs !! i with
  | Some x => Ok x
  | None => Raise IndexError
  end.

(** [d[k]] on a dict. *)
Definition py_item {A} (d : gmap string A) (k : string) : pyresult A :=
  match d !! k with
  | Some v => Ok v
  | None => Raise KeyError
  end.

(** A [for] loop whose body may raise. *)
Fixpoint py_for {S A} (body : S -> A -> pyresult S) (xs : list A) (st : S)
  : pyresult S :=
  match xs with
  | [] => Ok st
  | x :: r => st' ← body st x; py_for body r st'
  end.

(** ** tools/check_log.py *)

Module CheckLog.

Definition sensors : list string := ["TEMP"; "HUM"; "PRESS"].

(** The dict literal [{"TEMP": t, "HUM": h, "PRESS": p}]. *)
Definition sensor_dict {A} (t h p : A) : gmap string A :=
  <["TEMP" := t]> (<["HUM" := h]> (<["PRESS" := p]> ∅)).

Definition RATES_MS : gmap string Z := sensor_dict 500 700 1200.

Definition WINDOW_SIZE : Z := 5.

(** [max(1, duration_ms // ms - 1)] *)
Definition expected_for (duration_ms ms : Z) : Z :=
  Z.max 1 (duration_ms / ms - 1).

(** The dict [expected], one entry per entry of [RATES_MS]. *)
Definition expected (duration_ms : Z) : gmap string Z :=
  expected_for duration_ms <$> RATES_MS.

Record counts : Type := {
  sample_counts : gmap string Z;
  alert_counts : gmap string Z;
  total_lines : Z
}.

Definition initial : counts :=
  {| sample_counts := sensor_dict 0 0 0;
     alert_counts := sensor_dict 0 0 0;
     total_lines := 0 |}.

(** [if typ in d: d[typ] += 1] *)
Definition bump (typ : string) (d : gmap string Z) : gmap string Z :=
  match d !! typ with
  | Some n => <[typ := n + 1]> d
  | None => d
  end.

(** The body of the loop over the lines of the file. *)
Definition count_line (st : counts) (raw : string) : pyresult counts :=
  let st := {| sample_counts := sample_counts st;
               alert_counts := alert_counts st;
               total_lines := total_lines st + 1 |} in
  let line := PyStr.strip raw in
  if String.eqb line EmptyString then Ok st
  else
    let parts := PyStr.split "|" line in
    p0 ← py_getitem parts 0;
    if String.eqb p0 "SAMPLE" && (4 <=? length parts)%nat then
      typ ← py_getitem parts 1;
      Ok {| sample_counts := bump typ (sample_counts st);
            alert_counts := alert_counts st;
            total_lines := total_lines st |}
    else if String.eqb p0 "ALERT" && (5 <=? length parts)%nat then
      typ ← py_getitem parts 1;
      Ok {| sample_counts := sample_counts st;
            alert_counts := bump typ (alert_counts st);
            total_lines := total_lines st |}
    else Ok st.

Definition count_lines (lines : list string) : pyresult counts :=
  py_for count_line lines initial.

(** What the script writes to stderr before [CHECK FAILED]. *)
Inductive failure : Type :=
| SampleCountTooLow (k : string) (got wanted : Z)
| NoTempAlert (duration_ms min_ms : Z).

(** The flag [ok] and the failures reported so far. *)
Definition verdict : Type := bool * list failure.

(** Check 1, the body of the loop over [("TEMP","HUM","PRESS")]. *)
Definition check_sample (sc ex : gmap string Z) (st : verdict) (k : string)
  : pyresult verdict :=
  got ← py_item sc k;
  wanted ← py_item ex k;
  if got <? wanted
  then Ok (false, snd st ++ [SampleCountTooLow k got wanted])
  else Ok st.

Definition check_samples (sc ex : gmap string Z) (st : verdict)
  : pyresult verdict :=
  py_for (check_sample sc ex) sensors st.

(** Check 2: a TEMP alert once the window can have filled. *)
Definition check_alerts (duration_ms : Z) (ac : gmap string Z) (st : verdict)
  : pyresult verdict :=
  rate ← py_item RATES_MS "TEMP";
  let min_ms_for_window_temp := WINDOW_SIZE * rate in
  if min_ms_for_window_temp <=? duration_ms then
    n ← py_item ac "TEMP";
    if n <? 1
    then Ok (false,
             snd st ++ [NoTempAlert duration_ms min_ms_for_window_temp])
    else Ok st
  else Ok st.

(** Both checks, from [ok = True] on. *)
Definition run_checks (duration_ms : Z) (sc ac : gmap string Z)
  : pyresult verdict :=
  st ← check_samples sc (expected duration_ms) (true, []);
  check_alerts duration_ms ac st.

Definition exit_code (st : verdict) : Z :=
  if fst st then 0 else 1.

(** The script on the text of the log and the duration in milliseconds:
    exit code and failures. An exception while reading exits with 4. *)
Definition check_log (text : string) (duration_ms : Z)
  : pyresult (Z * list failure) :=
  match count_lines (PyStr.file_lines text) with
  | Raise _ => Ok (4, [])
  | Ok c =>
      st ← run_checks duration_ms (sample_counts c) (alert_counts c);
      Ok (exit_code st, snd st)
  end.

End CheckLog.

(** ** The builtins [float] and [int]

    The parser below takes the two conversions as parameters. This reader
    is the instance used to run it on concrete logs: signed decimal
    literals with an optional fraction and exponent, surrounded by
    optional white space. Python accepts further spellings (digit group
    separators, the special values); the reader rejects them with
    [ValueError], and no general statement depends on it. *)

Module PyFloat.

Definition digit_of (c : ascii) : option Z :=
  let n := PyStr.code c in
  if ((48 <=? n) && (n <=? 57))%N then Some (Z.of_N n - 48) else None.

(** The longest prefix of digits: its value after [acc], how many digits
    were read, and the rest of the string. *)
Fixpoint read_digits (s : string) (acc : Z) (k : nat) : Z * nat * string :=
  match s with
  | EmptyString => (acc, k, s)
  | String c r =>
      match digit_of c with
      | Some d => read_digits r (10 * acc + d) (S k)
      | None => (acc, k, s)
      end
  end.

Definition read_sign (s : string) : bool * string :=
  match s with
  | String "-" r => (true, r)
  | String "+" r => (false, r)
  | _ => (false, s)
  end.

Definition read_exponent (s : string) : option Z :=
  match s with
  | EmptyString => Some 0
  | String c r =>
      if Ascii.eqb c "e" || Ascii.eqb c "E" then
        let '(neg, r1) := read_sign r in
        match read_digits r1 0 0 with
        | (_, O, _) => None
        | (e, _, EmptyString) => Some (if neg then - e else e)
        | _ => None
        end
      else None
  end.

Definition float_of_string (s : string) : pyresult Q :=
  let '(neg, s1) := read_sign (PyStr.strip s) in
  let '(ip, ni, s2) := read_digits s1 0 0 in
  let '(m, nf, s3) :=
    match s2 with
    | String "." r => let '(m, nf, s3) := read_digits r ip 0 in (m, nf, s3)
    | _ => (ip, O, s2)
    end in
  match (ni + nf)%nat, read_exponent s3 with
  | O, _ => Raise ValueError
  | _, None => Raise ValueError
  | _, Some e =>
      let q := (inject_Z m * Qpower (inject_Z 10) (e - Z.of_nat nf))%Q in
      Ok (Qred (if neg then Qopp q else q))
  end.

(** [int(x)] on a float that holds a number: truncation towards zero. *)
Definition int_of_float (x : Q) : pyresult Z :=
  Ok (Z.quot (Qnum x) (Zpos (Qden x))).

End PyFloat.

(** ** Python floats

    A Python [float] is an IEEE 754 binary64 number. Its arithmetic is the
    Standard Library's specification of binary floating point: every
    operation rounds to nearest, ties to even. *)

Module Float64.

Definition prec : Z := 53.
Definition emax : Z := 1024.

Definition float : Type := spec_float.

Definition nan : float := S754_nan.
Definition inf : float := S754_infinity false.
Definition zero : float := S754_zero false.

(** The float nearest to an integer. *)
Definition of_Z (z : Z) : float := binary_normalize prec emax z 0 false.

Definition add : float -> float -> float := SFadd prec emax.
Definition sub : float -> float -> float := SFsub prec emax.
Definition div : float -> float -> float := SFdiv prec emax.
Definition opp : float -> float := SFopp.

(** [x == y] and [x < y]: both are false when an operand is NaN. *)
Definition eqb : float -> float -> bool := SFeqb.
Definition ltb : float -> float -> bool := SFltb.

Definition isnan (x : float) : bool :=
  match x with
  | S754_nan => true
  | _ => false
  end.

Definition isinf (x : float) : bool :=
  match x with
  | S754_infinity _ => true
  | _ => false
  end.

(** A number: neither NaN nor infinite. *)
Definition is_finite (x : float) : bool :=
  match x with
  | S754_zero _ | S754_finite _ _ _ => true
  | _ => false
  end.

Definition signbit (x : float) : bool :=
  match x with
  | S754_zero s | S754_infinity s | S754_finite s _ _ => s
  | S754_nan => false
  end.

(** The rational a finite float stands for, in lowest terms. *)
Definition to_Q (x : float) : option Q :=
  match x with
  | S754_zero _ => Some 0%Q
  | S754_finite s m e =>
      let q := Qred (inject_Z (Zpos m) * Qpower (inject_Z 2) e)%Q in
      Some (if s then Qopp q else q)
  | _ => None
  end.

End Float64.

(** ** tools/parse_logs.py *)

Module ParseLogs.

#[local] Abbreviation float := Float64.float.

(** The row dicts appended to [samples] and [alerts]. *)
Record Sample (V : Type) : Type := {
  s_type : string;
  s_value : V;
  s_ts_ms : Z
}.
Arguments s_type {V} _.
Arguments s_value {V} _.
Arguments s_ts_ms {V} _.

Record Alert (V : Type) : Type := {
  a_type : string;
  a_value : V;
  a_ts_ms : Z;
  a_info : string
}.
Arguments a_type {V} _.
Arguments a_value {V} _.
Arguments a_ts_ms {V} _.
Arguments a_info {V} _.

Section parse_log.
Context {V : Type}.
(** [float(s)] and [int(x)] *)
Variable py_float : string -> pyresult V.
Variable py_int : V -> pyresult Z.

Definition frames : Type := list (Sample V) * list (Alert V).

(** The body of the loop over the lines of the file. *)
Definition parse_line (st : frames) (raw : string) : pyresult frames :=
  let '(samples, alerts) := st in
  let line := PyStr.strip raw in
  if String.eqb line EmptyString then Ok st
  else
    let parts := PyStr.split "|" line in
    p0 ← py_getitem parts 0;
    if String.eqb p0 "SAMPLE" && (4 <=? length parts)%nat then
      try_except
        (typ ← py_getitem parts 1;
         f2 ← py_getitem parts 2;
         val ← py_float f2;
         f3 ← py_getitem parts 3;
         x ← py_float f3;
         ts_ms ← py_int x;
         Ok (samples ++ [{| s_type := typ; s_value := val;
                            s_ts_ms := ts_ms |}], alerts))
        (fun _ => Ok st)
    else if String.eqb p0 "ALERT" && (5 <=? length parts)%nat then
      try_except
        (typ ← py_getitem parts 1;
         f2 ← py_getitem parts 2;
         val ← py_float f2;
         f3 ← py_getitem parts 3;
         x ← py_float f3;
         ts_ms ← py_int x;
         info ← (if (4 <? length parts)%nat then py_getitem parts 4
                 else Ok EmptyString);
         Ok (samples, alerts ++ [{| a_type := typ; a_value := val;
                                    a_ts_ms := ts_ms; a_info := info |}]))
        (fun _ => Ok st)
    else Ok st.

Definition parse_lines (lines : list string) : pyresult frames :=
  py_for parse_line lines ([], []).

(** [parse_log] on the text of the file at [path]. *)
Definition parse_log (text : string) : pyresult frames :=
  parse_lines (PyStr.file_lines text).

End parse_log.

(** *** pandas reductions on a column of floats

    [summary_csv] leaves its statistics to pandas. They are taken as an
    interface: a column holds values of type [V], a statistic is a float
    result of type [F] (in Python both are binary64 floats), and [isna]
    tells the values that pandas treats as missing, which for floats are
    the NaNs. *)
Class Missing (V : Type) : Type := isna : V -> bool.

Class Series (V F : Type) : Type := {
  series_min : list V -> F;
  series_max : list V -> F;
  series_mean : list V -> F;
  series_std : list V -> F
}.

(** [Series.dropna()] *)
Definition dropna `{Missing V} (d : list V) : list V :=
  List.filter (fun v => negb (isna v)) d.

(** [Series.count()]: the number of values that are not missing. *)
Definition series_count `{Missing V} (d : list V) : Z :=
  Z.of_nat (length (dropna d)).

(** The statistics of a column of rationals in exact arithmetic, the
    instance the examples run on: a rational is never missing, and a
    statistic is a number, the square root of a number, or NaN. *)
Inductive exact_stat : Type :=
| Num (q : Q)
| Root (q : Q)
| NaN.

Definition Qsum (l : list Q) : Q := foldl Qplus 0%Q l.

Definition exact_min (d : list Q) : exact_stat :=
  match d with
  | [] => NaN
  | x :: r => Num (foldl Qmin x r)
  end.

Definition exact_max (d : list Q) : exact_stat :=
  match d with
  | [] => NaN
  | x :: r => Num (foldl Qmax x r)
  end.

Definition exact_mean (d : list Q) : exact_stat :=
  match d with
  | [] => NaN
  | _ => Num (Qsum d / inject_Z (Z.of_nat (length d)))%Q
  end.

(** The standard deviation with one delta degree of freedom. *)
Definition exact_std (d : list Q) : exact_stat :=
  let n := Z.of_nat (length d) in
  if (n <=? 1)%Z then NaN
  else
    let m := (Qsum d / inject_Z n)%Q in
    Root (Qsum (map (fun x => (x - m) * (x - m))%Q d) / inject_Z (n - 1))%Q.

#[global] Instance exact_missing : Missing Q := fun _ => false.

(** A float is missing when it is NaN. *)
#[global] Instance float_missing : Missing float := Float64.isnan.

#[global] Instance exact_series : Series Q exact_stat := {|
  series_min := exact_min;
  series_max := exact_max;
  series_mean := exact_mean;
  series_std := exact_std
|}.

(** *** summary_csv *)

Record SummaryRow (F : Type) : Type := {
  row_sensor : string;
  row_count : Z;
  row_min : option F;
  row_max : option F;
  row_mean : option F;
  row_std : option F;
  row_alert_count : Z
}.
Arguments row_sensor {F} _.
Arguments row_count {F} _.
Arguments row_min {F} _.
Arguments row_max {F} _.
Arguments row_mean {F} _.
Arguments row_std {F} _.
Arguments row_alert_count {F} _.

(** [Series.unique()]: the distinct values, by first appearance. *)
Fixpoint unique_from (seen l : list string) : list string :=
  match l with
  | [] => []
  | x :: r =>
      if existsb (String.eqb x) seen then unique_from seen r
      else x :: unique_from (x :: seen) r
  end.

Definition unique (l : list string) : list string := unique_from [] l.

(** [sorted] on strings. *)
Fixpoint insert_sorted (x : string) (l : list string) : list string :=
  match l with
  | [] => [x]
  | y :: r => if String.leb x y then x :: l else y :: insert_sorted x r
  end.

Definition sorted (l : list string) : list string :=
  foldr insert_sorted [] l.

(** [df['type']]: a frame built from no rows has no column to select. *)
Definition column {R A} (f : R -> A) (df : list R) : pyresult (list A) :=
  match df with
  | [] => Raise KeyError
  | _ => Ok (map f df)
  end.

(** [df[df['type'] == s]] *)
Definition rows_of_type {R} (typ : R -> string) (df : list R) (s : string)
  : pyresult (list R) :=
  col ← column typ df;
  Ok (List.filter (fun r => String.eqb (typ r) s) df).

Fixpoint py_map {A B} (f : A -> pyresult B) (l : list A)
  : pyresult (list B) :=
  match l with
  | [] => Ok []
  | x :: r => y ← f x; ys ← py_map f r; Ok (y :: ys)
  end.

Section summary_csv.
Context {V F : Type} `{!Missing V, !Series V F}.

Definition summary_row (df_samples : list (Sample V))
  (df_alerts : list (Alert V)) (s : string) : pyresult (SummaryRow F) :=
  ds ← rows_of_type s_type df_samples s;
  let d := map s_value ds in
  let empty := match d with [] => true | _ => false end in
  sel ← rows_of_type a_type df_alerts s;
  Ok {| row_sensor := s;
        row_count := series_count d;
        row_min := if empty then None else Some (series_min d);
        row_max := if empty then None else Some (series_max d);
        row_mean := if empty then None else Some (series_mean d);
        row_std := if empty then None else Some (series_std d);
        row_alert_count := Z.of_nat (length sel) |}.

(** The rows of [df_summary]. *)
Definition summary_csv (df_samples : list (Sample V))
  (df_alerts : list (Alert V)) : pyresult (list (SummaryRow F)) :=
  types ← column s_type df_samples;
  let sensors := sorted (unique types) in
  py_map (summary_row df_samples df_alerts) sensors.

End summary_csv.

(** *** The moving average of plot_timeseries *)

(** [np.clip] *)
Definition clip (x lo hi : Z) : Z := Z.min hi (Z.max lo x).

(** The window of row [i] in a rolling window of fixed size, closed on
    the right: rows [start] to [end - 1]. *)
Definition window_bounds (num_values window_size i : Z) : Z * Z :=
  let end_ := i + 1 in
  let start := end_ - window_size in
  (clip start 0 num_values, clip end_ 0 num_values).

(** [values[j] for j in range(s, e)] *)
Definition slice {A} (values : list A) (s e : Z) : list A :=
  take (Z.to_nat e - Z.to_nat s) (drop (Z.to_nat s) values).

(** The running state of the rolling mean: the number of observations in
    the window, how many of them are negative, their sum with the two
    compensations of the Kahan summation, and the length and value of the
    run of equal values last added. *)
Record mean_state : Type := {
  nobs : Z;
  neg_ct : Z;
  sum_x : float;
  compensation_add : float;
  compensation_remove : float;
  num_consecutive_same_value : Z;
  prev_value : float
}.

(** The state a window is set up with, [prev] being its first value. *)
Definition mean_setup (prev : float) : mean_state :=
  {| nobs := 0; neg_ct := 0; sum_x := Float64.zero;
     compensation_add := Float64.zero; compensation_remove := Float64.zero;
     num_consecutive_same_value := 0; prev_value := prev |}.

(** A value enters the window; a NaN is passed over. *)
Definition add_mean (st : mean_state) (val : float) : mean_state :=
  if Float64.eqb val val then
    let y := Float64.sub val (compensation_add st) in
    let t := Float64.add (sum_x st) y in
    {| nobs := nobs st + 1;
       neg_ct := if Float64.signbit val then neg_ct st + 1 else neg_ct st;
       sum_x := t;
       compensation_add := Float64.sub (Float64.sub t (sum_x st)) y;
       compensation_remove := compensation_remove st;
       num_consecutive_same_value :=
         if Float64.eqb val (prev_value st)
         then num_consecutive_same_value st + 1 else 1;
       prev_value := val |}
  else st.

(** A value leaves the window. *)
Definition remove_mean (st : mean_state) (val : float) : mean_state :=
  if Float64.eqb val val then
    let y := Float64.sub (Float64.opp val) (compensation_remove st) in
    let t := Float64.add (sum_x st) y in
    {| nobs := nobs st - 1;
       neg_ct := if Float64.signbit val then neg_ct st - 1 else neg_ct st;
       sum_x := t;
       compensation_add := compensation_add st;
       compensation_remove := Float64.sub (Float64.sub t (sum_x st)) y;
       num_consecutive_same_value := num_consecutive_same_value st;
       prev_value := prev_value st |}
  else st.

(** The mean of the window: NaN below [minp] observations or without any,
    the repeated value when the window holds one value only, and else the
    quotient, set to zero when its sign contradicts the signs of the
    values. *)
Definition calc_mean (minp : Z) (st : mean_state) : float :=
  if (minp <=? nobs st) && (0 <? nobs st) then
    let result := Float64.div (sum_x st) (Float64.of_Z (nobs st)) in
    if nobs st <=? num_consecutive_same_value st then prev_value st
    else if (neg_ct st =? 0) && Float64.ltb result Float64.zero
         then Float64.zero
    else if (neg_ct st =? nobs st) && Float64.ltb Float64.zero result
         then Float64.zero
    else result
  else Float64.nan.

(** The state of a window that is set up afresh. *)
Definition fresh_state (values : list float) (s e : Z) : mean_state :=
  foldl add_mean (mean_setup (nth (Z.to_nat s) values Float64.nan))
    (slice values s e).

(** The rolling mean as pandas computes it: the first window is summed,
    and each later one is reached from the window before it by removing
    the values that left and adding the values that entered, unless the
    two windows do not overlap. *)
Fixpoint roll_mean_from (values : list float) (window minp : Z)
  (idx : list Z) (prev : option (Z * Z)) (st : mean_state) : list float :=
  match idx with
  | [] => []
  | i :: rest =>
      let '(s, e) := window_bounds (Z.of_nat (length values)) window i in
      let st' :=
        match prev with
        | None => fresh_state values s e
        | Some (ps, pe) =>
            if pe <=? s then fresh_state values s e
            else foldl add_mean (foldl remove_mean st (slice values ps s))
                       (slice values pe e)
        end in
      calc_mean minp st'
        :: roll_mean_from values window minp rest (Some (s, e)) st'
  end.

(** The values the windows run over: an infinite value is replaced by
    NaN. *)
Definition prep_values (values : list float) : list float :=
  map (fun v => if Float64.isinf v then Float64.nan else v) values.

(** [values.rolling(window=window, min_periods=minp).mean()], for a window
    that fits a 64-bit integer: a window below [minp] or below zero is
    refused with [ValueError]. *)
Definition rolling_mean (values : list float) (window minp : Z)
  : pyresult (list float) :=
  if (minp <? 0) || (window <? minp) || (window <? 0) then Raise ValueError
  else
    let values := prep_values values in
    Ok (roll_mean_from values window minp
          (seqZ 0 (Z.of_nat (length values))) None
          (mean_setup Float64.nan)).

(** A row of [d] once the column [ma] is set. *)
Record ma_point : Type := {
  mp_ts_ms : Z;
  mp_value : float;
  mp_ma : float
}.

Definition with_ma (s : Sample float) (m : float) : ma_point :=
  {| mp_ts_ms := s_ts_ms s; mp_value := s_value s; mp_ma := m |}.

Section timeseries.
Context {T : Type}.
(** [d.sort_values('ts_ms')]: some sort by time stamp; the order it
    gives to rows of equal time stamp is not fixed. *)
Variable sort_values : list (Sample float) -> list (Sample float).
(** [pd.to_datetime(column, unit='ms')] *)
Variable to_datetime : list Z -> pyresult (list T).

(** The frame [d] once its columns are set: the column [ts], and the
    sorted rows, each with its moving average. *)
Record ma_frame : Type := {
  mf_ts : list T;
  mf_points : list ma_point
}.

Definition ma_series (d : list (Sample float)) (window : Z)
  : pyresult ma_frame :=
  let d := sort_values d in
  ts ← to_datetime (map s_ts_ms d);
  ma ← rolling_mean (map s_value d) window 1;
  Ok {| mf_ts := ts; mf_points := zip_with with_ma d ma |}.

(** The data [plot_timeseries] draws: nothing when the sensor has no
    sample. *)
Definition plot_timeseries (df : list (Sample float)) (sensor : string)
  (window : Z) : pyresult (option ma_frame) :=
  d ← rows_of_type s_type df sensor;
  match d with
  | [] => Ok None
  | _ => frame ← ma_series d window; Ok (Some frame)
  end.
End timeseries.

(** A stable sort by time stamp, one possible [sort_values]. *)
Fixpoint insert_by_ts {V} (x : Sample V) (l : list (Sample V))
  : list (Sample V) :=
  match l with
  | [] => [x]
  | y :: r =>
      if s_ts_ms x <=? s_ts_ms y then x :: l else y :: insert_by_ts x r
  end.

Definition sort_by_ts {V} (l : list (Sample V)) : list (Sample V) :=
  foldr insert_by_ts [] l.

(** *** The markers of plot_timeseries *)

(** [np.ceil(n / m)] on integers, for [0 < m]. *)
Definition ceil_div (n m : Z) : Z := - ((- n) / m).

Definition max_markers : Z := 30.

(** [max(1, int(np.ceil(N / max_markers)))] *)
Definition marker_step (N : Z) : Z := Z.max 1 (ceil_div N max_markers).

(** [xs[::step]] for [1 <= step], [skip] rows being left out first. *)
Fixpoint every_nth_from {A} (step skip : nat) (xs : list A) : list A :=
  match xs with
  | [] => []
  | x :: r =>
      match skip with
      | O => x :: every_nth_from step (step - 1) r
      | S k => every_nth_from step k r
      end
  end.

Definition every_nth {A} (step : nat) (xs : list A) : list A :=
  every_nth_from step 0 xs.

(** The rows of [d] that get a marker: [d[::step]] with the step of [N]
    rows. *)
Definition marker_rows {A} (d : list A) : list A :=
  every_nth (Z.to_nat (marker_step (Z.of_nat (length d)))) d.

(** *** plot_histogram *)

(** The values [plot_histogram] bins: none when the sensor has no sample
    left once the missing values are dropped. *)
Definition histogram_values `{Missing V} (df : list (Sample V))
  (sensor : string) : pyresult (option (list V)) :=
  d ← rows_of_type s_type df sensor;
  match dropna (map s_value d) with
  | [] => Ok None
  | vals => Ok (Some vals)
  end.

(** *** plot_alerts_timeline *)

(** The points of one type: [sel], drawn at height [type_to_y[t]]. *)
Record lane (V : Type) : Type := {
  lane_type : string;
  lane_y : nat;
  lane_rows : list (Alert V)
}.
Arguments lane_type {V} _.
Arguments lane_y {V} _.
Arguments lane_rows {V} _.

(** [{t: i for i, t in enumerate(types)}] *)
Definition enumerate_dict (types : list string) : gmap string nat :=
  foldl (fun m '(i, t) => <[t := i]> m) ∅
    (zip (seq 0 (length types)) types).

Section alerts_timeline.
Context {V T : Type}.
(** [df_alerts.sort_values('ts_ms')], as for the samples. *)
Variable sort_alerts : list (Alert V) -> list (Alert V).
(** [pd.to_datetime(column, unit='ms')] *)
Variable to_datetime : list Z -> pyresult (list T).

(** What the figure is drawn from: the column [ts], the column [ys] (None
    for a type without entry in [type_to_y]) and one lane per type. *)
Record timeline : Type := {
  tl_ts : list T;
  tl_ys : list (option nat);
  tl_lanes : list (lane V)
}.

Definition timeline_lane (df : list (Alert V)) (type_to_y : gmap string nat)
  (t : string) : pyresult (lane V) :=
  sel ← rows_of_type a_type df t;
  y ← py_item type_to_y t;
  Ok {| lane_type := t; lane_y := y; lane_rows := sel |}.

Definition plot_alerts_timeline (df_alerts : list (Alert V))
  : pyresult (option timeline) :=
  match df_alerts with
  | [] => Ok None
  | _ =>
      let df := sort_alerts df_alerts in
      ts ← to_datetime (map a_ts_ms df);
      col ← column a_type df;
      let types := sorted (unique col) in
      let type_to_y := enumerate_dict types in
      let ys := map (fun a => type_to_y !! a_type a) df in
      lanes ← py_map (timeline_lane df type_to_y) types;
      Ok (Some {| tl_ts := ts; tl_ys := ys; tl_lanes := lanes |})
  end.
End alerts_timeline.

(** A stable sort of the alerts by time stamp, one possible [sort_alerts]. *)
Fixpoint insert_alert_by_ts {V} (x : Alert V) (l : list (Alert V))
  : list (Alert V) :=
  match l with
  | [] => [x]
  | y :: r =>
      if (a_ts_ms x <=? a_ts_ms y)%Z then x :: l
      else y :: insert_alert_by_ts x r
  end.

Definition sort_alerts_by_ts {V} (l : list (Alert V)) : list (Alert V) :=
  foldr insert_alert_by_ts [] l.

(** *** main, up to the charts *)

(** How the run ends, or what it enters the loop of the charts with. *)
Inductive outcome (F : Type) : Type :=
| SysExit (code : Z)
| Uncaught (e : pyexn)
| Charts (df_summary : list (SummaryRow F)) (sensors : list string).
Arguments SysExit {F} code.
Arguments Uncaught {F} e.
Arguments Charts {F} df_summary sensors.

Section main.
Context {V F : Type} `{!Missing V, !Series V F}.
Variable py_float : string -> pyresult V.
Variable py_int : V -> pyresult Z.

(** [main] on the text of the log file, [None] when the file does not
    exist, until the loop over the sensors. *)
Definition main_until_charts (logfile : option string) : outcome F :=
  match logfile with
  | None => SysExit 2
  | Some text =>
      match parse_log py_float py_int text with
      | Raise e => Uncaught e
      | Ok (df_samples, df_alerts) =>
          match df_samples with
          | [] => SysExit 3
          | _ =>
              match summary_csv df_samples df_alerts with
              | Raise e => Uncaught e
              | Ok df_summary =>
                  match column s_type df_samples with
                  | Raise e => Uncaught e
                  | Ok types => Charts df_summary (sorted (unique types))
                  end
              end
          end
      end
  end.
End main.

End ParseLogs.

(** ** Vocabulary of the statements *)

Module Spec.
Import CheckLog ParseLogs.

#[local] Abbreviation float := Float64.float.

(** The failure reported for sensor [k] with [got] samples at rate
    [rate], if any. *)
Definition too_low (duration_ms : Z) (k : string) (got rate : Z)
  : option failure :=
  let wanted := Z.max 1 (duration_ms / rate - 1) in
  if got <? wanted then Some (SampleCountTooLow k got wanted) else None.

(** The fields of a raw line. *)
Definition fields (raw : string) : list string :=
  PyStr.split "|" (PyStr.strip raw).

Definition blank (raw : string) : bool :=
  String.eqb (PyStr.strip raw) EmptyString.

(** A line that is not blank, starts with the field [tag] and has at
    least [n] fields. *)
Definition shaped (tag : string) (n : nat) (raw : string) : bool :=
  negb (blank raw)
  && String.eqb (nth 0 (fields raw) EmptyString) tag
  && (n <=? length (fields raw))%nat.

Definition field (i : nat) (raw : string) : string :=
  nth i (fields raw) EmptyString.

Definition flag (b : bool) : Z := if b then 1 else 0.

Definition n_lines (p : string -> bool) (lines : list string) : Z :=
  Z.of_nat (length (List.filter p lines)).

(** A line the checker counts as a sample (an alert) of type [k]. *)
Definition counted (tag : string) (n : nat) (k raw : string) : bool :=
  shaped tag n raw && String.eqb (field 1 raw) k.

Section lines.
Context {V : Type}.
Variable py_float : string -> pyresult V.
Variable py_int : V -> pyresult Z.

(** [int(float(f))] *)
Definition to_ts (f : string) : pyresult Z :=
  x ← py_float f; py_int x.

(** Both numeric fields of the line convert. *)
Definition converts (raw : string) : bool :=
  match py_float (field 2 raw), to_ts (field 3 raw) with
  | Ok _, Ok _ => true
  | _, _ => false
  end.

(** The sample a line stands for, if it is a well-formed SAMPLE line. *)
Definition sample_of_line (raw : string) : option (Sample V) :=
  if shaped "SAMPLE" 4 raw then
    match py_float (field 2 raw), to_ts (field 3 raw) with
    | Ok v, Ok t =>
        Some {| s_type := field 1 raw; s_value := v; s_ts_ms := t |}
    | _, _ => None
    end
  else None.

(** The alert a line stands for, if it is a well-formed ALERT line. *)
Definition alert_of_line (raw : string) : option (Alert V) :=
  if shaped "ALERT" 5 raw then
    match py_float (field 2 raw), to_ts (field 3 raw) with
    | Ok v, Ok t =>
        Some {| a_type := field 1 raw; a_value := v; a_ts_ms := t;
                a_info := field 4 raw |}
    | _, _ => None
    end
  else None.

(** The number of rows of type [k], as [df[df['type'] == k]] has them. *)
Definition samples_of_type (k : string) (df : list (Sample V)) : Z :=
Z.of_nat (length (List.filter (fun s => String.eqb (s_type s) k) df)).

Definition alerts_of_type (k : string) (df : list (Alert V)) : Z :=
Z.of_nat (length (List.filter (fun a => String.eqb (a_type a) k) df)).

(** A line the checker counts for [k] and the parser skips. *)
Definition unconverted (tag : string) (n : nat) (k raw : string) : bool :=
counted tag n k raw && negb (converts raw).

(** The lines the error policy names: blank, unknown first field, too
    few fields, or a numeric field that does not convert. *)
Definition malformed (raw : string) : Prop :=
  blank raw = true
  \/ (field 0 raw <> "SAMPLE" /\ field 0 raw <> "ALERT")
  \/ (field 0 raw = "SAMPLE" /\ (length (fields raw) < 4)%nat)
  \/ (field 0 raw = "ALERT" /\ (length (fields raw) < 5)%nat)
  \/ (exists e, py_float (field 2 raw) = Raise e)
  \/ (exists e, to_ts (field 3 raw) = Raise e).

Definition well_formed (raw : string) : bool :=
  (shaped "SAMPLE" 4 raw || shaped "ALERT" 5 raw) && converts raw.
End lines.

(** One of the three sensor types of the checker. *)
Definition known (k : string) : bool := existsb (String.eqb k) sensors.

(** The values of the samples of type [s]. *)
Definition values_of_type {V} (s : string) (df : list (Sample V)) : list V :=
map s_value (List.filter (fun r => String.eqb (s_type r) s) df).

(** The row of a sensor [s]: the statistics of the column [d] of its
    values, and its number of alerts. *)
Definition row_of `{Missing V, Series V F} (s : string) (d : list V)
  (alert_count : Z) : SummaryRow F :=
let empty := match d with [] => true | _ => false end in
{| row_sensor := s;
   row_count := series_count d;
   row_min := if empty then None else Some (series_min d);
   row_max := if empty then None else Some (series_max d);
   row_mean := if empty then None else Some (series_mean d);
   row_std := if empty then None else Some (series_std d);
   row_alert_count := alert_count |}.

(** The row of sensor [s] when both frames have their columns. *)
Definition row_for `{Missing V, Series V F} (df_samples : list (Sample V))
  (df_alerts : list (Alert V)) (s : string) : SummaryRow F :=
row_of s (values_of_type s df_samples) (alerts_of_type s df_alerts).

(** The value at position [j] of a column of floats. *)
Definition value_at (values : list float) (j : Z) : float :=
nth (Z.to_nat j) values Float64.nan.

(** No value at the positions [max(0, i - window + 1)] to [i], both
    included, is a number. *)
Definition window_without_number (values : list float) (window i : Z)
  : Prop :=
forall j, Z.max 0 (i - window + 1) <= j <= i ->
          Float64.is_finite (value_at values j) = false.

(** The numbers at the positions [max(0, i - window + 1)] to [i] are all
    the same number [c], and there is one. *)
Definition window_repeats (values : list float) (window i : Z) (c : float)
  : Prop :=
Float64.is_finite c = true
/\ (exists j, Z.max 0 (i - window + 1) <= j <= i /\ value_at values j = c)
/\ forall j, Z.max 0 (i - window + 1) <= j <= i ->
             Float64.is_finite (value_at values j) = true ->
             value_at values j = c.

(** The exact mean of rationals. *)
Definition arithmetic_mean (xs : list Q) : Q :=
(Qsum xs / inject_Z (Z.of_nat (length xs)))%Q.

(** Ascending time stamps. *)
Definition ts_le {V} (a b : Sample V) : Prop := s_ts_ms a <= s_ts_ms b.

Definition ts_lt {V} (a b : Sample V) : Prop := s_ts_ms a < s_ts_ms b.

(** The observations of a window: its values that are not NaN. *)
Definition observations (values : list float) (b : Z * Z) : list float :=
dropna (slice values (fst b) (snd b)).

(** The run of equal values kept by the running state covers every run
    of one value that ends the observations [obs], and it is a run of
    that value. *)
Definition run_covers (obs : list float) (st : mean_state) : Prop :=
0 <= num_consecutive_same_value st
/\ forall c pre suf,
     obs = pre ++ suf -> suf <> [] -> (forall v, In v suf -> v = c) ->
     Z.of_nat (length suf) <= num_consecutive_same_value st
     /\ prev_value st = c.

(** The running state counts the observations of the window [b], and its
    run of equal values covers the runs that end them. *)
Definition tracks (values : list float) (st : mean_state) (b : Z * Z)
  : Prop :=
nobs st = Z.of_nat (length (observations values b))
/\ run_covers (observations values b) st.

(** A sensor reading: a TEMP sample of an integer value. *)
Definition reading (value ts_ms : Z) : Sample float :=
  {| s_type := "TEMP"; s_value := Float64.of_Z value; s_ts_ms := ts_ms |}.

(** Three samples out of order, for the examples. *)
Definition three_samples : list (Sample float) :=
  [reading 4 1500; reading 2 500; reading 3 1000].

(** A log from its lines, for the examples. *)
Definition log_of (lines : list string) : string :=
String.concat (String PyStr.LF EmptyString) lines.

(** Ten TEMP samples, one every 500 ms. *)
Definition ten_temp_samples : list string :=
["SAMPLE|TEMP|21.5|500"; "SAMPLE|TEMP|21.6|1000"; "SAMPLE|TEMP|21.7|1500";
 "SAMPLE|TEMP|21.8|2000"; "SAMPLE|TEMP|21.9|2500"; "SAMPLE|TEMP|22.0|3000";
 "SAMPLE|TEMP|22.1|3500"; "SAMPLE|TEMP|22.2|4000"; "SAMPLE|TEMP|22.3|4500";
 "SAMPLE|TEMP|22.4|5000"].

(** The sum of a column of integers. *)
Definition Zsum (l : list Z) : Z := foldr Z.add 0 l.

(** A string of white space only. *)
Definition all_space (s : string) : bool :=
  forallb PyStr.is_space (list_ascii_of_string s).

(** How many times a character occurs in a string. *)
Definition occurrences (c : ascii) (s : string) : nat :=
  length (List.filter (Ascii.eqb c) (list_ascii_of_string s)).

(** The text with every line feed replaced by carriage return and line
    feed. *)
Fixpoint to_crlf (s : string) : string :=
  match s with
  | EmptyString => EmptyString
  | String c r =>
      if Ascii.eqb c PyStr.LF then String PyStr.CR (String PyStr.LF (to_crlf r))
      else String c (to_crlf r)
  end.

(** The sample of a well-formed SAMPLE line of the log, as a row. *)
Definition sample_rows {V} (py_float : string -> pyresult V)
  (py_int : V -> pyresult Z) (text : string) : list (Sample V) :=
  omap (sample_of_line py_float py_int) (PyStr.file_lines text).

Definition alert_rows {V} (py_float : string -> pyresult V)
  (py_int : V -> pyresult Z) (text : string) : list (Alert V) :=
  omap (alert_of_line py_float py_int) (PyStr.file_lines text).

(** Strictly ascending strings, as [sorted] orders them. *)
Definition str_lt (a b : string) : Prop := String.ltb a b = true.

(** Ascending strings, as [String.leb] compares them. *)
Definition str_le (a b : string) : Prop := String.leb a b = true.

(** Samples of two sensors and one alert, for the examples. *)
Definition summary_example_samples : list (Sample Q) :=
  [{| s_type := "TEMP"; s_value := 4%Q; s_ts_ms := 1500 |};
   {| s_type := "TEMP"; s_value := 2%Q; s_ts_ms := 500 |};
   {| s_type := "TEMP"; s_value := 3%Q; s_ts_ms := 1000 |};
   {| s_type := "HUM"; s_value := 40%Q; s_ts_ms := 700 |}].

(** One TEMP alert. *)
Definition summary_example_alerts : list (Alert Q) :=
  [{| a_type := "TEMP"; a_value := 4%Q;
      a_ts_ms := 1500; a_info := "high" |}].

(** The lane of a type, when the frame has its columns. *)
Definition lane_for {V} (df : list (Alert V)) (types : list string)
  (t : string) : lane V :=
  {| lane_type := t;
     lane_y := default 0%nat (enumerate_dict types !! t);
     lane_rows := List.filter (fun a => String.eqb (a_type a) t) df |}.

End Spec.

(** * Properties *)

#[local] Abbreviation float := Float64.float.

(** ** The completeness and alert checks of check_log.py *)

Section check_log_facts.
Import CheckLog Spec.

Lemma sensor_dict_lookup {A} (t h p : A) :
  sensor_dict t h p !! "TEMP" = Some t
  /\ sensor_dict t h p !! "HUM" = Some h
  /\ sensor_dict t h p !! "PRESS" = Some p.
Proof.
  unfold sensor_dict. split; [|split].
  - by rewrite lookup_insert_eq.
  - rewrite lookup_insert_ne by done. by rewrite lookup_insert_eq.
  - rewrite !lookup_insert_ne by done. by rewrite lookup_insert_eq.
Qed.

Lemma sensor_dict_item {A} (t h p : A) :
  py_item (sensor_dict t h p) "TEMP" = Ok t
  /\ py_item (sensor_dict t h p) "HUM" = Ok h
  /\ py_item (sensor_dict t h p) "PRESS" = Ok p.
Proof.
  unfold py_item. destruct (sensor_dict_lookup t h p) as (-> & -> & ->).
  done.
Qed.

Lemma expected_dict d :
  expected d
  = sensor_dict (expected_for d 500) (expected_for d 700)
      (expected_for d 1200).
Proof.
  unfold expected, RATES_MS, sensor_dict.
  by rewrite !fmap_insert, fmap_empty.
Qed.

Lemma check_alerts_step d (aT aH aP : Z) ok errs :
  check_alerts d (sensor_dict aT aH aP) (ok, errs)
  = Ok (if 2500 <=? d
        then if aT <? 1 then (false, errs ++ [NoTempAlert d 2500])
             else (ok, errs)
        else (ok, errs)).
Proof.
  unfold check_alerts, RATES_MS.
  destruct (sensor_dict_item 500 700 1200) as (-> & _).
  destruct (sensor_dict_item aT aH aP) as (-> & _).
  cbn [mbind pyresult_bind snd].
  change (WINDOW_SIZE * 500) with 2500.
  destruct (2500 <=? d); [|done]. by destruct (aT <? 1).
Qed.

Lemma check_samples_step d (cT cH cP : Z) :
  check_samples (sensor_dict cT cH cP) (expected d) (true, [])
  = Ok (negb (cT <? expected_for d 500) && negb (cH <? expected_for d 700)
        && negb (cP <? expected_for d 1200),
        omap id [too_low d "TEMP" cT 500; too_low d "HUM" cH 700;
                 too_low d "PRESS" cP 1200]).
Proof.
  rewrite expected_dict.
  unfold check_samples, sensors, check_sample, too_low, expected_for.
  destruct (sensor_dict_item cT cH cP) as (ET & EH & EP).
  destruct (sensor_dict_item (Z.max 1 (d / 500 - 1)) (Z.max 1 (d / 700 - 1))
              (Z.max 1 (d / 1200 - 1))) as (XT & XH & XP).
  cbn [py_for mbind pyresult_bind].
  rewrite ET, XT. cbn [mbind pyresult_bind].
  destruct (cT <? _); cbn [mbind pyresult_bind];
    rewrite EH, XH; cbn [mbind pyresult_bind];
    destruct (cH <? _); cbn [mbind pyresult_bind];
    rewrite EP, XP; cbn [mbind pyresult_bind];
    destruct (cP <? _); reflexivity.
Qed.

Lemma elem_of_omap_id3 {A} (a b c : option A) (x : A) :
  x ∈ omap id [a; b; c] <-> a = Some x \/ b = Some x \/ c = Some x.
Proof.
  rewrite list_elem_of_omap. unfold id. split.
  - intros (y & Hy & E). subst y.
    rewrite !elem_of_cons, elem_of_nil in Hy.
    destruct Hy as [<- | [<- | [<- | []]]]; auto.
  - intros [H | [H | H]]; exists (Some x); (split; [|done]); subst;
      rewrite !elem_of_cons; tauto.
Qed.

Lemma too_low_Some d k got rate k' got' wanted' :
  too_low d k got rate = Some (SampleCountTooLow k' got' wanted')
  <-> k' = k /\ got' = got /\ wanted' = Z.max 1 (d / rate - 1)
      /\ got < Z.max 1 (d / rate - 1).
Proof.
  unfold too_low.
  destruct (Z.ltb_spec got (Z.max 1 (d / rate - 1))); split.
  - by intros [= <- <- <-].
  - by intros (-> & -> & -> & _).
  - done.
  - intros (_ & _ & _ & ?). lia.
Qed.
End check_log_facts.

(** C1. For each of TEMP, HUM and PRESS the expectation is
    [max(1, duration_ms // rate - 1)] with the rates 500, 700 and 1200; the
    sample check examines all three sensors and reports exactly those whose
    observed count is below their expectation, in that order; and the run
    ends with exit code 1 as soon as one sensor is reported. *)
Theorem C1_completeness_check (duration_ms cT cH cP : Z) :
  let sc := CheckLog.sensor_dict cT cH cP in
  let eT := Z.max 1 (duration_ms / 500 - 1) in
  let eH := Z.max 1 (duration_ms / 700 - 1) in
  let eP := Z.max 1 (duration_ms / 1200 - 1) in
  CheckLog.expected duration_ms = CheckLog.sensor_dict eT eH eP
  /\ (exists ok failures,
        CheckLog.check_samples sc (CheckLog.expected duration_ms) (true, [])
        = Ok (ok, failures)
        /\ failures
           = omap id [Spec.too_low duration_ms "TEMP" cT 500;
                      Spec.too_low duration_ms "HUM" cH 700;
                      Spec.too_low duration_ms "PRESS" cP 1200]
        /\ (forall k got wanted,
              CheckLog.SampleCountTooLow k got wanted ∈ failures
              <-> (k = "TEMP" /\ got = cT /\ wanted = eT /\ cT < eT)
                  \/ (k = "HUM" /\ got = cH /\ wanted = eH /\ cH < eH)
                  \/ (k = "PRESS" /\ got = cP /\ wanted = eP /\ cP < eP))
        /\ (ok = false <-> cT < eT \/ cH < eH \/ cP < eP)
        /\ (ok = false <-> failures <> []))
  /\ (cT < eT \/ cH < eH \/ cP < eP ->
      forall aT aH aP : Z,
      exists st,
        CheckLog.run_checks duration_ms sc (CheckLog.sensor_dict aT aH aP)
        = Ok st
        /\ CheckLog.exit_code st = 1).
Proof.
  intros sc eT eH eP.
  assert (Hstep := check_samples_step duration_ms cT cH cP).
  fold sc in Hstep. unfold CheckLog.expected_for in Hstep.
  fold eT eH eP in Hstep.
  split; [apply expected_dict|]. split.
  - eexists _, _. split; [exact Hstep|]. split; [reflexivity|].
    split; [|split].
    + intros k got wanted.
      rewrite elem_of_omap_id3, !too_low_Some. fold eT eH eP.
      split; (intros [H | [H | H]]; [left | right; left | right; right]);
        destruct H as (-> & -> & -> & ?); done.
    + destruct (Z.ltb_spec cT eT), (Z.ltb_spec cH eH), (Z.ltb_spec cP eP);
        simpl; split; intros; try done; try lia; tauto.
    + unfold Spec.too_low. fold eT eH eP.
      destruct (Z.ltb_spec cT eT), (Z.ltb_spec cH eH), (Z.ltb_spec cP eP);
        simpl; split; intros; done.
  - intros Hlow aT aH aP.
    unfold CheckLog.run_checks. rewrite Hstep.
    cbn [mbind pyresult_bind]. rewrite check_alerts_step.
    eexists. split; [reflexivity|].
    assert (negb (cT <? eT) && negb (cH <? eH) && negb (cP <? eP) = false)
      as ->.
    { destruct (Z.ltb_spec cT eT), (Z.ltb_spec cH eH), (Z.ltb_spec cP eP);
        simpl; try done; lia. }
    destruct (2500 <=? duration_ms); [destruct (aT <? 1)|]; reflexivity.
Qed.

(** C2. With [WINDOW_SIZE = 5] and the TEMP rate of 500 ms the threshold
    is 2500 ms. Below it the alert check leaves the verdict as it is,
    whatever the alert counts (zero included); from it on the check fails
    exactly when the TEMP alert count is zero; the HUM and PRESS counts
    never matter. *)
Theorem C2_alert_policy (duration_ms : Z) (aT aH aP : nat) :
  let ac := CheckLog.sensor_dict (Z.of_nat aT) (Z.of_nat aH) (Z.of_nat aP) in
  (exists rate, py_item CheckLog.RATES_MS "TEMP" = Ok rate
                /\ CheckLog.WINDOW_SIZE * rate = 2500)
  /\ (duration_ms < 2500 ->
      forall st, CheckLog.check_alerts duration_ms ac st = Ok st)
  /\ (2500 <= duration_ms ->
      (aT = 0%nat ->
       forall ok errs,
         CheckLog.check_alerts duration_ms ac (ok, errs)
         = Ok (false, errs ++ [CheckLog.NoTempAlert duration_ms 2500]))
      /\ (aT <> 0%nat ->
          forall st, CheckLog.check_alerts duration_ms ac st = Ok st)
      /\ (forall st',
            CheckLog.check_alerts duration_ms ac (true, []) = Ok st' ->
            (fst st' = false <-> aT = 0%nat)))
  /\ (forall (aH' aP' : nat) st,
        CheckLog.check_alerts duration_ms
          (CheckLog.sensor_dict (Z.of_nat aT) (Z.of_nat aH') (Z.of_nat aP')) st
        = CheckLog.check_alerts duration_ms ac st).
Proof.
  intros ac. subst ac. split; [|split; [|split]].
  - exists 500. split; [|done].
    unfold CheckLog.RATES_MS. apply sensor_dict_item.
  - intros Hlt [ok errs]. rewrite check_alerts_step.
    destruct (Z.leb_spec 2500 duration_ms); [lia | done].
  - intros Hge.
    assert (E : (2500 <=? duration_ms) = true) by (apply Z.leb_le; lia).
    split; [|split].
    + intros -> ok errs. by rewrite check_alerts_step, E.
    + intros Hnz [ok errs]. rewrite check_alerts_step, E.
      destruct (Z.ltb_spec (Z.of_nat aT) 1); [lia | done].
    + intros st'. rewrite check_alerts_step, E. intros [= <-].
      destruct (Z.ltb_spec (Z.of_nat aT) 1); simpl; split; intros;
        try done; lia.
  - intros aH' aP' [ok errs]. by rewrite !check_alerts_step.
Qed.

(** C8. For a positive rate, the expected count does not decrease when the
    duration grows. *)
Theorem C8_expected_monotone (R D1 D2 : Z) :
  0 < R -> D1 <= D2 ->
  CheckLog.expected_for D1 R <= CheckLog.expected_for D2 R.
Proof.
  intros HR HD. unfold CheckLog.expected_for.
  assert (D1 / R <= D2 / R) by (apply Z.div_le_mono; lia).
  lia.
Qed.

Lemma C8_expected_monotone_witness :
  CheckLog.expected_for 1000 500 <= CheckLog.expected_for 5000 500.
Proof. apply (C8_expected_monotone 500 1000 5000); lia. Defined.

(** ** Python strings *)

Section string_facts.
Import PyStr.

Lemma split_cons sep s : exists h t, split sep s = h :: t.
Proof.
  induction s as [|c r IH]; simpl; [eauto|].
  destruct (Ascii.eqb c sep); [eauto|].
  destruct IH as (h & t & ->). eauto.
Qed.

Lemma split_length sep s : (1 <= length (split sep s))%nat.
Proof. destruct (split_cons sep s) as (h & t & ->). simpl. lia. Qed.

(** No field of a split line holds the separator. *)
Lemma split_no_sep sep s f :
  In f (split sep s) -> ~ In sep (list_ascii_of_string f).
Proof.
  revert f. induction s as [|c r IH]; simpl; intros f Hf.
  - destruct Hf as [<- | []]. simpl. tauto.
  - destruct (Ascii.eqb_spec c sep) as [-> | Hne].
    + destruct Hf as [<- | Hf]; [simpl; tauto | auto].
    + destruct (split_cons sep r) as (h & t & E). rewrite E in *.
      destruct Hf as [<- | Hf].
      * simpl. intros [-> | Hin]; [done|].
        apply (IH h); [by left | done].
      * apply IH. by right.
Qed.

Lemma py_getitem_nth (xs : list string) i :
  (i < length xs)%nat -> py_getitem xs i = Ok (nth i xs EmptyString).
Proof.
  intros Hi. unfold py_getitem.
  destruct (xs !! i) eqn:E.
  - by rewrite (nth_lookup_Some _ _ _ _ E).
  - apply lookup_ge_None in E. lia.
Qed.
End string_facts.

(** ** The loop of parse_log *)

Section parse_log_facts.
Import ParseLogs Spec.
Context {V : Type}.
Variable py_float : string -> pyresult V.
Variable py_int : V -> pyresult Z.

#[local] Abbreviation parse_line := (parse_line py_float py_int).
#[local] Abbreviation sample_of_line := (sample_of_line py_float py_int).
#[local] Abbreviation alert_of_line := (alert_of_line py_float py_int).

Lemma shaped_exclusive raw :
  shaped "SAMPLE" 4 raw = true -> shaped "ALERT" 5 raw = false.
Proof.
  unfold shaped. intros H.
  apply andb_true_iff in H as [H _]. apply andb_true_iff in H as [_ H].
  apply String.eqb_eq in H. rewrite H. simpl. by rewrite andb_false_r.
Qed.

Lemma sample_alert_exclusive raw s :
  sample_of_line raw = Some s -> alert_of_line raw = None.
Proof.
  unfold sample_of_line, alert_of_line.
  destruct (shaped "SAMPLE" 4 raw) eqn:E; [|done].
  by rewrite (shaped_exclusive _ E).
Qed.

(** One round of the loop appends what the line stands for. *)
Lemma parse_line_spec samples alerts raw :
  parse_line (samples, alerts) raw
  = Ok (samples ++ option_list (sample_of_line raw),
        alerts ++ option_list (alert_of_line raw)).
Proof.
  unfold ParseLogs.parse_line, Spec.sample_of_line, Spec.alert_of_line,
    shaped, blank, field, fields, to_ts.
  destruct (String.eqb (PyStr.strip raw) EmptyString) eqn:Eb.
  { simpl. by rewrite !app_nil_r. }
  set (parts := PyStr.split "|" (PyStr.strip raw)).
  rewrite (py_getitem_nth parts 0) by apply split_length.
  cbn [mbind pyresult_bind negb andb].
  destruct (String.eqb (nth 0 parts EmptyString) "SAMPLE") eqn:Es.
  - assert (String.eqb (nth 0 parts EmptyString) "ALERT" = false) as ->.
    { apply String.eqb_eq in Es. by rewrite Es. }
    cbn [andb]. destruct (Nat.leb_spec 4 (length parts)) as [Hl|Hl].
    + rewrite !py_getitem_nth by lia. cbn [mbind pyresult_bind].
      destruct (py_float (nth 2 parts EmptyString)) as [v|e];
        cbn [mbind pyresult_bind try_except option_list];
        [|by rewrite !app_nil_r].
      destruct (py_float (nth 3 parts EmptyString)) as [x|e];
        cbn [mbind pyresult_bind try_except option_list];
        [|by rewrite !app_nil_r].
      destruct (py_int x) as [t|e];
        cbn [mbind pyresult_bind try_except option_list];
        by rewrite !app_nil_r.
    + cbn [option_list]. by rewrite !app_nil_r.
  - cbn [andb].
    destruct (String.eqb (nth 0 parts EmptyString) "ALERT") eqn:Ea;
      cbn [andb option_list]; [|by rewrite !app_nil_r].
    destruct (Nat.leb_spec 5 (length parts)) as [Hl|Hl];
      [|cbn [option_list]; by rewrite !app_nil_r].
    assert ((4 <? length parts)%nat = true) as -> by (apply Nat.ltb_lt; lia).
    rewrite !py_getitem_nth by lia. cbn [mbind pyresult_bind].
    destruct (py_float (nth 2 parts EmptyString)) as [v|e];
      cbn [mbind pyresult_bind try_except option_list];
      [|by rewrite !app_nil_r].
    destruct (py_float (nth 3 parts EmptyString)) as [x|e];
      cbn [mbind pyresult_bind try_except option_list];
      [|by rewrite !app_nil_r].
    destruct (py_int x) as [t|e];
      cbn [mbind pyresult_bind try_except option_list];
      by rewrite !app_nil_r.
Qed.

Lemma py_for_parse_line lines samples alerts :
  py_for parse_line lines (samples, alerts)
  = Ok (samples ++ omap sample_of_line lines,
        alerts ++ omap alert_of_line lines).
Proof.
  revert samples alerts. induction lines as [|raw lines IH]; intros.
  - simpl. by rewrite !app_nil_r.
  - cbn [py_for]. rewrite parse_line_spec. cbn [mbind pyresult_bind].
    rewrite IH, <- !app_assoc. cbn [omap list_omap].
    by destruct (sample_of_line raw), (alert_of_line raw).
Qed.

(** The two frames are the samples and the alerts of the lines, in file
    order. *)
Lemma parse_lines_spec lines :
  parse_lines py_float py_int lines
  = Ok (omap sample_of_line lines, omap alert_of_line lines).
Proof. unfold parse_lines. by rewrite py_for_parse_line. Qed.

End parse_log_facts.

Section parser_claims.
Import ParseLogs Spec.
Context {V : Type}.
Variable py_float : string -> pyresult V.
Variable py_int : V -> pyresult Z.

#[local] Abbreviation parse_line' := (parse_line py_float py_int).
#[local] Abbreviation sample_of_line' := (sample_of_line py_float py_int).
#[local] Abbreviation alert_of_line' := (alert_of_line py_float py_int).
#[local] Abbreviation well_formed' := (well_formed py_float py_int).
#[local] Abbreviation malformed' := (malformed py_float py_int).
#[local] Abbreviation converts' := (converts py_float py_int).

Lemma blank_fields raw : blank raw = true -> fields raw = [EmptyString].
Proof.
  unfold blank, fields. intros H. apply String.eqb_eq in H. by rewrite H.
Qed.

Lemma shaped_true tag n raw :
  shaped tag n raw = true
  <-> blank raw = false /\ field 0 raw = tag /\ (n <= length (fields raw))%nat.
Proof.
  unfold shaped, field.
  rewrite !andb_true_iff, negb_true_iff, String.eqb_eq, Nat.leb_le. tauto.
Qed.

Lemma shaped_not_blank tag n raw :
  (2 <= n)%nat -> field 0 raw = tag -> (n <= length (fields raw))%nat ->
  shaped tag n raw = true.
Proof.
  intros Hn H0 Hl. apply shaped_true. split; [|done].
  destruct (blank raw) eqn:E; [|done].
  rewrite (blank_fields _ E) in Hl. simpl in Hl. lia.
Qed.

(** What a line contributes, by its kind. *)
Lemma line_contribution raw :
  match sample_of_line' raw, alert_of_line' raw with
  | Some _, None | None, Some _ => well_formed' raw = true
  | None, None => well_formed' raw = false
  | Some _, Some _ => False
  end.
Proof.
  unfold Spec.sample_of_line, Spec.alert_of_line, Spec.well_formed,
    Spec.converts.
  destruct (shaped "SAMPLE" 4 raw) eqn:Es.
  - rewrite (shaped_exclusive _ Es).
    by destruct (py_float (field 2 raw)), (to_ts py_float py_int (field 3 raw)).
  - destruct (shaped "ALERT" 5 raw);
      by destruct (py_float (field 2 raw)),
           (to_ts py_float py_int (field 3 raw)).
Qed.

Lemma malformed_iff raw : malformed' raw <-> well_formed' raw = false.
Proof.
  unfold Spec.malformed, Spec.well_formed, Spec.converts. split.
  - intros [Hb | [[Hs Ha] | [[Hs Hl] | [[Ha Hl] | [[e He] | [e He]]]]]].
    + unfold shaped. by rewrite Hb.
    + unfold shaped, field in *.
      apply String.eqb_neq in Hs, Ha. rewrite Hs, Ha.
      by rewrite !andb_false_r.
    + assert (shaped "SAMPLE" 4 raw = false) as ->.
      { apply not_true_iff_false. rewrite shaped_true. lia. }
      assert (shaped "ALERT" 5 raw = false) as ->; [|done].
      apply not_true_iff_false. rewrite shaped_true, Hs.
      intros (_ & ? & _). done.
    + assert (shaped "ALERT" 5 raw = false) as ->.
      { apply not_true_iff_false. rewrite shaped_true. lia. }
      assert (shaped "SAMPLE" 4 raw = false) as ->; [|done].
      apply not_true_iff_false. rewrite shaped_true, Ha.
      intros (_ & ? & _). done.
    + rewrite He. by rewrite andb_false_r.
    + rewrite He. destruct (py_float (field 2 raw)); by rewrite andb_false_r.
  - intros H. apply andb_false_iff in H as [H | H].
    + apply orb_false_iff in H as [Hs Ha].
      destruct (blank raw) eqn:Eb; [by left | right].
      destruct (String.eqb_spec (field 0 raw) "SAMPLE") as [E0 | N0].
      { right. left. split; [done|].
        destruct (Nat.lt_ge_cases (length (fields raw)) 4) as [|Hge]; [done|].
        rewrite (proj2 (shaped_true _ _ _)) in Hs; done. }
      destruct (String.eqb_spec (field 0 raw) "ALERT") as [E1 | N1].
      { right. right. left. split; [done|].
        destruct (Nat.lt_ge_cases (length (fields raw)) 5) as [|Hge]; [done|].
        rewrite (proj2 (shaped_true _ _ _)) in Ha; done. }
      by left.
    + do 4 right.
      destruct (py_float (field 2 raw)) as [v|e]; [|left; eauto].
      destruct (to_ts py_float py_int (field 3 raw)) as [t|e];
        [done | right; eauto].
Qed.

Lemma contribution_length (lines : list string) :
  Z.of_nat (length (omap sample_of_line' lines))
  + Z.of_nat (length (omap alert_of_line' lines))
  = n_lines well_formed' lines.
Proof.
  unfold n_lines. induction lines as [|raw lines IH]; [done|].
  cbn [omap list_omap List.filter].
  assert (Hc := line_contribution raw).
  destruct (sample_of_line' raw), (alert_of_line' raw); try done;
    rewrite Hc; cbn [length]; lia.
Qed.

(** C6. The parser never raises. A line that is blank, or starts with
    neither SAMPLE nor ALERT, or is a SAMPLE line of fewer than 4 fields or
    an ALERT line of fewer than 5, or whose value or time stamp does not
    convert, leaves both sequences as they are; every other line is
    appended to exactly one of them. *)
Theorem C6_parser_skips_malformed (text : string) :
  (exists samples alerts,
      parse_log py_float py_int text = Ok (samples, alerts)
      /\ samples = omap sample_of_line' (PyStr.file_lines text)
      /\ alerts = omap alert_of_line' (PyStr.file_lines text)
      /\ Z.of_nat (length samples) + Z.of_nat (length alerts)
         = n_lines well_formed' (PyStr.file_lines text))
  /\ (forall raw, malformed' raw <-> well_formed' raw = false)
  /\ (forall raw st, malformed' raw -> parse_line' st raw = Ok st)
  /\ (forall raw samples alerts,
        well_formed' raw = true ->
        (exists s,
            parse_line' (samples, alerts) raw = Ok (samples ++ [s], alerts))
        \/ (exists a,
               parse_line' (samples, alerts) raw = Ok (samples, alerts ++ [a]))).
Proof.
  split; [|split; [|split]].
  - eexists _, _. unfold parse_log. rewrite parse_lines_spec.
    split; [reflexivity|]. split; [reflexivity|]. split; [reflexivity|].
    apply contribution_length.
  - apply malformed_iff.
  - intros raw [samples alerts] Hm. rewrite parse_line_spec.
    apply malformed_iff in Hm. assert (Hc := line_contribution raw).
    destruct (sample_of_line' raw), (alert_of_line' raw); try done;
      try congruence.
    cbn [option_list]. by rewrite !app_nil_r.
  - intros raw samples alerts Hw. rewrite parse_line_spec.
    assert (Hc := line_contribution raw).
    destruct (sample_of_line' raw) as [s|], (alert_of_line' raw) as [a|];
      try done; try congruence; cbn [option_list]; rewrite app_nil_r.
    + left. eauto.
    + right. eauto.
Qed.

(** C10. The [info] of a parsed alert is the fifth field of the stripped
    line: it holds no separator, and lines that agree on their first five
    fields give the same alert, whatever follows the fifth field. *)
Theorem C10_alert_info (raw : string) (samples : list (Sample V))
  (alerts : list (Alert V)) :
  shaped "ALERT" 5 raw = true -> converts' raw = true ->
  exists a,
    parse_line' (samples, alerts) raw = Ok (samples, alerts ++ [a])
    /\ a_info a = nth 4 (PyStr.split "|" (PyStr.strip raw)) EmptyString
    /\ ~ In "|"%char (list_ascii_of_string (a_info a))
    /\ (forall raw',
          (5 <= length (fields raw'))%nat ->
          take 5 (fields raw') = take 5 (fields raw) ->
          parse_line' (samples, alerts) raw'
          = Ok (samples, alerts ++ [a])).
Proof.
  intros Hs Hc.
  assert (Hline : forall raw',
             (5 <= length (fields raw'))%nat ->
             take 5 (fields raw') = take 5 (fields raw) ->
             sample_of_line' raw' = None
             /\ alert_of_line' raw' = alert_of_line' raw).
  { intros raw' Hl Ht.
    assert (Hf : forall i, (i < 5)%nat -> field i raw' = field i raw).
    { intros i Hi. unfold field.
      rewrite <- (take_drop 5 (fields raw')), <- (take_drop 5 (fields raw)).
      rewrite Ht. apply shaped_true in Hs as (_ & _ & Hl5).
      rewrite !app_nth1; [done | |]; rewrite length_take; lia. }
    apply shaped_true in Hs as (_ & H0 & _).
    assert (Hs' : shaped "ALERT" 5 raw' = true).
    { apply shaped_not_blank; [lia | | done]. rewrite Hf by lia. done. }
    assert (Hs0 : shaped "ALERT" 5 raw = true).
    { apply shaped_not_blank; [lia | done |].
      rewrite <- (take_drop 5 (fields raw)), <- Ht, length_app, length_take.
      lia. }
    unfold Spec.sample_of_line, Spec.alert_of_line.
    rewrite Hs', Hs0, !Hf by lia. split; [|done].
    destruct (shaped "SAMPLE" 4 raw') eqn:E; [|done].
    apply shaped_exclusive in E. congruence. }
  unfold Spec.converts in Hc.
  destruct (py_float (field 2 raw)) as [v|] eqn:Ev; [|done].
  destruct (to_ts py_float py_int (field 3 raw)) as [t|] eqn:Et; [|done].
  assert (Ha : alert_of_line' raw
               = Some {| a_type := field 1 raw; a_value := v; a_ts_ms := t;
                         a_info := field 4 raw |}).
  { unfold Spec.alert_of_line. by rewrite Hs, Ev, Et. }
  eexists. split; [|split; [|split]].
  - rewrite parse_line_spec, Ha.
    destruct (sample_of_line' raw) eqn:E.
    + apply sample_alert_exclusive in E. congruence.
    + cbn [option_list]. by rewrite app_nil_r.
  - reflexivity.
  - cbn [a_info]. apply (split_no_sep "|"%char (PyStr.strip raw)).
    apply nth_In. apply shaped_true in Hs as (_ & _ & Hl).
    unfold fields in Hl. lia.
  - intros raw' Hl Ht. destruct (Hline raw' Hl Ht) as [E1 E2].
    rewrite parse_line_spec, E1, E2, Ha. cbn [option_list].
    by rewrite app_nil_r.
Qed.

End parser_claims.

Lemma C10_alert_info_witness :
  exists a,
    ParseLogs.parse_line PyFloat.float_of_string PyFloat.int_of_float
      ([], []) "ALERT|TEMP|30.5|3000|over|the limit"
    = Ok ([], [] ++ [a])
    /\ ParseLogs.a_info a
       = nth 4 (PyStr.split "|"
                  (PyStr.strip "ALERT|TEMP|30.5|3000|over|the limit"))
           EmptyString
    /\ ~ In "|"%char (list_ascii_of_string (ParseLogs.a_info a))
    /\ (forall raw',
          (5 <= length (Spec.fields raw'))%nat ->
          take 5 (Spec.fields raw')
          = take 5 (Spec.fields "ALERT|TEMP|30.5|3000|over|the limit") ->
          ParseLogs.parse_line PyFloat.float_of_string PyFloat.int_of_float
            ([], []) raw'
          = Ok ([], [] ++ [a])).
Proof.
  apply (C10_alert_info PyFloat.float_of_string PyFloat.int_of_float
           "ALERT|TEMP|30.5|3000|over|the limit" [] []);
    reflexivity.
Defined.

Example alert_info_drops_the_rest :
  ParseLogs.parse_line PyFloat.float_of_string PyFloat.int_of_float
    ([], []) "ALERT|TEMP|30.5|3000|over|the limit"
  = Ok ([], [{| ParseLogs.a_type := "TEMP"; ParseLogs.a_value := (61 # 2)%Q;
                ParseLogs.a_ts_ms := 3000; ParseLogs.a_info := "over" |}]).
Proof. vm_compute. reflexivity. Qed.

(** ** The counting loop of check_log.py *)

Section counting_facts.
Import CheckLog Spec.

Lemma bump_sensor_dict typ (t h p : Z) :
  bump typ (sensor_dict t h p)
  = sensor_dict (t + flag (String.eqb typ "TEMP"))
      (h + flag (String.eqb typ "HUM")) (p + flag (String.eqb typ "PRESS")).
Proof.
  unfold bump.
  destruct (sensor_dict_lookup t h p) as (ET & EH & EP).
  destruct (String.eqb_spec typ "TEMP") as [-> | NT].
  { rewrite ET. unfold sensor_dict, flag. simpl.
    by rewrite insert_insert_eq, !Z.add_0_r. }
  destruct (String.eqb_spec typ "HUM") as [-> | NH].
  { rewrite EH. unfold sensor_dict, flag. simpl.
    rewrite (insert_insert_ne _ "HUM" "TEMP") by done.
    by rewrite insert_insert_eq, !Z.add_0_r. }
  destruct (String.eqb_spec typ "PRESS") as [-> | NP].
  { rewrite EP. unfold sensor_dict, flag. simpl.
    rewrite (insert_insert_ne _ "PRESS" "TEMP") by done.
    rewrite (insert_insert_ne _ "PRESS" "HUM") by done.
    by rewrite insert_insert_eq, !Z.add_0_r. }
  assert (sensor_dict t h p !! typ = None) as ->.
  { unfold sensor_dict. by rewrite !lookup_insert_ne, lookup_empty. }
  unfold flag. by rewrite !Z.add_0_r.
Qed.

(** The counters after one more line. *)
Lemma count_line_spec (sT sH sP aT aH aP n : Z) raw :
  count_line {| sample_counts := sensor_dict sT sH sP;
                alert_counts := sensor_dict aT aH aP;
                total_lines := n |} raw
  = Ok {| sample_counts :=
            sensor_dict (sT + flag (counted "SAMPLE" 4 "TEMP" raw))
              (sH + flag (counted "SAMPLE" 4 "HUM" raw))
              (sP + flag (counted "SAMPLE" 4 "PRESS" raw));
          alert_counts :=
            sensor_dict (aT + flag (counted "ALERT" 5 "TEMP" raw))
              (aH + flag (counted "ALERT" 5 "HUM" raw))
              (aP + flag (counted "ALERT" 5 "PRESS" raw));
          total_lines := n + 1 |}.
Proof.
  unfold count_line, counted, shaped, blank, field, fields.
  cbn [sample_counts alert_counts total_lines].
  destruct (String.eqb (PyStr.strip raw) EmptyString) eqn:Eb.
  { cbn [negb andb flag]. by rewrite !Z.add_0_r. }
  set (parts := PyStr.split "|" (PyStr.strip raw)).
  rewrite (py_getitem_nth parts 0) by apply split_length.
  cbn [mbind pyresult_bind negb andb].
  destruct (String.eqb (nth 0 parts EmptyString) "SAMPLE") eqn:Es.
  - assert (String.eqb (nth 0 parts EmptyString) "ALERT" = false) as ->.
    { apply String.eqb_eq in Es. by rewrite Es. }
    cbn [andb flag]. rewrite !Z.add_0_r.
    destruct (Nat.leb_spec 4 (length parts)) as [Hl|Hl]; cbn [andb flag].
    + rewrite py_getitem_nth by lia. cbn [mbind pyresult_bind].
      by rewrite bump_sensor_dict.
    + by rewrite !Z.add_0_r.
  - cbn [andb flag]. rewrite !Z.add_0_r.
    destruct (String.eqb (nth 0 parts EmptyString) "ALERT") eqn:Ea;
      cbn [andb flag]; [|by rewrite !Z.add_0_r].
    destruct (Nat.leb_spec 5 (length parts)) as [Hl|Hl]; cbn [andb flag].
    + rewrite py_getitem_nth by lia. cbn [mbind pyresult_bind].
      by rewrite bump_sensor_dict.
    + by rewrite !Z.add_0_r.
Qed.

Lemma n_lines_cons p raw lines :
  n_lines p (raw :: lines) = flag (p raw) + n_lines p lines.
Proof.
  unfold n_lines, flag. cbn [List.filter].
  destruct (p raw); cbn [length]; lia.
Qed.

Lemma py_for_count_line lines (sT sH sP aT aH aP n : Z) :
  py_for count_line lines
    {| sample_counts := sensor_dict sT sH sP;
       alert_counts := sensor_dict aT aH aP;
       total_lines := n |}
  = Ok {| sample_counts :=
            sensor_dict (sT + n_lines (counted "SAMPLE" 4 "TEMP") lines)
              (sH + n_lines (counted "SAMPLE" 4 "HUM") lines)
              (sP + n_lines (counted "SAMPLE" 4 "PRESS") lines);
          alert_counts :=
            sensor_dict (aT + n_lines (counted "ALERT" 5 "TEMP") lines)
              (aH + n_lines (counted "ALERT" 5 "HUM") lines)
              (aP + n_lines (counted "ALERT" 5 "PRESS") lines);
          total_lines := n + Z.of_nat (length lines) |}.
Proof.
  revert sT sH sP aT aH aP n.
  induction lines as [|raw lines IH]; intros.
  - unfold n_lines. simpl. by rewrite !Z.add_0_r.
  - cbn [py_for]. rewrite count_line_spec. cbn [mbind pyresult_bind].
    rewrite IH, !n_lines_cons.
    f_equal. f_equal; [f_equal; lia | f_equal; lia | cbn [length]; lia].
Qed.

(** The loop never raises, and its counters are the numbers of SAMPLE
    lines of at least 4 fields and of ALERT lines of at least 5 fields
    whose type field is the key. *)
Lemma count_lines_spec lines :
  count_lines lines
  = Ok {| sample_counts :=
            sensor_dict (n_lines (counted "SAMPLE" 4 "TEMP") lines)
              (n_lines (counted "SAMPLE" 4 "HUM") lines)
              (n_lines (counted "SAMPLE" 4 "PRESS") lines);
          alert_counts :=
            sensor_dict (n_lines (counted "ALERT" 5 "TEMP") lines)
              (n_lines (counted "ALERT" 5 "HUM") lines)
              (n_lines (counted "ALERT" 5 "PRESS") lines);
          total_lines := Z.of_nat (length lines) |}.
Proof. unfold count_lines, initial. by rewrite py_for_count_line. Qed.

End counting_facts.

(** ** The checker's counts against the parser's frames *)

Section counts_against_frames.
Import CheckLog ParseLogs Spec.
Context {V : Type}.
Variable py_float : string -> pyresult V.
Variable py_int : V -> pyresult Z.

#[local] Abbreviation sample_of := (sample_of_line py_float py_int).
#[local] Abbreviation alert_of := (alert_of_line py_float py_int).
#[local] Abbreviation converts_ := (converts py_float py_int).
#[local] Abbreviation unconverted_ := (unconverted py_float py_int).

Lemma n_lines_split (p q : string -> bool) lines :
  n_lines p lines
  = n_lines (fun raw => p raw && q raw) lines
    + n_lines (fun raw => p raw && negb (q raw)) lines.
Proof.
  induction lines as [|raw lines IH]; [done|].
  rewrite !n_lines_cons, IH. unfold flag.
  destruct (p raw), (q raw); simpl; lia.
Qed.

Lemma samples_of_type_lines k lines :
  samples_of_type k (omap sample_of lines)
  = n_lines (fun raw => counted "SAMPLE" 4 k raw && converts_ raw) lines.
Proof.
  unfold samples_of_type. induction lines as [|raw lines IH]; [done|].
  rewrite n_lines_cons, <- IH. cbn [omap list_omap].
  unfold Spec.sample_of_line, counted, Spec.converts, flag.
  destruct (shaped "SAMPLE" 4 raw); cbn [andb]; [|lia].
  destruct (py_float (field 2 raw)); [|rewrite andb_false_r; lia].
  destruct (to_ts py_float py_int (field 3 raw));
    [|rewrite andb_false_r; lia].
  cbn [List.filter s_type]. rewrite andb_true_r.
  destruct (String.eqb (field 1 raw) k); cbn [length]; lia.
Qed.

Lemma alerts_of_type_lines k lines :
  alerts_of_type k (omap alert_of lines)
  = n_lines (fun raw => counted "ALERT" 5 k raw && converts_ raw) lines.
Proof.
  unfold alerts_of_type. induction lines as [|raw lines IH]; [done|].
  rewrite n_lines_cons, <- IH. cbn [omap list_omap].
  unfold Spec.alert_of_line, counted, Spec.converts, flag.
  destruct (shaped "ALERT" 5 raw); cbn [andb]; [|lia].
  destruct (py_float (field 2 raw)); [|rewrite andb_false_r; lia].
  destruct (to_ts py_float py_int (field 3 raw));
    [|rewrite andb_false_r; lia].
  cbn [List.filter a_type]. rewrite andb_true_r.
  destruct (String.eqb (field 1 raw) k); cbn [length]; lia.
Qed.

Lemma n_lines_nonneg p lines : 0 <= n_lines p lines.
Proof. unfold n_lines. lia. Qed.

Lemma n_lines_none p lines :
  (forall raw, In raw lines -> p raw = false) -> n_lines p lines = 0.
Proof.
  intros H. induction lines as [|raw lines IH]; [done|].
  rewrite n_lines_cons, H, IH; [done | | by left].
  intros raw' ?. apply H. by right.
Qed.

(** C7, as the code has it. The checker counts a SAMPLE or ALERT line by
    its first two fields and the number of its fields; the parser keeps it
    only if its value and time stamp convert as well. For each of TEMP,
    HUM and PRESS the checker's count is therefore the parser's count plus
    the number of such lines whose numbers do not convert: never smaller,
    and equal when every such line converts. *)
Theorem C7_counts_differ_by_unconverted (text : string) :
  exists c samples alerts,
    count_lines (PyStr.file_lines text) = Ok c
    /\ parse_log py_float py_int text = Ok (samples, alerts)
    /\ forall k, In k sensors ->
        exists ns na,
          py_item (sample_counts c) k = Ok ns
          /\ py_item (alert_counts c) k = Ok na
          /\ ns = samples_of_type k samples
                  + n_lines (unconverted_ "SAMPLE" 4 k) (PyStr.file_lines text)
          /\ na = alerts_of_type k alerts
                  + n_lines (unconverted_ "ALERT" 5 k) (PyStr.file_lines text)
          /\ samples_of_type k samples <= ns
          /\ alerts_of_type k alerts <= na
          /\ ((forall raw, In raw (PyStr.file_lines text) ->
                  shaped "SAMPLE" 4 raw || shaped "ALERT" 5 raw = true ->
                  converts_ raw = true) ->
              ns = samples_of_type k samples
              /\ na = alerts_of_type k alerts).
Proof.
  set (lines := PyStr.file_lines text).
  eexists _, _, _. split; [apply count_lines_spec|].
  split; [unfold parse_log; apply parse_lines_spec|].
  fold lines. cbn [sample_counts alert_counts].
  intros k Hk.
  exists (n_lines (counted "SAMPLE" 4 k) lines),
    (n_lines (counted "ALERT" 5 k) lines).
  assert (Es : n_lines (counted "SAMPLE" 4 k) lines
               = samples_of_type k (omap sample_of lines)
                 + n_lines (unconverted_ "SAMPLE" 4 k) lines).
  { rewrite samples_of_type_lines.
    apply (n_lines_split (counted "SAMPLE" 4 k) converts_). }
  assert (Ea : n_lines (counted "ALERT" 5 k) lines
               = alerts_of_type k (omap alert_of lines)
                 + n_lines (unconverted_ "ALERT" 5 k) lines).
  { rewrite alerts_of_type_lines.
    apply (n_lines_split (counted "ALERT" 5 k) converts_). }
  assert (H1 := n_lines_nonneg (unconverted_ "SAMPLE" 4 k) lines).
  assert (H2 := n_lines_nonneg (unconverted_ "ALERT" 5 k) lines).
  split; [|split; [|split; [exact Es|split; [exact Ea|split; [lia|split; [lia|]]]]]].
  - destruct (sensor_dict_item (n_lines (counted "SAMPLE" 4 "TEMP") lines)
                (n_lines (counted "SAMPLE" 4 "HUM") lines)
                (n_lines (counted "SAMPLE" 4 "PRESS") lines)) as (? & ? & ?).
    destruct Hk as [<- | [<- | [<- | []]]]; done.
  - destruct (sensor_dict_item (n_lines (counted "ALERT" 5 "TEMP") lines)
                (n_lines (counted "ALERT" 5 "HUM") lines)
                (n_lines (counted "ALERT" 5 "PRESS") lines)) as (? & ? & ?).
    destruct Hk as [<- | [<- | [<- | []]]]; done.
  - intros Hall.
    rewrite Es, Ea, !n_lines_none; [lia | |];
      intros raw Hin; unfold Spec.unconverted, counted;
      specialize (Hall raw Hin).
    + destruct (shaped "ALERT" 5 raw); [|done].
      rewrite Hall by apply orb_true_r. by rewrite andb_false_r.
    + destruct (shaped "SAMPLE" 4 raw); [|done].
      rewrite Hall by done. by rewrite andb_false_r.
Qed.

End counts_against_frames.

(** C7 as stated fails: a SAMPLE line whose value is not a number is
    counted by the checker and skipped by the parser. *)
Lemma C7_counterexample :
  exists c samples alerts,
    CheckLog.count_lines (PyStr.file_lines "SAMPLE|TEMP|abc|1000") = Ok c
    /\ ParseLogs.parse_log PyFloat.float_of_string PyFloat.int_of_float
         "SAMPLE|TEMP|abc|1000" = Ok (samples, alerts)
    /\ py_item (CheckLog.sample_counts c) "TEMP" = Ok 1
    /\ Spec.samples_of_type "TEMP" samples = 0.
Proof. eexists _, _, _. repeat split; vm_compute; reflexivity. Qed.

(** ** summary_csv *)

Section summary_facts.
Import CheckLog ParseLogs Spec.
Context {V F : Type} `{!Missing V, !Series V F}.

Lemma unique_from_In seen l x :
  In x (unique_from seen l) <-> In x l /\ ~ In x seen.
Proof.
  revert seen. induction l as [|y l IH]; intros seen; simpl; [tauto|].
  destruct (existsb (String.eqb y) seen) eqn:E.
  - apply existsb_exists in E as (z & Hz & Ez).
    apply String.eqb_eq in Ez. subst z.
    rewrite IH. split; [tauto|]. intros [[-> | H] Hn]; tauto.
  - assert (Hy : ~ In y seen).
    { intros Hin. apply not_true_iff_false in E. apply E.
      apply existsb_exists. exists y. split; [done|]. apply String.eqb_refl. }
    simpl. rewrite IH. simpl.
    destruct (String.eqb_spec y x) as [-> | Hne]; [tauto|]. tauto.
Qed.

Lemma unique_from_NoDup seen l : NoDup (unique_from seen l).
Proof.
  revert seen. induction l as [|y l IH]; intros seen; simpl.
  - constructor.
  - destruct (existsb (String.eqb y) seen); [apply IH|].
    apply NoDup_cons_2; [|apply IH].
    rewrite list_elem_of_In, unique_from_In. simpl. tauto.
Qed.

Lemma insert_sorted_perm x l : Permutation (insert_sorted x l) (x :: l).
Proof.
  induction l as [|y l IH]; simpl; [done|].
  destruct (String.leb x y); [done|].
  rewrite IH. apply perm_swap.
Qed.

Lemma sorted_perm l : Permutation (sorted l) l.
Proof.
  unfold sorted. induction l as [|x l IH]; simpl; [done|].
  by rewrite insert_sorted_perm, IH.
Qed.

(** The sensors of the summary: the distinct types of the samples. *)
Lemma summary_sensors_In (types : list string) s :
  In s (sorted (unique types)) <-> In s types.
Proof.
  rewrite <- !list_elem_of_In, (sorted_perm (unique types)),
    !list_elem_of_In.
  unfold unique. rewrite unique_from_In. simpl. tauto.
Qed.

Lemma summary_sensors_NoDup (types : list string) :
  NoDup (sorted (unique types)).
Proof.
  rewrite (sorted_perm (unique types)). apply unique_from_NoDup.
Qed.

Lemma rows_of_type_cons {R} (typ : R -> string) r df s :
  rows_of_type typ (r :: df) s
  = Ok (List.filter (fun r => String.eqb (typ r) s) (r :: df)).
Proof. reflexivity. Qed.

Lemma summary_row_ok df_samples df_alerts s :
  df_samples <> [] -> df_alerts <> [] ->
  summary_row df_samples df_alerts s = Ok (row_for df_samples df_alerts s).
Proof.
  intros Hs Ha. destruct df_samples as [|r df]; [done|].
  destruct df_alerts as [|a dfa]; [done|].
  unfold summary_row. rewrite !rows_of_type_cons.
  cbn [mbind pyresult_bind]. reflexivity.
Qed.

Lemma summary_row_no_alerts df_samples s :
  df_samples <> [] -> summary_row df_samples [] s = Raise KeyError.
Proof.
  intros Hs. destruct df_samples as [|r df]; [done|].
  unfold summary_row. rewrite rows_of_type_cons. reflexivity.
Qed.

Lemma py_map_ok {A B} (f : A -> pyresult B) (g : A -> B) l :
  (forall x, In x l -> f x = Ok (g x)) -> py_map f l = Ok (map g l).
Proof.
  induction l as [|x l IH]; intros H; [done|].
  cbn [py_map]. rewrite H by (by left). cbn [mbind pyresult_bind].
  rewrite IH; [done|]. intros y ?. apply H. by right.
Qed.

(** The summary of two frames that have their columns. *)
Lemma summary_csv_ok df_samples df_alerts :
  df_samples <> [] -> df_alerts <> [] ->
  summary_csv df_samples df_alerts
  = Ok (map (row_for df_samples df_alerts)
          (sorted (unique (map s_type df_samples)))).
Proof.
  intros Hs Ha. unfold summary_csv, column.
  destruct df_samples as [|r df] eqn:E; [done|]. rewrite <- E in *.
  cbn [mbind pyresult_bind].
  apply py_map_ok. intros s _. by apply summary_row_ok.
Qed.

(** Without a single alert the frame of the alerts has no column [type],
    and the summary raises. *)
Lemma summary_csv_no_alerts df_samples :
  summary_csv df_samples [] = Raise KeyError.
Proof.
  unfold summary_csv, column.
  destruct df_samples as [|r df] eqn:E; [done|]. rewrite <- E.
  cbn [mbind pyresult_bind].
  assert (Hin : In (s_type r) (sorted (unique (map s_type df_samples)))).
  { apply summary_sensors_In. rewrite E. by left. }
  destruct (sorted (unique (map s_type df_samples))) as [|s l]; [done|].
  cbn [py_map]. rewrite summary_row_no_alerts by (by rewrite E). reflexivity.
Qed.

Lemma summary_csv_no_samples df_alerts :
  summary_csv [] df_alerts = Raise KeyError.
Proof. reflexivity. Qed.

Lemma summary_csv_inv df_samples df_alerts rows :
  summary_csv df_samples df_alerts = Ok rows ->
  df_samples <> [] /\ df_alerts <> []
  /\ rows = map (row_for df_samples df_alerts)
              (sorted (unique (map s_type df_samples))).
Proof.
  intros H.
  destruct df_samples as [|r df] eqn:Es; [done|].
  destruct df_alerts as [|a dfa] eqn:Ea.
  { by rewrite summary_csv_no_alerts in H. }
  rewrite summary_csv_ok in H by done. by injection H as <-.
Qed.

Lemma summary_rows_In df_samples df_alerts rows row :
  summary_csv df_samples df_alerts = Ok rows ->
  In row rows
  <-> row = row_for df_samples df_alerts (row_sensor row)
      /\ In (row_sensor row) (map s_type df_samples).
Proof.
  intros H. apply summary_csv_inv in H as (_ & _ & ->).
  rewrite in_map_iff. split.
  - intros (s & <- & Hs). apply (proj1 (summary_sensors_In _ _)) in Hs.
    split; [reflexivity | exact Hs].
  - intros [E Hs]. exists (row_sensor row). split; [done|].
    by apply summary_sensors_In.
Qed.

End summary_facts.

(** C4. On a log with one TEMP sample and no ALERT line the summary is not
    produced: [df_alerts] is a frame without columns, and selecting its
    column [type] for [alert_count] raises [KeyError]. *)
Theorem C4_summary_raises_without_alerts :
  exists s,
    ParseLogs.parse_log PyFloat.float_of_string PyFloat.int_of_float
      "SAMPLE|TEMP|21.5|1000" = Ok ([s], [])
    /\ Spec.values_of_type "TEMP" [s] = [(43 # 2)%Q]
    /\ ParseLogs.summary_csv [s] [] = Raise KeyError.
Proof. eexists. repeat split; vm_compute; reflexivity. Qed.

Section summary_claims.
Import CheckLog ParseLogs Spec.
Context {V F : Type} `{!Missing V, !Series V F}.

Lemma values_of_type_In s (df : list (Sample V)) :
  values_of_type s df <> [] <-> In s (map s_type df).
Proof.
  unfold values_of_type. induction df as [|r df IH]; simpl; [tauto|].
  destruct (String.eqb_spec (s_type r) s) as [E | N]; simpl.
  - split; [auto | discriminate].
  - rewrite IH. split; [auto | intros [? | ?]; [done | auto]].
Qed.

Context (py_float : string -> pyresult V) (py_int : V -> pyresult Z).

#[local] Abbreviation sample_of_ := (sample_of_line py_float py_int).
#[local] Abbreviation alert_of_ := (alert_of_line py_float py_int).

Lemma sample_of_line_type raw s :
  sample_of_ raw = Some s -> s_type s = field 1 raw.
Proof.
  unfold Spec.sample_of_line.
  destruct (shaped "SAMPLE" 4 raw); [|done].
  destruct (py_float (field 2 raw)); [|done].
  destruct (to_ts py_float py_int (field 3 raw)); [|done].
  by intros [= <-].
Qed.

Lemma alert_of_line_type raw a :
  alert_of_ raw = Some a -> a_type a = field 1 raw.
Proof.
  unfold Spec.alert_of_line.
  destruct (shaped "ALERT" 5 raw); [|done].
  destruct (py_float (field 2 raw)); [|done].
  destruct (to_ts py_float py_int (field 3 raw)); [|done].
  by intros [= <-].
Qed.

Lemma n_lines_insert p before raw after :
  n_lines p (before ++ raw :: after)
  = n_lines p (before ++ after) + flag (p raw).
Proof.
  induction before as [|x before IH]; simpl.
  - rewrite n_lines_cons. lia.
  - rewrite !n_lines_cons, IH. lia.
Qed.

Lemma known_sensor k : known k = true <-> In k sensors.
Proof.
  unfold known. rewrite existsb_exists. split.
  - intros (x & Hx & E). apply String.eqb_eq in E. by subst.
  - intros H. exists k. split; [done | apply String.eqb_refl].
Qed.

Lemma filter_insert {A} (p : A -> bool) before (o : option A) after :
  (forall x, o = Some x -> p x = false) ->
  List.filter p (before ++ option_list o ++ after)
  = List.filter p (before ++ after).
Proof.
  intros H. rewrite !List.filter_app. f_equal.
  destruct o as [x|]; [|done]. simpl. by rewrite (H x).
Qed.

(** C5, as the code has it. A SAMPLE or ALERT line whose type is none of
    TEMP, HUM and PRESS changes no count of the checker, and nothing in
    the row of TEMP, HUM or PRESS: the row of such a sensor is the same
    function of the log with and without the line, a summary that is
    produced without the line is produced with it, and the two agree on
    the rows of the three sensors. But every row of a summary is the row
    of a type that occurs among the samples, whatever the type: when the
    line is a well-formed SAMPLE line, its type has a row of its own,
    with the statistics of the values of that type and the number of
    alerts of that type. *)
Theorem C5_unknown_types (before after : list string) (raw : string) :
  known (field 1 raw) = false ->
  let lines := before ++ raw :: after in
  let rest := before ++ after in
  (exists c c',
      count_lines lines = Ok c /\ count_lines rest = Ok c'
      /\ sample_counts c = sample_counts c'
      /\ alert_counts c = alert_counts c')
  /\ (exists samples alerts samples' alerts',
        parse_lines py_float py_int lines = Ok (samples, alerts)
        /\ parse_lines py_float py_int rest = Ok (samples', alerts')
        /\ (forall k, known k = true ->
              values_of_type k samples = values_of_type k samples'
              /\ alerts_of_type k alerts = alerts_of_type k alerts'
              /\ row_for samples alerts k = row_for samples' alerts' k)
        /\ (forall rows,
              summary_csv samples alerts = Ok rows ->
              (forall row,
                  In row rows
                  <-> row = row_for samples alerts (row_sensor row)
                      /\ In (row_sensor row) (map s_type samples))
              /\ (forall row,
                    In row rows -> known (row_sensor row) = true ->
                    row = row_for samples' alerts' (row_sensor row)
                    /\ In (row_sensor row) (map s_type samples'))
              /\ (sample_of_ raw <> None ->
                  In (row_for samples alerts (field 1 raw)) rows))
        /\ (forall rows',
              summary_csv samples' alerts' = Ok rows' ->
              exists rows,
                summary_csv samples alerts = Ok rows
                /\ forall row, known (row_sensor row) = true ->
                               In row rows <-> In row rows')).
Proof.
  intros Hk lines rest. split.
  - eexists _, _. split; [apply count_lines_spec|].
    split; [apply count_lines_spec|].
    cbn [sample_counts alert_counts]. subst lines rest.
    rewrite !n_lines_insert.
    assert (Hc : forall tag n k, In k sensors -> counted tag n k raw = false).
    { intros tag n k Hin. unfold counted.
      destruct (String.eqb_spec (field 1 raw) k) as [E | N];
        [|by rewrite andb_false_r].
      apply known_sensor in Hin. congruence. }
    rewrite !Hc by (unfold sensors; simpl; tauto).
    cbn [flag]. by rewrite !Z.add_0_r.
  - eexists _, _, _, _. split; [apply parse_lines_spec|].
    split; [apply parse_lines_spec|].
    subst lines rest. rewrite !omap_app. cbn [omap list_omap].
    set (A := omap sample_of_ before). set (B := omap sample_of_ after).
    set (A' := omap alert_of_ before). set (B' := omap alert_of_ after).
    assert (Es : forall o : option (Sample V),
               match o with Some y => y :: B | None => B end
               = option_list o ++ B) by (by intros [y|]).
    assert (Ea : forall o : option (Alert V),
               match o with Some y => y :: B' | None => B' end
               = option_list o ++ B') by (by intros [y|]).
    rewrite Es, Ea.
    set (samples := A ++ option_list (sample_of_ raw) ++ B).
    set (alerts := A' ++ option_list (alert_of_ raw) ++ B').
    assert (Hval : forall k, known k = true ->
               values_of_type k samples = values_of_type k (A ++ B)
               /\ alerts_of_type k alerts = alerts_of_type k (A' ++ B')).
    { intros k Hkk. unfold values_of_type, alerts_of_type, samples, alerts.
      rewrite !filter_insert; [done | |].
      - intros a Ha. apply alert_of_line_type in Ha. rewrite Ha.
        apply String.eqb_neq. congruence.
      - intros s Hs. apply sample_of_line_type in Hs. rewrite Hs.
        apply String.eqb_neq. congruence. }
    assert (Hrow : forall k, known k = true ->
               row_for samples alerts k = row_for (A ++ B) (A' ++ B') k).
    { intros k Hkk. destruct (Hval k Hkk) as [Hv Hal].
      unfold row_for. by rewrite Hv, Hal. }
    assert (Htypes : forall k, known k = true ->
               In k (map s_type samples) <-> In k (map s_type (A ++ B))).
    { intros k Hkk. destruct (Hval k Hkk) as [Hv _].
      by rewrite <- !values_of_type_In, Hv. }
    split; [|split].
    + intros k Hkk. destruct (Hval k Hkk) as [Hv Hal].
      split; [done|]. split; [done|]. by apply Hrow.
    + intros rows Hr. split; [|split].
      * intros row. apply (summary_rows_In _ _ _ row Hr).
      * intros row Hin Hkk.
        apply (summary_rows_In _ _ _ row Hr) in Hin as [E Hin].
        split; [|by apply Htypes].
        rewrite E at 1. cbn [row_sensor row_for row_of]. by apply Hrow.
      * intros Hsome. destruct (sample_of_ raw) as [s|] eqn:E; [|done].
        apply (summary_rows_In _ _ _ _ Hr). split; [done|].
        cbn [row_sensor row_for row_of]. unfold samples.
        rewrite !map_app. cbn [option_list map app].
        apply in_or_app. right. left. exact (sample_of_line_type _ _ E).
    + intros rows' Hr'.
      destruct (summary_csv_inv _ _ _ Hr') as (Hs' & Ha' & _).
      assert (Hs : samples <> []).
      { unfold samples. destruct A; [|done]. destruct (sample_of_ raw); [done|].
        exact Hs'. }
      assert (Ha : alerts <> []).
      { unfold alerts. destruct A'; [|done]. destruct (alert_of_ raw); [done|].
        exact Ha'. }
      eexists. split; [exact (summary_csv_ok samples alerts Hs Ha)|].
      intros row Hkk.
      rewrite (summary_rows_In _ _ _ row (summary_csv_ok _ _ Hs Ha)),
        (summary_rows_In _ _ _ row Hr').
      by rewrite (Hrow _ Hkk), (Htypes _ Hkk).
Qed.

End summary_claims.

(** C5 as stated fails: a SAMPLE line of type FOO, none of the three
    sensors, has a row of its own in the summary. *)
Lemma C5_counterexample :
  exists samples alerts rows row,
    ParseLogs.parse_lines PyFloat.float_of_string PyFloat.int_of_float
      ["SAMPLE|FOO|1.0|1000"; "ALERT|TEMP|30.0|1500|high"]
    = Ok (samples, alerts)
    /\ ParseLogs.summary_csv samples alerts = Ok rows
    /\ In row rows
    /\ ParseLogs.row_sensor row = "FOO"
    /\ ParseLogs.row_count row = 1
    /\ Spec.known "FOO" = false.
Proof.
  eexists _, _, _, _. split; [vm_compute; reflexivity|].
  split; [vm_compute; reflexivity|].
  split; [left; reflexivity|]. repeat split.
Qed.

Lemma C5_unknown_types_witness :
  Spec.known (Spec.field 1 "SAMPLE|FOO|1.0|1000") = false
  /\ (exists c c',
        CheckLog.count_lines
          (["SAMPLE|TEMP|21.5|500"; "ALERT|TEMP|30.0|900|high"]
             ++ "SAMPLE|FOO|1.0|1000" :: []) = Ok c
        /\ CheckLog.count_lines
             (["SAMPLE|TEMP|21.5|500"; "ALERT|TEMP|30.0|900|high"] ++ [])
           = Ok c'
        /\ CheckLog.sample_counts c = CheckLog.sample_counts c'
        /\ CheckLog.alert_counts c = CheckLog.alert_counts c')
  /\ exists samples alerts samples' alerts' rows,
      ParseLogs.parse_lines PyFloat.float_of_string PyFloat.int_of_float
        (["SAMPLE|TEMP|21.5|500"; "ALERT|TEMP|30.0|900|high"]
           ++ "SAMPLE|FOO|1.0|1000" :: []) = Ok (samples, alerts)
      /\ ParseLogs.parse_lines PyFloat.float_of_string PyFloat.int_of_float
           (["SAMPLE|TEMP|21.5|500"; "ALERT|TEMP|30.0|900|high"] ++ [])
         = Ok (samples', alerts')
      /\ ParseLogs.summary_csv samples alerts = Ok rows
      /\ In (Spec.row_for samples' alerts' "TEMP") rows
      /\ In (Spec.row_for samples alerts "FOO") rows.
Proof.
  split; [reflexivity|].
  destruct (C5_unknown_types PyFloat.float_of_string PyFloat.int_of_float
              ["SAMPLE|TEMP|21.5|500"; "ALERT|TEMP|30.0|900|high"] []
              "SAMPLE|FOO|1.0|1000" eq_refl)
    as (Hcount & samples & alerts & samples' & alerts' & H1 & H2 & Hk
        & Hrows & Hrest).
  split; [exact Hcount|].
  assert (Hsum : exists rows, ParseLogs.summary_csv samples alerts = Ok rows).
  { vm_compute in H1. injection H1 as <- <-. eexists. vm_compute.
    reflexivity. }
  destruct Hsum as (rows & Hsum).
  exists samples, alerts, samples', alerts', rows.
  split; [exact H1|]. split; [exact H2|]. split; [exact Hsum|].
  destruct (Hrows rows Hsum) as (Hall & _ & Hfoo).
  split.
  - rewrite <- (proj2 (proj2 (Hk "TEMP" eq_refl))).
    apply Hall. split; [reflexivity|].
    vm_compute in H1. injection H1 as <- <-. left. reflexivity.
  - apply Hfoo. discriminate.
Defined.

(** An ALERT line of an unknown type can be what lets the summary run:
    alone among the alerts, it gives the frame of the alerts its columns.
    The row of TEMP is then the row of the log without the line, which
    counts no alert, while that log itself has no summary. *)
Example unknown_alert_lets_the_summary_run :
  exists samples alerts samples' alerts',
    ParseLogs.parse_lines PyFloat.float_of_string PyFloat.int_of_float
      ["SAMPLE|TEMP|1|1"; "ALERT|FOO|1|2|x"] = Ok (samples, alerts)
    /\ ParseLogs.parse_lines PyFloat.float_of_string PyFloat.int_of_float
         ["SAMPLE|TEMP|1|1"] = Ok (samples', alerts')
    /\ ParseLogs.summary_csv samples alerts
       = Ok [Spec.row_for samples' alerts' "TEMP"]
    /\ ParseLogs.row_alert_count (Spec.row_for samples' alerts' "TEMP") = 0
    /\ ParseLogs.summary_csv samples' alerts' = Raise KeyError.
Proof.
  eexists _, _, _, _. split; [vm_compute; reflexivity|].
  split; [vm_compute; reflexivity|]. repeat split.
Qed.

(** ** The rolling mean *)

Section rolling_facts.
Import ParseLogs Spec.

(** [v == v] fails for NaN only. *)
Lemma float_eqb_refl (v : float) :
  Float64.eqb v v = negb (Float64.isnan v).
Proof.
  destruct v as [s | s | | s m e]; try done; try (by destruct s).
  unfold Float64.eqb, SFeqb, SFcompare.
  rewrite Z.compare_refl, Pos.compare_cont_refl. by destruct s.
Qed.

Lemma dropna_app (l k : list float) : dropna (l ++ k) = dropna l ++ dropna k.
Proof. unfold dropna. apply List.filter_app. Qed.

Lemma dropna_cons (v : float) (l : list float) :
  dropna (v :: l) = if Float64.isnan v then dropna l else v :: dropna l.
Proof.
  unfold dropna. cbn [List.filter].
  change (isna v) with (Float64.isnan v). by destruct (Float64.isnan v).
Qed.

(** A value that enters the window counts when it is not NaN. *)
Lemma foldl_add_mean_nobs st l :
  nobs (foldl add_mean st l) = nobs st + Z.of_nat (length (dropna l)).
Proof.
  revert st. induction l as [|v l IH]; intros st; cbn [foldl].
  - simpl. lia.
  - rewrite IH, dropna_cons. unfold add_mean. rewrite float_eqb_refl.
    destruct (Float64.isnan v); cbn [negb nobs length]; lia.
Qed.

Lemma foldl_remove_mean_nobs st l :
  nobs (foldl remove_mean st l) = nobs st - Z.of_nat (length (dropna l)).
Proof.
  revert st. induction l as [|v l IH]; intros st; cbn [foldl].
  - simpl. lia.
  - rewrite IH, dropna_cons. unfold remove_mean. rewrite float_eqb_refl.
    destruct (Float64.isnan v); cbn [negb nobs length]; lia.
Qed.

(** Removing values leaves the run of equal values as it is. *)
Lemma foldl_remove_mean_run st l :
  num_consecutive_same_value (foldl remove_mean st l)
  = num_consecutive_same_value st
  /\ prev_value (foldl remove_mean st l) = prev_value st.
Proof.
  revert st. induction l as [|v l IH]; intros st; cbn [foldl]; [done|].
  destruct (IH (remove_mean st v)) as [-> ->]. unfold remove_mean.
  by destruct (Float64.eqb v v).
Qed.

(** The empty run of a state that is set up. *)
Lemma run_covers_setup p : run_covers [] (mean_setup p).
Proof.
  split; [simpl; lia|]. intros c pre suf E Hne.
  by destruct pre, suf.
Qed.

(** A value that enters the window lengthens the run of its value, or
    starts a run of its own. *)
Lemma run_covers_add_mean obs st v :
  run_covers obs st ->
  run_covers (if Float64.isnan v then obs else obs ++ [v]) (add_mean st v).
Proof.
  intros [H0 H]. unfold add_mean. rewrite float_eqb_refl.
  destruct (Float64.isnan v) eqn:Ev; cbn [negb]; [by split|].
  split; cbn [num_consecutive_same_value prev_value].
  { destruct (Float64.eqb v (prev_value st)); lia. }
  intros c pre suf E Hne Hall.
  destruct (exists_last Hne) as (suf' & x & ->).
  rewrite app_assoc in E. apply app_inj_tail in E as [-> ->].
  assert (x = c) as -> by (apply Hall, in_or_app; right; by left).
  split; [|done]. rewrite length_app. cbn [length].
  destruct suf' as [|y suf'].
  { destruct (Float64.eqb c (prev_value st)); simpl; lia. }
  destruct (H c pre (y :: suf') eq_refl ltac:(done)) as [Hk ->].
  { intros u Hu. apply Hall, in_or_app. by left. }
  rewrite float_eqb_refl, Ev. cbn [negb]. lia.
Qed.

Lemma run_covers_foldl_add obs st l :
  run_covers obs st -> run_covers (obs ++ dropna l) (foldl add_mean st l).
Proof.
  revert obs st. induction l as [|v l IH]; intros obs st H; cbn [foldl].
  - by rewrite app_nil_r.
  - apply (run_covers_add_mean _ _ v) in H. rewrite dropna_cons.
    destruct (Float64.isnan v); [by apply IH|].
    change (v :: dropna l) with ([v] ++ dropna l). rewrite app_assoc.
    by apply IH.
Qed.

(** Values that leave the window shorten the observations from the
    front: the runs that end them are still covered. *)
Lemma run_covers_foldl_remove gone obs st l :
  run_covers (gone ++ obs) st -> run_covers obs (foldl remove_mean st l).
Proof.
  intros [H0 H]. destruct (foldl_remove_mean_run st l) as [E1 E2].
  split; [by rewrite E1|]. intros c pre suf -> Hne Hall. rewrite E1, E2.
  apply (H c (gone ++ pre) suf); [by rewrite app_assoc | done | done].
Qed.

Lemma slice_length {A} (values : list A) (s e : Z) :
  0 <= s <= e -> e <= Z.of_nat (length values) ->
  Z.of_nat (length (slice values s e)) = e - s.
Proof.
  intros Hs He. unfold slice. rewrite length_take, length_drop. lia.
Qed.

Lemma slice_app {A} (values : list A) (a b c : Z) :
  0 <= a <= b -> b <= c ->
  slice values a c = slice values a b ++ slice values b c.
Proof.
  intros Hab Hbc. unfold slice.
  replace (drop (Z.to_nat b) values)
    with (drop (Z.to_nat b - Z.to_nat a) (drop (Z.to_nat a) values))
    by (rewrite drop_drop; f_equal; lia).
  rewrite take_take_drop. f_equal. lia.
Qed.

(** The values of a slice are values of the column. *)
Lemma slice_In {A} (values : list A) (s e : Z) x :
  In x (slice values s e) -> In x values.
Proof.
  unfold slice. rewrite <- !list_elem_of_In. intros H.
  by apply (subseteq_drop (Z.to_nat s)), (subseteq_take _ _ _ H).
Qed.

Lemma slice_positions (values : list float) (len : nat) (s : Z) :
  0 <= s -> s + Z.of_nat len <= Z.of_nat (length values) ->
  slice values s (s + Z.of_nat len)
  = map (value_at values) (seqZ s (Z.of_nat len)).
Proof.
  revert s. induction len as [|len IH]; intros s Hs Hn.
  - unfold slice. rewrite Z.add_0_r, Nat.sub_diag. reflexivity.
  - rewrite seqZ_cons by lia.
    replace (Z.pred (Z.of_nat (S len))) with (Z.of_nat len) by lia.
    cbn [map].
    rewrite (slice_app values s (Z.succ s) (s + Z.of_nat (S len))) by lia.
    assert (Hhead : slice values s (Z.succ s) = [value_at values s]).
    { unfold slice, value_at.
      replace (Z.to_nat (Z.succ s) - Z.to_nat s)%nat with 1%nat by lia.
      destruct (values !! Z.to_nat s) as [x|] eqn:E.
      - rewrite (drop_S _ _ _ E). simpl.
        by rewrite (nth_lookup_Some _ _ _ _ E).
      - apply lookup_ge_None in E. lia. }
    rewrite Hhead. cbn [app]. f_equal.
    rewrite <- IH by lia. f_equal. lia.
Qed.

Lemma window_bounds_inside (n w i : Z) :
  0 < w -> 0 <= i < n ->
  window_bounds n w i = (Z.max 0 (i + 1 - w), i + 1).
Proof.
  intros Hw Hi. unfold window_bounds, clip. f_equal; lia.
Qed.

(** An invariant of the running state that holds for a window set up
    afresh, and that is kept when the window slides, holds at every row. *)
Lemma roll_mean_from_spec values w minp
  (Inv : mean_state -> Z * Z -> Prop) :
  0 < w ->
  (forall s e, 0 <= s < e -> e <= Z.of_nat (length values) ->
               Inv (fresh_state values s e) (s, e)) ->
  (forall st ps pe s e,
      Inv st (ps, pe) -> 0 <= ps <= s -> s < pe -> pe <= e ->
      e <= Z.of_nat (length values) ->
      Inv (foldl add_mean (foldl remove_mean st (slice values ps s))
             (slice values pe e)) (s, e)) ->
  forall (len : nat) (k : Z) prev st,
    0 <= k -> k + Z.of_nat len <= Z.of_nat (length values) ->
    match prev with
    | None => k = 0
    | Some b =>
        0 < k
        /\ b = window_bounds (Z.of_nat (length values)) w (k - 1)
        /\ Inv st b
    end ->
    Forall2 (fun i out =>
               exists st',
                 Inv st' (window_bounds (Z.of_nat (length values)) w i)
                 /\ out = calc_mean minp st')
      (seqZ k (Z.of_nat len))
      (roll_mean_from values w minp (seqZ k (Z.of_nat len)) prev st).
Proof.
  intros Hw Hfresh Hslide.
  induction len as [|len IH]; intros k prev st Hk Hn Hprev.
  - rewrite seqZ_nil by lia. constructor.
  - rewrite seqZ_cons by lia.
    replace (Z.pred (Z.of_nat (S len))) with (Z.of_nat len) by lia.
    cbn [roll_mean_from].
    set (n := Z.of_nat (length values)) in *.
    rewrite (window_bounds_inside n w k) by lia.
    set (s := Z.max 0 (k + 1 - w)). set (e := k + 1).
    set (st' := match prev with
                | Some (ps, pe) =>
                    if pe <=? s then fresh_state values s e
                    else foldl add_mean
                           (foldl remove_mean st (slice values ps s))
                           (slice values pe e)
                | None => fresh_state values s e
                end).
    assert (Hst : Inv st' (s, e)).
    { subst st'. destruct prev as [[ps pe]|]; [|apply Hfresh; lia].
      destruct (Z.leb_spec pe s) as [Hle | Hgt]; [apply Hfresh; lia|].
      destruct Hprev as (Hk0 & Hb & Hinv).
      rewrite (window_bounds_inside n w (k - 1)) in Hb by lia.
      injection Hb as -> ->.
      apply Hslide; [exact Hinv | lia | lia | lia | lia]. }
    constructor.
    + exists st'. split; [|reflexivity].
      rewrite (window_bounds_inside n w k) by lia. exact Hst.
    + replace (Z.succ k) with (k + 1) by lia.
      apply IH; [lia | lia |].
      split; [lia|]. split; [|exact Hst].
      replace (k + 1 - 1) with k by lia.
      by rewrite (window_bounds_inside n w k) by lia.
Qed.

(** The running state counts the observations of its window, and knows
    the run that ends them. *)
Lemma tracks_fresh values s e : tracks values (fresh_state values s e) (s, e).
Proof.
  unfold tracks, fresh_state, observations. cbn [fst snd]. split.
  - rewrite foldl_add_mean_nobs. simpl. lia.
  - apply (run_covers_foldl_add []), run_covers_setup.
Qed.

Lemma tracks_slide values st ps pe s e :
  tracks values st (ps, pe) -> 0 <= ps <= s -> s < pe -> pe <= e ->
  tracks values
    (foldl add_mean (foldl remove_mean st (slice values ps s))
       (slice values pe e)) (s, e).
Proof.
  unfold tracks, observations. cbn [fst snd]. intros [Hst Hrun] Hps Hs He.
  rewrite (slice_app values ps s pe), dropna_app in Hst, Hrun by lia.
  rewrite (slice_app values s pe e), dropna_app by lia. split.
  - rewrite foldl_add_mean_nobs, foldl_remove_mean_nobs, Hst, !length_app.
    lia.
  - by apply run_covers_foldl_add, (run_covers_foldl_remove _ _ _ _ Hrun).
Qed.

(** What [rolling_mean] returns for a window of at least one row: one
    mean per value, each computed from a state that counts the
    observations of its window. *)
Lemma rolling_mean_spec values w :
  0 < w ->
  exists means,
    rolling_mean values w 1 = Ok means
    /\ Forall2 (fun i out =>
                  exists st,
                    tracks (prep_values values) st
                      (window_bounds (Z.of_nat (length values)) w i)
                    /\ out = calc_mean 1 st)
         (seqZ 0 (Z.of_nat (length values))) means.
Proof.
  intros Hw. unfold rolling_mean.
  assert (((1 <? 0) || (w <? 1) || (w <? 0)) = false) as ->.
  { rewrite !orb_false_iff, !Z.ltb_ge. lia. }
  eexists. split; [reflexivity|].
  assert (Hlen : length (prep_values values) = length values)
    by apply length_map.
  assert (HF := roll_mean_from_spec (prep_values values) w 1
                  (tracks (prep_values values)) Hw).
  specialize (HF (fun s e _ _ => tracks_fresh (prep_values values) s e)).
  assert (Hslide : forall st ps pe s e,
             tracks (prep_values values) st (ps, pe) ->
             0 <= ps <= s -> s < pe -> pe <= e ->
             e <= Z.of_nat (length (prep_values values)) ->
             tracks (prep_values values)
               (foldl add_mean
                  (foldl remove_mean st (slice (prep_values values) ps s))
                  (slice (prep_values values) pe e)) (s, e)).
  { intros st ps pe s e Hst Hps Hs He _. by apply tracks_slide. }
  specialize (HF Hslide (length (prep_values values)) 0 None
                (mean_setup Float64.nan) ltac:(lia) ltac:(lia) eq_refl).
  rewrite Hlen in HF |- *. exact HF.
Qed.

Lemma rolling_mean_length values w means :
  0 < w -> rolling_mean values w 1 = Ok means ->
  length means = length values.
Proof.
  intros Hw H. destruct (rolling_mean_spec values w Hw) as (ms & E & HF).
  rewrite E in H. injection H as <-.
  apply Forall2_length in HF. rewrite <- HF, length_seqZ. lia.
Qed.

Lemma rolling_mean_refused values w :
  w < 1 -> rolling_mean values w 1 = Raise ValueError.
Proof.
  intros Hw. unfold rolling_mean.
  assert (((1 <? 0) || (w <? 1) || (w <? 0)) = true) as ->; [|done].
  rewrite !orb_true_iff, Z.ltb_lt. lia.
Qed.

Lemma prep_values_slice values s e :
  slice (prep_values values) s e = prep_values (slice values s e).
Proof.
  unfold slice, prep_values. by rewrite List.skipn_map, List.firstn_map.
Qed.

(** A window without a number has no observation. *)
Lemma dropna_prep_values (l : list float) :
  (forall v, In v l -> Float64.is_finite v = false) ->
  dropna (prep_values l) = [].
Proof.
  induction l as [|v l IH]; intros H; [done|].
  cbn [prep_values map]. rewrite dropna_cons.
  assert (Hv : Float64.is_finite v = false) by (apply H; by left).
  assert (Float64.isnan (if Float64.isinf v then Float64.nan else v) = true)
    as -> by (by destruct v).
  apply IH. intros u ?. apply H. by right.
Qed.

(** The mean of a window without a number is NaN. *)
Lemma rolling_mean_lookup_nan values w means (i : nat) m :
  0 < w -> rolling_mean values w 1 = Ok means ->
  means !! i = Some m ->
  window_without_number values w (Z.of_nat i) ->
  m = Float64.nan.
Proof.
  intros Hw Hr Hm Hwin.
  destruct (rolling_mean_spec values w Hw) as (ms & E & HF).
  rewrite E in Hr. injection Hr as ->.
  assert (Hi : (i < length values)%nat).
  { apply Forall2_length in HF. rewrite length_seqZ in HF.
    apply lookup_lt_Some in Hm. lia. }
  assert (Hi' : seqZ 0 (Z.of_nat (length values)) !! i
                = Some (0 + Z.of_nat i)) by (apply lookup_seqZ_lt; lia).
  destruct (Forall2_lookup_l _ _ _ _ _ HF Hi') as (out & Hout & st & Htr & ->).
  rewrite Hm in Hout. injection Hout as ->.
  rewrite Z.add_0_l, (window_bounds_inside _ w (Z.of_nat i)) in Htr by lia.
  destruct Htr as [Htr _]. unfold observations in Htr. cbn [fst snd] in Htr.
  set (s := Z.max 0 (Z.of_nat i + 1 - w)) in *.
  rewrite prep_values_slice, dropna_prep_values in Htr.
  - unfold calc_mean. rewrite Htr. reflexivity.
  - intros v Hv.
    replace (Z.of_nat i + 1) with (s + Z.of_nat (Z.to_nat (Z.of_nat i + 1 - s)))
      in Hv by lia.
    rewrite slice_positions in Hv by lia.
    apply in_map_iff in Hv as (j & <- & Hj).
    apply list_elem_of_In, elem_of_seqZ in Hj. apply Hwin. lia.
Qed.

(** The observations of a window are its numbers. *)
Lemma dropna_prep_values_filter (l : list float) :
  dropna (prep_values l) = List.filter Float64.is_finite l.
Proof.
  induction l as [|v l IH]; [done|].
  cbn [prep_values map List.filter]. rewrite dropna_cons.
  fold (prep_values l). rewrite IH. by destruct v.
Qed.

(** The mean of a window whose numbers are all the same number is that
    number: the quotient of the running sum is not used. *)
Lemma rolling_mean_lookup_same values w means (i : nat) m c :
  0 < w -> rolling_mean values w 1 = Ok means ->
  means !! i = Some m ->
  window_repeats values w (Z.of_nat i) c ->
  m = c.
Proof.
  intros Hw Hr Hm (Hc & (j0 & Hj0 & Ej0) & Hwin).
  destruct (rolling_mean_spec values w Hw) as (ms & E & HF).
  rewrite E in Hr. injection Hr as ->.
  assert (Hi : (i < length values)%nat).
  { apply Forall2_length in HF. rewrite length_seqZ in HF.
    apply lookup_lt_Some in Hm. lia. }
  assert (Hi' : seqZ 0 (Z.of_nat (length values)) !! i
                = Some (0 + Z.of_nat i)) by (apply lookup_seqZ_lt; lia).
  destruct (Forall2_lookup_l _ _ _ _ _ HF Hi') as (out & Hout & st & Htr & ->).
  rewrite Hm in Hout. injection Hout as ->.
  rewrite Z.add_0_l, (window_bounds_inside _ w (Z.of_nat i)) in Htr by lia.
  destruct Htr as [Hn Hrun]. unfold observations in Hn, Hrun.
  cbn [fst snd] in Hn, Hrun.
  set (s := Z.max 0 (Z.of_nat i + 1 - w)) in *.
  rewrite prep_values_slice, dropna_prep_values_filter in Hn, Hrun.
  replace (Z.of_nat i + 1) with (s + Z.of_nat (Z.to_nat (Z.of_nat i + 1 - s)))
    in Hn, Hrun by lia.
  rewrite slice_positions in Hn, Hrun by lia.
  set (obs := List.filter Float64.is_finite
                (map (value_at values)
                   (seqZ s (Z.of_nat (Z.to_nat (Z.of_nat i + 1 - s)))))) in *.
  assert (Hall : forall v, In v obs -> v = c).
  { intros v Hv. apply filter_In in Hv as [Hv Hfin].
    apply in_map_iff in Hv as (j & <- & Hj).
    apply list_elem_of_In, elem_of_seqZ in Hj. apply Hwin; [lia | done]. }
  assert (Hne : obs <> []).
  { assert (Hin : In c obs).
    { apply filter_In. split; [|done]. rewrite <- Ej0. apply in_map.
      apply list_elem_of_In, elem_of_seqZ. lia. }
    by destruct obs. }
  destruct Hrun as [_ Hrun].
  destruct (Hrun c [] obs eq_refl Hne Hall) as [Hk Hp].
  assert (Hpos : (0 < length obs)%nat) by (destruct obs; [done | simpl; lia]).
  unfold calc_mean.
  assert (((1 <=? nobs st) && (0 <? nobs st)) = true) as ->.
  { apply andb_true_iff. split; [apply Z.leb_le | apply Z.ltb_lt]; lia. }
  assert ((nobs st <=? num_consecutive_same_value st) = true) as ->
    by (apply Z.leb_le; lia).
  exact Hp.
Qed.

End rolling_facts.

(** ** Sorting by time stamp *)

Section sort_facts.
Import ParseLogs Spec.
Context {V : Type}.

Lemma insert_by_ts_perm (x : Sample V) l :
  Permutation (insert_by_ts x l) (x :: l).
Proof.
  induction l as [|y l IH]; simpl; [done|].
  destruct (s_ts_ms x <=? s_ts_ms y); [done|].
  rewrite IH. apply perm_swap.
Qed.

Lemma sort_by_ts_perm (l : list (Sample V)) : Permutation (sort_by_ts l) l.
Proof.
  unfold sort_by_ts. induction l as [|x l IH]; simpl; [done|].
  by rewrite insert_by_ts_perm, IH.
Qed.

Lemma insert_by_ts_sorted (x : Sample V) l :
  Sorted ts_le l -> Sorted ts_le (insert_by_ts x l).
Proof.
  induction l as [|y l IH]; intros Hs; simpl.
  - repeat constructor.
  - destruct (Z.leb_spec (s_ts_ms x) (s_ts_ms y)) as [Hle | Hgt].
    + constructor; [done|]. by constructor.
    + apply Sorted_inv in Hs as [Hs Hhd]. constructor; [by apply IH|].
      destruct l as [|z l]; simpl.
      * constructor. unfold ts_le. lia.
      * destruct (s_ts_ms x <=? s_ts_ms z); constructor.
        -- unfold ts_le. lia.
        -- by apply HdRel_inv in Hhd.
Qed.

Lemma sort_by_ts_sorted (l : list (Sample V)) : Sorted ts_le (sort_by_ts l).
Proof.
  unfold sort_by_ts. induction l as [|x l IH]; simpl; [constructor|].
  by apply insert_by_ts_sorted.
Qed.

Lemma ts_le_trans : Relations_1.Transitive (@ts_le V).
Proof. intros a b c. unfold ts_le. lia. Qed.

(** Rows whose time stamps already increase strictly are left in place by
    any sort. *)
Lemma sorted_perm_of_strict (l p : list (Sample V)) :
  StronglySorted ts_lt l -> Permutation p l -> Sorted ts_le p -> p = l.
Proof.
  revert p. induction l as [|x l IH]; intros p Hl Hp Hs.
  - by apply Permutation_nil_r in Hp.
  - apply StronglySorted_inv in Hl as [Hl Hx].
    destruct p as [|y p].
    { apply Permutation_nil_l in Hp. done. }
    apply Sorted_StronglySorted in Hs; [|exact ts_le_trans].
    apply StronglySorted_inv in Hs as [Hs Hy].
    assert (Hyx : y = x).
    { assert (Hin1 : In y (x :: l)).
      { rewrite <- list_elem_of_In, <- Hp. by left. }
      assert (Hin2 : In x (y :: p)).
      { rewrite <- list_elem_of_In, Hp. by left. }
      destruct Hin1 as [E | Hin1]; [done|].
      destruct Hin2 as [E | Hin2]; [done|].
      rewrite List.Forall_forall in Hx, Hy.
      specialize (Hx y Hin1). specialize (Hy x Hin2).
      unfold ts_lt, ts_le in *. lia. }
    subst y. f_equal. apply IH; [done | | ].
    + by apply Permutation_cons_inv in Hp.
    + by apply StronglySorted_Sorted.
Qed.

End sort_facts.

Lemma zip_with_ma_fields rows means :
  length means = length rows ->
  map ParseLogs.mp_ts_ms (zip_with ParseLogs.with_ma rows means)
  = map ParseLogs.s_ts_ms rows
  /\ map ParseLogs.mp_value (zip_with ParseLogs.with_ma rows means)
     = map ParseLogs.s_value rows
  /\ map ParseLogs.mp_ma (zip_with ParseLogs.with_ma rows means) = means.
Proof.
  revert means. induction rows as [|s rows IH]; intros [|m means] Hlen;
    try done.
  simpl in Hlen. destruct (IH means) as (E1 & E2 & E3); [lia|].
  simpl. by rewrite E1, E2, E3.
Qed.

Lemma lookup_map {A B} (f : A -> B) (l : list A) i :
  map f l !! i = f <$> (l !! i).
Proof.
  revert i. induction l as [|a l IH]; intros [|i]; simpl; done.
Qed.

(** ** The moving average of plot_timeseries *)

Section timeseries_claims.
Import ParseLogs Spec.
Context {T : Type}.
Variable sort_values : list (Sample float) -> list (Sample float).
Variable to_datetime : list Z -> pyresult (list T).
Hypothesis sort_values_perm : forall d, Permutation (sort_values d) d.

#[local] Abbreviation ma_series_ := (ma_series sort_values to_datetime).

(** An exception of the conversion of the time stamps ends the
    function. *)
Lemma ma_series_raises d window e :
  to_datetime (map s_ts_ms (sort_values d)) = Raise e ->
  ma_series_ d window = Raise e.
Proof. intros H. unfold ma_series. by rewrite H. Qed.

(** Without one, and with a window of at least one row, the frame has
    the sorted rows, each with its moving average. *)
Lemma ma_series_ok d window ts :
  0 < window ->
  to_datetime (map s_ts_ms (sort_values d)) = Ok ts ->
  exists means,
    rolling_mean (map s_value (sort_values d)) window 1 = Ok means
    /\ length means = length d
    /\ ma_series_ d window
       = Ok {| mf_ts := ts;
               mf_points := zip_with with_ma (sort_values d) means |}.
Proof.
  intros Hw Hts.
  destruct (rolling_mean_spec (map s_value (sort_values d)) window Hw)
    as (means & Hm & _).
  exists means. split; [exact Hm|]. split.
  - rewrite (rolling_mean_length _ _ _ Hw Hm), length_map.
    apply Permutation_length, sort_values_perm.
  - unfold ma_series. rewrite Hts. cbn [mbind pyresult_bind].
    by rewrite Hm.
Qed.

(** A window below one row is refused, once the time stamps are
    converted. *)
Lemma ma_series_refused d window ts :
  window < 1 ->
  to_datetime (map s_ts_ms (sort_values d)) = Ok ts ->
  ma_series_ d window = Raise ValueError.
Proof.
  intros Hw Hts. unfold ma_series. rewrite Hts. cbn [mbind pyresult_bind].
  by rewrite rolling_mean_refused.
Qed.

(** What [plot_timeseries] draws is the frame of the samples of the
    sensor. *)
Lemma plot_timeseries_series df sensor window :
  plot_timeseries sort_values to_datetime df sensor window
  = match df with
    | [] => Raise KeyError
    | _ =>
        match List.filter (fun r => String.eqb (s_type r) sensor) df with
        | [] => Ok None
        | d => frame ← ma_series_ d window; Ok (Some frame)
        end
    end.
Proof.
  destruct df as [|r df]; [reflexivity|].
  unfold plot_timeseries. rewrite rows_of_type_cons.
  cbn [mbind pyresult_bind].
  by destruct (List.filter _ (r :: df)).
Qed.

Hypothesis sort_values_sorted : forall d, Sorted ts_le (sort_values d).


(** C9, as the code has it. A single sample gives a single point; its
    rolling mean is the raw value when that is a number, and NaN when the
    raw value is NaN or infinite. When all the samples have the same
    value, whatever their number and the window, every rolling mean is
    that value when it is a number, and NaN otherwise. *)
Theorem C9_moving_average_fixed_points (window : Z) :
  0 < window < 2 ^ 63 ->
  (forall (s : Sample float) ts,
      to_datetime [s_ts_ms s] = Ok ts ->
      exists m,
        ma_series_ [s] window
        = Ok {| mf_ts := ts;
                mf_points := [{| mp_ts_ms := s_ts_ms s;
                                 mp_value := s_value s; mp_ma := m |}] |}
        /\ (Float64.is_finite (s_value s) = true -> m = s_value s)
        /\ (Float64.is_finite (s_value s) = false -> m = Float64.nan))
  /\ (forall (d : list (Sample float)) (c : float) ts,
        (forall s, In s d -> s_value s = c) ->
        to_datetime (map s_ts_ms (sort_values d)) = Ok ts ->
        exists series,
          ma_series_ d window = Ok {| mf_ts := ts; mf_points := series |}
          /\ length series = length d
          /\ forall p, In p series ->
               mp_value p = c
               /\ (Float64.is_finite c = true -> mp_ma p = c)
               /\ (Float64.is_finite c = false -> mp_ma p = Float64.nan)).
Proof.
  intros [Hw _].
  assert (Hconst : forall (d : list (Sample float)) (c : float) ts,
             (forall s, In s d -> s_value s = c) ->
             to_datetime (map s_ts_ms (sort_values d)) = Ok ts ->
             exists means,
               ma_series_ d window
               = Ok {| mf_ts := ts;
                       mf_points := zip_with with_ma (sort_values d) means |}
               /\ length means = length (sort_values d)
               /\ forall m, In m means ->
                    (Float64.is_finite c = true -> m = c)
                    /\ (Float64.is_finite c = false -> m = Float64.nan)).
  { intros d c ts Hc Hts.
    destruct (ma_series_ok d window ts Hw Hts) as (means & Hm & Hlen & Hs).
    exists means. split; [exact Hs|].
    assert (Hc' : forall v, In v (map s_value (sort_values d)) -> v = c).
    { intros v Hv. apply in_map_iff in Hv as (s & <- & Hin). apply Hc.
      by rewrite <- list_elem_of_In, <- (sort_values_perm d),
        list_elem_of_In. }
    split.
    { rewrite Hlen. symmetry. apply Permutation_length, sort_values_perm. }
    intros m Hin.
    apply list_elem_of_In, list_elem_of_lookup in Hin as (i & Hi).
    assert (Hlt : (i < length (map s_value (sort_values d)))%nat).
    { rewrite <- (rolling_mean_length _ _ _ Hw Hm).
      by apply lookup_lt_Some in Hi. }
    assert (Hat : forall j, 0 <= j <= Z.of_nat i ->
                value_at (map s_value (sort_values d)) j = c).
    { intros j Hj. unfold value_at. apply Hc', nth_In. lia. }
    split.
    - intros Hfin.
      apply (rolling_mean_lookup_same _ _ _ i m c Hw Hm Hi).
      split; [exact Hfin|]. split.
      + exists (Z.of_nat i). split; [lia | apply Hat; lia].
      + intros j Hj _. apply Hat. lia.
    - intros Hnot.
      apply (rolling_mean_lookup_nan _ _ _ i m Hw Hm Hi).
      intros j Hj. rewrite Hat by lia. exact Hnot. }
  split.
  - intros s ts Hts.
    assert (Hs : sort_values [s] = [s]).
    { apply Permutation_length_1_inv. symmetry. apply sort_values_perm. }
    assert (Hts' : to_datetime (map s_ts_ms (sort_values [s])) = Ok ts)
      by (by rewrite Hs).
    destruct (Hconst [s] (s_value s) ts) as (means & Hm & Hlen & Hall);
      [by intros s' [<- | []] | exact Hts' |].
    rewrite Hs in Hm, Hlen.
    destruct means as [|m [|m' means]]; try done.
    exists m. split; [exact Hm|]. apply Hall. by left.
  - intros d c ts Hc Hts.
    destruct (Hconst d c ts Hc Hts) as (means & Hm & Hlen & Hall).
    destruct (zip_with_ma_fields (sort_values d) means Hlen)
      as (_ & E2 & E3).
    exists (zip_with with_ma (sort_values d) means). split; [exact Hm|].
    split.
    { rewrite length_zip_with, Hlen, Nat.min_id.
      apply Permutation_length, sort_values_perm. }
    intros p Hp. split.
    + assert (Hv : In (mp_value p) (map s_value (sort_values d))).
      { rewrite <- E2. by apply in_map. }
      apply in_map_iff in Hv as (s & <- & Hin). apply Hc.
      by rewrite <- list_elem_of_In, <- (sort_values_perm d),
        list_elem_of_In.
    + apply Hall. rewrite <- E3. by apply in_map.
Qed.

End timeseries_claims.



(** C9 as stated fails: a single sample whose value is infinite, as the
    line [SAMPLE|TEMP|inf|1000] gives one, has a rolling mean that is NaN,
    not the raw value. *)
Lemma C9_counterexample :
  exists frame p,
    ParseLogs.ma_series ParseLogs.sort_by_ts (fun ts : list Z => Ok ts)
      [{| ParseLogs.s_type := "TEMP"; ParseLogs.s_value := Float64.inf;
          ParseLogs.s_ts_ms := 1000 |}] 5 = Ok frame
    /\ ParseLogs.mf_points frame = [p]
    /\ ParseLogs.mp_value p = Float64.inf
    /\ ParseLogs.mp_ma p = Float64.nan
    /\ Float64.eqb (ParseLogs.mp_ma p) (ParseLogs.mp_value p) = false.
Proof.
  eexists _, _. split; [vm_compute; reflexivity|].
  split; [reflexivity|]. repeat split.
Qed.

Lemma C9_moving_average_fixed_points_witness :
  0 < 5 < 2 ^ 63
  /\ exists m,
      ParseLogs.ma_series ParseLogs.sort_by_ts (fun ts : list Z => Ok ts)
        [Spec.reading 21 1000] 5
      = Ok {| ParseLogs.mf_ts := [1000];
              ParseLogs.mf_points :=
                [{| ParseLogs.mp_ts_ms := 1000;
                    ParseLogs.mp_value := Float64.of_Z 21;
                    ParseLogs.mp_ma := m |}] |}
      /\ m = Float64.of_Z 21.
Proof.
  split; [lia|].
  destruct (proj1 (C9_moving_average_fixed_points ParseLogs.sort_by_ts
                     (fun ts : list Z => Ok ts) sort_by_ts_perm 5
                     ltac:(lia))
              (Spec.reading 21 1000) [1000] eq_refl)
    as (m & H1 & H2 & _).
  exists m. split; [exact H1|]. apply H2. reflexivity.
Defined.

Example moving_average_of_three :
  ParseLogs.ma_series ParseLogs.sort_by_ts (fun ts : list Z => Ok ts)
    Spec.three_samples 2
  = Ok {| ParseLogs.mf_ts := [500; 1000; 1500];
          ParseLogs.mf_points :=
            [{| ParseLogs.mp_ts_ms := 500;
                ParseLogs.mp_value := Float64.of_Z 2;
                ParseLogs.mp_ma := Float64.of_Z 2 |};
             {| ParseLogs.mp_ts_ms := 1000;
                ParseLogs.mp_value := Float64.of_Z 3;
                ParseLogs.mp_ma := Float64.div (Float64.of_Z 5)
                                     (Float64.of_Z 2) |};
             {| ParseLogs.mp_ts_ms := 1500;
                ParseLogs.mp_value := Float64.of_Z 4;
                ParseLogs.mp_ma := Float64.div (Float64.of_Z 7)
                                     (Float64.of_Z 2) |}] |}.
Proof. vm_compute. reflexivity. Qed.

(** ** The scenarios of the specification *)

(** Ten TEMP samples over 5000 ms and one TEMP alert: TEMP is not
    reported (10 samples for 9 expected) and the alert check passes; HUM
    and PRESS, which have no sample, are both reported. *)
Example scenario_A :
  CheckLog.check_log
    (Spec.log_of (Spec.ten_temp_samples ++ ["ALERT|TEMP|30.1|3000|avg high"]))
    5000
  = Ok (1, [CheckLog.SampleCountTooLow "HUM" 0 6;
            CheckLog.SampleCountTooLow "PRESS" 0 3]).
Proof. vm_compute. reflexivity. Qed.

(** The same log without its alert: the missing alert is reported as well. *)
Example scenario_B :
  CheckLog.check_log (Spec.log_of Spec.ten_temp_samples) 5000
  = Ok (1, [CheckLog.SampleCountTooLow "HUM" 0 6;
            CheckLog.SampleCountTooLow "PRESS" 0 3;
            CheckLog.NoTempAlert 5000 2500]).
Proof. vm_compute. reflexivity. Qed.

(** One sample and one line of garbage. *)
Example scenario_C :
  ParseLogs.parse_log PyFloat.float_of_string PyFloat.int_of_float
    (Spec.log_of ["SAMPLE|TEMP|21.5|1000"; "GARBAGE|xyz"])
  = Ok ([{| ParseLogs.s_type := "TEMP"; ParseLogs.s_value := (43 # 2)%Q;
            ParseLogs.s_ts_ms := 1000 |}], [])
  /\ (exists c,
        CheckLog.count_lines
          (PyStr.file_lines
             (Spec.log_of ["SAMPLE|TEMP|21.5|1000"; "GARBAGE|xyz"])) = Ok c
        /\ CheckLog.total_lines c = 2).
Proof.
  split; [vm_compute; reflexivity|].
  eexists. split; vm_compute; reflexivity.
Qed.

(** * Further properties *)

(** ** check_log.py: the counters and the verdict *)

Section check_log_more.
Import CheckLog Spec.

Lemma sensor_dict_lookup_other {A} (t h p : A) k :
  ~ In k sensors -> sensor_dict t h p !! k = None.
Proof.
  intros Hk. unfold sensor_dict.
  rewrite !lookup_insert_ne, lookup_empty; [done | | |];
    intros E; apply Hk; rewrite <- E; unfold sensors; simpl; tauto.
Qed.

Lemma sensor_dict_lookup_In {A} (f : string -> A) k :
  In k sensors ->
  sensor_dict (f "TEMP") (f "HUM") (f "PRESS") !! k = Some (f k).
Proof.
  intros Hk.
  destruct (sensor_dict_lookup (f "TEMP") (f "HUM") (f "PRESS"))
    as (? & ? & ?).
  destruct Hk as [<- | [<- | [<- | []]]]; done.
Qed.

(** X2. In every log the counting loop ends without an exception; it counts
    every line, and its two dicts keep exactly the keys TEMP, HUM and
    PRESS, each with the number of SAMPLE lines of at least 4 fields
    (ALERT lines of at least 5 fields) whose second field is the key. *)
Theorem counting_loop_counts (lines : list string) :
  exists c,
    count_lines lines = Ok c
    /\ total_lines c = Z.of_nat (length lines)
    /\ (forall k, In k sensors ->
          sample_counts c !! k = Some (n_lines (counted "SAMPLE" 4 k) lines)
          /\ alert_counts c !! k = Some (n_lines (counted "ALERT" 5 k) lines))
    /\ (forall k, ~ In k sensors ->
          sample_counts c !! k = None /\ alert_counts c !! k = None).
Proof.
  eexists. split; [apply count_lines_spec|].
  cbn [total_lines sample_counts alert_counts].
  split; [done|]. split.
  - intros k Hk. split.
    + by apply (sensor_dict_lookup_In
                  (fun k => n_lines (counted "SAMPLE" 4 k) lines)).
    + by apply (sensor_dict_lookup_In
                  (fun k => n_lines (counted "ALERT" 5 k) lines)).
  - intros k Hk. split; by apply sensor_dict_lookup_other.
Qed.

(** The script on a log, unfolded: the verdict of the sample check, then
    the alert check. *)
Lemma check_log_unfold text d :
  let lines := PyStr.file_lines text in
  let n := fun k => n_lines (counted "SAMPLE" 4 k) lines in
  let st :=
    (negb (n "TEMP" <? expected_for d 500)
     && negb (n "HUM" <? expected_for d 700)
     && negb (n "PRESS" <? expected_for d 1200),
     omap id [too_low d "TEMP" (n "TEMP") 500; too_low d "HUM" (n "HUM") 700;
              too_low d "PRESS" (n "PRESS") 1200]) in
  let st' :=
    if 2500 <=? d
    then if n_lines (counted "ALERT" 5 "TEMP") lines <? 1
         then (false, snd st ++ [NoTempAlert d 2500])
         else st
    else st in
  check_log text d = Ok (exit_code st', snd st').
Proof.
  intros lines n st st'. unfold check_log. fold lines.
  rewrite count_lines_spec. cbn [sample_counts alert_counts].
  unfold run_checks. rewrite check_samples_step.
  cbn [mbind pyresult_bind]. rewrite check_alerts_step.
  cbn [mbind pyresult_bind]. reflexivity.
Qed.

(** X3. On every log and for every duration the script ends with exit code 0
    or 1, never with an exception; the exit code is 0 exactly when nothing
    is reported, which is exactly when each sensor has its expected
    number of samples and, from 2500 ms on, TEMP has an alert. *)
Theorem check_log_verdict (text : string) (d : Z) :
  let lines := PyStr.file_lines text in
  exists code failures,
    check_log text d = Ok (code, failures)
    /\ (code = 0 \/ code = 1)
    /\ (code = 0 <-> failures = [])
    /\ (code = 0
        <-> expected_for d 500 <= n_lines (counted "SAMPLE" 4 "TEMP") lines
            /\ expected_for d 700 <= n_lines (counted "SAMPLE" 4 "HUM") lines
            /\ expected_for d 1200
               <= n_lines (counted "SAMPLE" 4 "PRESS") lines
            /\ (d < 2500
                \/ 1 <= n_lines (counted "ALERT" 5 "TEMP") lines)).
Proof.
  intros lines. eexists _, _. split; [apply check_log_unfold|].
  fold lines. unfold too_low, expected_for, exit_code.
  destruct (Z.ltb_spec (n_lines (counted "SAMPLE" 4 "TEMP") lines)
              (Z.max 1 (d / 500 - 1)));
    destruct (Z.ltb_spec (n_lines (counted "SAMPLE" 4 "HUM") lines)
                (Z.max 1 (d / 700 - 1)));
    destruct (Z.ltb_spec (n_lines (counted "SAMPLE" 4 "PRESS") lines)
                (Z.max 1 (d / 1200 - 1)));
    destruct (Z.leb_spec 2500 d);
    destruct (Z.ltb_spec (n_lines (counted "ALERT" 5 "TEMP") lines) 1);
    cbn; (split; [tauto|]); split; split; intros; try done; try lia.
Qed.

(** X4. Whatever the duration, a sensor without a single counted SAMPLE line
    is reported, and the script ends with exit code 1: the expectation is
    never below one sample. *)
Theorem sensor_without_sample_fails (text : string) (d : Z) (k : string) :
  In k sensors ->
  n_lines (counted "SAMPLE" 4 k) (PyStr.file_lines text) = 0 ->
  exists failures wanted,
    check_log text d = Ok (1, failures)
    /\ In (SampleCountTooLow k 0 wanted) failures
    /\ 1 <= wanted.
Proof.
  intros Hk H0. rewrite check_log_unfold.
  set (lines := PyStr.file_lines text) in *.
  set (nT := n_lines (counted "SAMPLE" 4 "TEMP") lines) in *.
  set (nH := n_lines (counted "SAMPLE" 4 "HUM") lines) in *.
  set (nP := n_lines (counted "SAMPLE" 4 "PRESS") lines) in *.
  set (aT := n_lines (counted "ALERT" 5 "TEMP") lines).
  set (fs := omap id [too_low d "TEMP" nT 500; too_low d "HUM" nH 700;
                      too_low d "PRESS" nP 1200]).
  assert (Hin : exists wanted,
             In (SampleCountTooLow k 0 wanted) fs /\ 1 <= wanted).
  { assert (Hlow : forall rate,
               too_low d k 0 rate
               = Some (SampleCountTooLow k 0 (Z.max 1 (d / rate - 1)))).
    { intros rate. unfold too_low.
      destruct (Z.ltb_spec 0 (Z.max 1 (d / rate - 1))); [done | lia]. }
    subst fs.
    destruct Hk as [<- | [<- | [<- | []]]].
    - exists (Z.max 1 (d / 500 - 1)). split; [|lia].
      apply list_elem_of_In, elem_of_omap_id3. left.
      subst nT. rewrite H0. apply Hlow.
    - exists (Z.max 1 (d / 700 - 1)). split; [|lia].
      apply list_elem_of_In, elem_of_omap_id3. right. left.
      subst nH. rewrite H0. apply Hlow.
    - exists (Z.max 1 (d / 1200 - 1)). split; [|lia].
      apply list_elem_of_In, elem_of_omap_id3. right. right.
      subst nP. rewrite H0. apply Hlow. }
  destruct Hin as (wanted & Hin & Hw).
  assert (Hok : negb (nT <? expected_for d 500)
                && negb (nH <? expected_for d 700)
                && negb (nP <? expected_for d 1200) = false).
  { unfold expected_for.
    destruct Hk as [<- | [<- | [<- | []]]].
    - subst nT. rewrite H0.
      destruct (Z.ltb_spec 0 (Z.max 1 (d / 500 - 1))); [done | lia].
    - subst nH. rewrite H0.
      destruct (Z.ltb_spec 0 (Z.max 1 (d / 700 - 1)));
        [by rewrite andb_false_r | lia].
    - subst nP. rewrite H0.
      destruct (Z.ltb_spec 0 (Z.max 1 (d / 1200 - 1)));
        [by rewrite andb_false_r | lia]. }
  rewrite Hok. cbn [snd].
  destruct (2500 <=? d); [destruct (aT <? 1)|]; cbn [exit_code fst snd].
  - eexists _, wanted. split; [reflexivity|]. split; [|done].
    apply in_or_app. by left.
  - eexists _, wanted. split; [reflexivity|]. done.
  - eexists _, wanted. split; [reflexivity|]. done.
Qed.

(** X5. The expectation for a positive rate: at least one sample; exactly one
    as long as the run is shorter than three periods; from two periods on,
    one sample fewer than the periods the run holds. *)
Theorem expected_for_floor (d R : Z) :
  0 < R ->
  1 <= expected_for d R
  /\ (expected_for d R = 1 <-> d < 3 * R)
  /\ (2 * R <= d -> expected_for d R = d / R - 1)
  /\ (R <= d -> expected_for d R <= d / R).
Proof.
  intros HR. unfold expected_for.
  assert (H2 : d / R <= 2 <-> d < 3 * R).
  { split; intros H.
    - destruct (Z.lt_ge_cases d (3 * R)) as [|Hge]; [done|].
      assert (3 <= d / R) by (apply Z.div_le_lower_bound; lia). lia.
    - assert (d / R < 3) by (apply Z.div_lt_upper_bound; lia). lia. }
  split; [lia|]. split; [|split].
  - rewrite <- H2. lia.
  - intros H. assert (2 <= d / R) by (apply Z.div_le_lower_bound; lia). lia.
  - intros H. assert (1 <= d / R) by (apply Z.div_le_lower_bound; lia). lia.
Qed.

Lemma n_lines_app p l l' :
  n_lines p (l ++ l') = n_lines p l + n_lines p l'.
Proof.
  unfold n_lines. rewrite List.filter_app, length_app. lia.
Qed.

(** X6. Lines added at the end of a log never turn a passing run into a
    failing one: the counters only grow. *)
Theorem passing_log_stays_passing (lines more : list string) (d : Z) :
  (exists c,
      count_lines lines = Ok c
      /\ run_checks d (sample_counts c) (alert_counts c) = Ok (true, [])) ->
  exists c',
    count_lines (lines ++ more) = Ok c'
    /\ run_checks d (sample_counts c') (alert_counts c') = Ok (true, [])
    /\ total_lines c' = Z.of_nat (length lines) + Z.of_nat (length more).
Proof.
  intros (c & Hc & Hrun). rewrite count_lines_spec in Hc.
  injection Hc as <-. cbn [sample_counts alert_counts] in Hrun.
  eexists. split; [apply count_lines_spec|].
  cbn [sample_counts alert_counts total_lines].
  split; [|rewrite length_app; lia].
  unfold run_checks in *. rewrite check_samples_step in *.
  cbn [mbind pyresult_bind] in *. rewrite check_alerts_step in *.
  rewrite !n_lines_app. unfold too_low, expected_for in *.
  assert (H1 := n_lines_nonneg (counted "SAMPLE" 4 "TEMP") more).
  assert (H2 := n_lines_nonneg (counted "SAMPLE" 4 "HUM") more).
  assert (H3 := n_lines_nonneg (counted "SAMPLE" 4 "PRESS") more).
  assert (H4 := n_lines_nonneg (counted "ALERT" 5 "TEMP") more).
  revert Hrun.
  destruct (Z.ltb_spec (n_lines (counted "SAMPLE" 4 "TEMP") lines)
              (Z.max 1 (d / 500 - 1)));
    destruct (Z.ltb_spec (n_lines (counted "SAMPLE" 4 "HUM") lines)
                (Z.max 1 (d / 700 - 1)));
    destruct (Z.ltb_spec (n_lines (counted "SAMPLE" 4 "PRESS") lines)
                (Z.max 1 (d / 1200 - 1)));
    destruct (Z.leb_spec 2500 d);
    destruct (Z.ltb_spec (n_lines (counted "ALERT" 5 "TEMP") lines) 1);
    cbn; intros Hrun; try discriminate Hrun.
  all: repeat match goal with
         | |- context [?a + ?b <? ?c] =>
             destruct (Z.ltb_spec (a + b) c); [lia|]
         end; reflexivity.
Qed.

End check_log_more.

Lemma sensor_without_sample_fails_witness :
  exists failures wanted,
    CheckLog.check_log (Spec.log_of Spec.ten_temp_samples) 1000
    = Ok (1, failures)
    /\ In (CheckLog.SampleCountTooLow "HUM" 0 wanted) failures
    /\ 1 <= wanted.
Proof.
  apply (sensor_without_sample_fails (Spec.log_of Spec.ten_temp_samples) 1000
           "HUM").
  - right. left. reflexivity.
  - vm_compute. reflexivity.
Defined.

Lemma expected_for_floor_witness :
  0 < 500
  /\ 1 <= CheckLog.expected_for 1200 500
  /\ (CheckLog.expected_for 1200 500 = 1 <-> 1200 < 3 * 500).
Proof.
  split; [lia|].
  destruct (expected_for_floor 1200 500 ltac:(lia)) as (H1 & H2 & _).
  split; [exact H1 | exact H2].
Defined.

Lemma passing_log_stays_passing_witness :
  exists c',
    CheckLog.count_lines
      (["SAMPLE|TEMP|21.5|500"; "SAMPLE|HUM|40.0|700";
        "SAMPLE|PRESS|1013.2|1200"] ++ ["SAMPLE|TEMP|21.6|1000"]) = Ok c'
    /\ CheckLog.run_checks 1300 (CheckLog.sample_counts c')
         (CheckLog.alert_counts c') = Ok (true, [])
    /\ CheckLog.total_lines c' = Z.of_nat 3 + Z.of_nat 1.
Proof.
  apply (passing_log_stays_passing
           ["SAMPLE|TEMP|21.5|500"; "SAMPLE|HUM|40.0|700";
            "SAMPLE|PRESS|1013.2|1200"] ["SAMPLE|TEMP|21.6|1000"] 1300).
  eexists. split; vm_compute; reflexivity.
Defined.

(** ** Lines and fields *)

Section line_facts.
Import PyStr Spec.

Lemma lstrip_empty s : lstrip s = EmptyString <-> all_space s = true.
Proof.
  unfold all_space. induction s as [|c r IH]; simpl; [done|].
  destruct (is_space c); simpl; [exact IH | done].
Qed.

Lemma rstrip_empty s : rstrip s = EmptyString <-> all_space s = true.
Proof.
  unfold all_space. induction s as [|c r IH]; simpl; [done|].
  destruct (rstrip r) eqn:E.
  - destruct (is_space c); simpl; [|done].
    split; [intros _; by apply IH | done].
  - split; [done|]. intros H. apply andb_true_iff in H as [_ H].
    apply IH in H. done.
Qed.

Lemma all_space_lstrip s : all_space (lstrip s) = all_space s.
Proof.
  unfold all_space. induction s as [|c r IH]; simpl; [done|].
  destruct (is_space c) eqn:E; simpl; [exact IH | by rewrite E].
Qed.

Lemma blank_all_space raw : blank raw = true <-> all_space raw = true.
Proof.
  unfold blank, strip. rewrite String.eqb_eq, rstrip_empty.
  by rewrite all_space_lstrip.
Qed.

(** X7. A line of white space only, the empty line included, is skipped by
    both loops: the parser leaves its frames as they are, and the checker
    only counts one more line. No other line is taken for blank. *)
Theorem blank_lines_are_skipped (raw : string) :
  (blank raw = true <-> all_space raw = true)
  /\ (all_space raw = true ->
      (forall (V : Type) (py_float : string -> pyresult V)
              (py_int : V -> pyresult Z) st,
          ParseLogs.parse_line py_float py_int st raw = Ok st)
      /\ (forall c,
            CheckLog.count_line c raw
            = Ok {| CheckLog.sample_counts := CheckLog.sample_counts c;
                    CheckLog.alert_counts := CheckLog.alert_counts c;
                    CheckLog.total_lines := CheckLog.total_lines c + 1 |})).
Proof.
  split; [apply blank_all_space|].
  intros H. apply blank_all_space in H. unfold blank in H. split.
  - intros V py_float py_int [samples alerts].
    unfold ParseLogs.parse_line. by rewrite H.
  - intros c. unfold CheckLog.count_line. by rewrite H.
Qed.

Lemma concat_split_cons sep h t :
  String.concat (String sep EmptyString) (h :: t)
  = match t with
    | [] => h
    | _ => (h ++ String sep (String.concat (String sep EmptyString) t))%string
    end.
Proof. by destruct t. Qed.

(** X8. Splitting a line at a separator loses nothing: the fields joined by
    the separator give the line back; there is one field more than there
    are separators; and no field holds the separator. *)
Theorem split_join (sep : ascii) (s : string) :
  String.concat (String sep EmptyString) (split sep s) = s
  /\ length (split sep s) = S (occurrences sep s)
  /\ (forall f, In f (split sep s) -> occurrences sep f = 0%nat).
Proof.
  split; [|split].
  - induction s as [|c r IH]; [done|]. cbn [split].
    destruct (split_cons sep r) as (h & t & E). rewrite E in *.
    destruct (Ascii.eqb_spec c sep) as [-> | Hne].
    + rewrite concat_split_cons at 1. by rewrite IH.
    + rewrite concat_split_cons. rewrite concat_split_cons in IH.
      destruct t; simpl; by rewrite <- IH.
  - unfold occurrences. induction s as [|c r IH]; [done|]. cbn [split].
    destruct (split_cons sep r) as (h & t & E). rewrite E in *.
    cbn [list_ascii_of_string List.filter].
    rewrite (Ascii.eqb_sym sep c).
    destruct (Ascii.eqb c sep); cbn [length] in *; lia.
  - intros f Hf. apply split_no_sep in Hf. unfold occurrences.
    induction (list_ascii_of_string f) as [|c l IH]; [done|].
    cbn [List.filter]. destruct (Ascii.eqb_spec sep c) as [-> | Hne].
    + exfalso. apply Hf. by left.
    + apply IH. intros H. apply Hf. by right.
Qed.

Lemma universal_newlines_crlf s :
  occurrences CR s = 0%nat -> universal_newlines (to_crlf s) = s.
Proof.
  unfold occurrences. induction s as [|c r IH]; [done|].
  cbn [list_ascii_of_string List.filter to_crlf].
  destruct (Ascii.eqb_spec CR c) as [<- | Hne]; [done|]. intros H.
  destruct (Ascii.eqb_spec c LF) as [-> | Hlf].
  - cbn. by rewrite IH.
  - cbn [universal_newlines].
    destruct (Ascii.eqb_spec c CR) as [-> | _]; [done|]. by rewrite IH.
Qed.

Lemma universal_newlines_id s :
  occurrences CR s = 0%nat -> universal_newlines s = s.
Proof.
  unfold occurrences. induction s as [|c r IH]; [done|].
  cbn [list_ascii_of_string List.filter universal_newlines].
  destruct (Ascii.eqb_spec CR c) as [<- | Hne]; [done|]. intros H.
  destruct (Ascii.eqb_spec c CR) as [-> | _]; [done|]. by rewrite IH.
Qed.

(** X9. The line endings do not matter: a log written with carriage return
    and line feed is read as the same lines, so the checker and the parser
    give the same results on it. *)
Theorem crlf_log_reads_the_same (text : string) :
  occurrences CR text = 0%nat ->
  file_lines (to_crlf text) = file_lines text
  /\ (forall d, CheckLog.check_log (to_crlf text) d
                = CheckLog.check_log text d)
  /\ (forall (V : Type) (py_float : string -> pyresult V)
             (py_int : V -> pyresult Z),
        ParseLogs.parse_log py_float py_int (to_crlf text)
        = ParseLogs.parse_log py_float py_int text).
Proof.
  intros H.
  assert (E : file_lines (to_crlf text) = file_lines text).
  { unfold file_lines.
    by rewrite universal_newlines_crlf, universal_newlines_id. }
  split; [exact E|]. split.
  - intros d. unfold CheckLog.check_log. by rewrite E.
  - intros V py_float py_int. unfold ParseLogs.parse_log. by rewrite E.
Qed.

End line_facts.

Lemma crlf_log_reads_the_same_witness :
  Spec.occurrences PyStr.CR (Spec.log_of Spec.ten_temp_samples) = 0%nat
  /\ PyStr.file_lines (Spec.to_crlf (Spec.log_of Spec.ten_temp_samples))
     = PyStr.file_lines (Spec.log_of Spec.ten_temp_samples).
Proof.
  split; [reflexivity|].
  apply (crlf_log_reads_the_same (Spec.log_of Spec.ten_temp_samples)).
  reflexivity.
Defined.

(** ** parse_log: composition and the fields of a sample *)

Section parse_log_more.
Import ParseLogs Spec.
Context {V : Type}.
Variable py_float : string -> pyresult V.
Variable py_int : V -> pyresult Z.

#[local] Abbreviation parse_lines_ := (parse_lines py_float py_int).
#[local] Abbreviation parse_line_ := (parse_line py_float py_int).
#[local] Abbreviation sample_of_l := (sample_of_line py_float py_int).
#[local] Abbreviation alert_of_l := (alert_of_line py_float py_int).

(** X10. The loop keeps no state from one line to the next beyond the two
    lists: the frames of two logs put end to end are the frames of the
    first followed by the frames of the second, in file order. *)
Theorem parse_lines_app (l1 l2 : list string) :
  exists s1 a1 s2 a2,
    parse_lines py_float py_int l1 = Ok (s1, a1)
    /\ parse_lines py_float py_int l2 = Ok (s2, a2)
    /\ parse_lines py_float py_int (l1 ++ l2) = Ok (s1 ++ s2, a1 ++ a2).
Proof.
  eexists _, _, _, _. rewrite !parse_lines_spec, !omap_app. done.
Qed.

(** X11. A SAMPLE line of at least 4 fields whose numbers convert gives one
    sample: its type is the second field as it stands, its value and time
    stamp the conversions of the third and fourth; whatever follows the
    fourth field is ignored. *)
Theorem sample_fields (raw : string) (samples : list (Sample V))
  (alerts : list (Alert V)) :
  shaped "SAMPLE" 4 raw = true -> converts py_float py_int raw = true ->
  exists s,
    parse_line_ (samples, alerts) raw = Ok (samples ++ [s], alerts)
    /\ s_type s = field 1 raw
    /\ py_float (field 2 raw) = Ok (s_value s)
    /\ to_ts py_float py_int (field 3 raw) = Ok (s_ts_ms s)
    /\ (forall raw',
          (4 <= length (fields raw'))%nat ->
          take 4 (fields raw') = take 4 (fields raw) ->
          parse_line_ (samples, alerts) raw' = Ok (samples ++ [s], alerts)).
Proof.
  intros Hs Hc. unfold converts in Hc.
  destruct (py_float (field 2 raw)) as [v|] eqn:Ev; [|done].
  destruct (to_ts py_float py_int (field 3 raw)) as [t|] eqn:Et; [|done].
  assert (Hsample : forall raw',
             (4 <= length (fields raw'))%nat ->
             take 4 (fields raw') = take 4 (fields raw) ->
             sample_of_l raw'
             = Some {| s_type := field 1 raw; s_value := v; s_ts_ms := t |}).
  { intros raw' Hl Ht.
    assert (Hf : forall i, (i < 4)%nat -> field i raw' = field i raw).
    { intros i Hi. unfold field.
      rewrite <- (take_drop 4 (fields raw')), <- (take_drop 4 (fields raw)).
      rewrite Ht. apply (shaped_true py_float) in Hs as (_ & _ & Hl4).
      rewrite !app_nth1; [done | |]; rewrite length_take; lia. }
    apply (shaped_true py_float) in Hs as (_ & H0 & _).
    assert (Hs' : shaped "SAMPLE" 4 raw' = true).
    { apply (shaped_not_blank py_float); [lia | | done]. rewrite Hf by lia. done. }
    unfold sample_of_line. by rewrite Hs', !Hf, Ev, Et by lia. }
  assert (Hpl : forall raw',
             (4 <= length (fields raw'))%nat ->
             take 4 (fields raw') = take 4 (fields raw) ->
             parse_line_ (samples, alerts) raw'
             = Ok (samples
                     ++ [{| s_type := field 1 raw; s_value := v;
                            s_ts_ms := t |}], alerts)).
  { intros raw' Hl Ht. rewrite parse_line_spec.
    rewrite (Hsample raw' Hl Ht).
    rewrite (sample_alert_exclusive _ _ _ _ (Hsample raw' Hl Ht)).
    cbn [option_list]. by rewrite app_nil_r. }
  eexists. split; [|split; [|split; [|split]]].
  - apply Hpl; [|done]. by apply (shaped_true py_float) in Hs as (_ & _ & ?).
  - reflexivity.
  - reflexivity.
  - reflexivity.
  - exact Hpl.
Qed.

End parse_log_more.

Lemma sample_fields_witness :
  exists s,
    ParseLogs.parse_line PyFloat.float_of_string PyFloat.int_of_float
      ([], []) "SAMPLE|TEMP|21.5|1000.9|extra" = Ok ([] ++ [s], [])
    /\ ParseLogs.s_type s = "TEMP"
    /\ ParseLogs.s_ts_ms s = 1000.
Proof.
  destruct (sample_fields PyFloat.float_of_string PyFloat.int_of_float
              "SAMPLE|TEMP|21.5|1000.9|extra" [] [] eq_refl eq_refl)
    as (s & H1 & H2 & _ & H4 & _).
  exists s. split; [exact H1|]. split; [exact H2|].
  change (Ok 1000 = Ok (ParseLogs.s_ts_ms s)) in H4. congruence.
Defined.

(** ** summary_csv: errors, order, counts and statistics *)

Section string_order.

Lemma ascii_compare_lt_trans a b c :
  Ascii.compare a b = Lt -> Ascii.compare b c = Lt -> Ascii.compare a c = Lt.
Proof.
  unfold Ascii.compare. rewrite !N.compare_lt_iff. lia.
Qed.

Lemma string_compare_lt_trans a b c :
  String.compare a b = Lt -> String.compare b c = Lt ->
  String.compare a c = Lt.
Proof.
  revert b c. induction a as [|x a IH]; intros [|y b] [|z c]; simpl;
    try done.
  destruct (Ascii.compare x y) eqn:Exy; try done;
    destruct (Ascii.compare y z) eqn:Eyz; try done.
  - apply Ascii.compare_eq_iff in Exy, Eyz. subst.
    assert (Ascii.compare z z = Eq) as ->.
    { unfold Ascii.compare. apply N.compare_refl. }
    apply IH.
  - apply Ascii.compare_eq_iff in Exy. subst. by rewrite Eyz.
  - apply Ascii.compare_eq_iff in Eyz. subst. by rewrite Exy.
  - by rewrite (ascii_compare_lt_trans _ _ _ Exy Eyz).
Qed.

Lemma string_leb_cases a b :
  String.leb a b = true <-> a = b \/ String.ltb a b = true.
Proof.
  unfold String.leb, String.ltb. split.
  - destruct (String.compare a b) eqn:E; try done; intros _.
    + left. by apply String.compare_eq_iff.
    + by right.
  - intros [-> | H].
    + assert (String.compare b b = Eq) as ->; [|done].
      induction b as [|x b IH]; [done|]. simpl.
      assert (Ascii.compare x x = Eq) as ->; [|done].
      unfold Ascii.compare. apply N.compare_refl.
    + by destruct (String.compare a b).
Qed.

Lemma string_ltb_trans a b c :
  String.ltb a b = true -> String.ltb b c = true -> String.ltb a c = true.
Proof.
  unfold String.ltb.
  destruct (String.compare a b) eqn:E1; try done.
  destruct (String.compare b c) eqn:E2; try done.
  by rewrite (string_compare_lt_trans _ _ _ E1 E2).
Qed.

Lemma string_leb_trans a b c :
  String.leb a b = true -> String.leb b c = true -> String.leb a c = true.
Proof.
  rewrite !string_leb_cases. intros [-> | H1] [-> | H2]; auto.
  right. by apply (string_ltb_trans a b c).
Qed.

End string_order.

Section summary_more.
Import ParseLogs Spec.
Context {V F : Type} `{!Missing V, !Series V F}.

Lemma insert_sorted_Sorted x l :
  Sorted str_le l -> Sorted str_le (insert_sorted x l).
Proof.
  induction l as [|y l IH]; intros Hs; simpl.
  - repeat constructor.
  - destruct (String.leb x y) eqn:E.
    + constructor; [done|]. by constructor.
    + assert (Hyx : str_le y x).
      { destruct (String.leb_total x y) as [H | H]; [congruence | done]. }
      apply Sorted_inv in Hs as [Hs Hhd]. constructor; [by apply IH|].
      destruct l as [|z l]; simpl.
      * by constructor.
      * destruct (String.leb x z); constructor; [done|].
        by apply HdRel_inv in Hhd.
Qed.

Lemma sorted_Sorted l : Sorted str_le (sorted l).
Proof.
  unfold sorted. induction l as [|x l IH]; simpl; [constructor|].
  by apply insert_sorted_Sorted.
Qed.

Lemma sorted_strict l : NoDup l -> StronglySorted str_lt (sorted l).
Proof.
  intros Hnd.
  assert (Hnd' : NoDup (sorted l)) by (by rewrite (sorted_perm l)).
  assert (Hs : StronglySorted str_le (sorted l)).
  { apply Sorted_StronglySorted; [|apply sorted_Sorted].
    intros a b c. apply string_leb_trans. }
  induction Hs as [|x r Hs IH Hx]; [constructor|].
  apply NoDup_cons in Hnd' as [Hnotin Hnd']. constructor; [by apply IH|].
  rewrite List.Forall_forall in *. intros y Hy.
  specialize (Hx y Hy). apply string_leb_cases in Hx as [-> | Hlt]; [|done].
  exfalso. apply Hnotin. by apply list_elem_of_In.
Qed.

(** X12. The summary raises [KeyError], and nothing else, exactly when one of
    the two frames was built from no row; otherwise it has one row for
    each distinct type of the samples. *)
Theorem summary_csv_raises_iff (df_samples : list (Sample V))
  (df_alerts : list (Alert V)) :
  (summary_csv df_samples df_alerts = Raise KeyError
   <-> df_samples = [] \/ df_alerts = [])
  /\ (forall e, summary_csv df_samples df_alerts = Raise e -> e = KeyError)
  /\ (df_samples <> [] -> df_alerts <> [] ->
      exists rows,
        summary_csv df_samples df_alerts = Ok rows
        /\ map row_sensor rows = sorted (unique (map s_type df_samples))
        /\ rows <> []).
Proof.
  destruct df_samples as [|s df] eqn:Es.
  { split; [|split]; try done. split; [auto | done]. intros e [= <-]. done. }
  destruct df_alerts as [|a dfa] eqn:Ea.
  { rewrite summary_csv_no_alerts. split; [|split]; try done.
    - split; auto.
    - by intros e [= <-]. }
  rewrite <- Es, <- Ea.
  assert (Hs : df_samples <> []) by (by rewrite Es).
  assert (Ha : df_alerts <> []) by (by rewrite Ea).
  rewrite (summary_csv_ok _ _ Hs Ha). split; [|split].
  - split; [done | tauto].
  - done.
  - intros _ _. eexists. split; [reflexivity|]. split.
    + rewrite map_map. cbn [row_sensor row_for]. apply map_id.
    + assert (Hin : In (s_type s) (sorted (unique (map s_type df_samples)))).
      { apply summary_sensors_In. rewrite Es. by left. }
      destruct (sorted (unique (map s_type df_samples))); [done | done].
Qed.

(** X13. The rows of the summary come in strictly ascending order of their
    sensor name, so no sensor has two rows; and the sensors of the rows
    are the types that occur among the samples. *)
Theorem summary_rows_ascending (df_samples : list (Sample V))
  (df_alerts : list (Alert V)) (rows : list (SummaryRow F)) :
  summary_csv df_samples df_alerts = Ok rows ->
  StronglySorted str_lt (map row_sensor rows)
  /\ NoDup (map row_sensor rows)
  /\ (forall k, In k (map row_sensor rows) <-> In k (map s_type df_samples)).
Proof.
  intros H. apply summary_csv_inv in H as (_ & _ & ->).
  assert (E : map row_sensor
                (map (row_for df_samples df_alerts)
                   (sorted (unique (map s_type df_samples))))
              = sorted (unique (map s_type df_samples))).
  { rewrite map_map. cbn [row_sensor row_for]. apply map_id. }
  rewrite E. split; [|split].
  - apply sorted_strict, unique_from_NoDup.
  - apply summary_sensors_NoDup.
  - intros k. apply summary_sensors_In.
Qed.

Lemma Zsum_map_add {A} (f g : A -> Z) l :
  Zsum (map (fun u => (f u + g u)%Z) l) = (Zsum (map f l) + Zsum (map g l))%Z.
Proof. unfold Zsum. induction l as [|x l IH]; simpl; lia. Qed.

Lemma Zsum_flags k (U : list string) :
  NoDup U ->
  Zsum (map (fun u => flag (String.eqb k u)) U)
  = flag (existsb (String.eqb k) U).
Proof.
  unfold Zsum. induction U as [|u U IH]; intros Hnd; [done|].
  apply NoDup_cons in Hnd as [Hu Hnd]. simpl. rewrite (IH Hnd).
  destruct (String.eqb_spec k u) as [-> | Hne]; [|done]. simpl.
  assert (existsb (String.eqb u) U = false) as ->; [|done].
  apply not_true_iff_false. rewrite existsb_exists.
  intros (x & Hx & E). apply String.eqb_eq in E. subst x.
  apply Hu. by apply list_elem_of_In.
Qed.

(** Rows counted by key: over distinct keys the counts add up to the
    number of rows whose key is among them. *)
Lemma count_by_key {A} (key : A -> string) (U : list string) (l : list A) :
  NoDup U ->
  Zsum (map (fun u =>
               Z.of_nat (length (List.filter
                                   (fun x => String.eqb (key x) u) l))) U)
  = Z.of_nat (length (List.filter
                        (fun x => existsb (String.eqb (key x)) U) l)).
Proof.
  intros Hnd. induction l as [|x l IH].
  - simpl. unfold Zsum. induction U; simpl; [done|].
    apply NoDup_cons in Hnd as [_ Hnd]. by rewrite IHU.
  - cbn [List.filter].
    transitivity
      (Zsum (map (fun u =>
                    (flag (String.eqb (key x) u)
                     + Z.of_nat (length (List.filter
                                           (fun x => String.eqb (key x) u)
                                           l)))%Z) U)).
    { f_equal. apply map_ext. intros u. unfold flag.
      destruct (String.eqb (key x) u); cbn [length]; lia. }
    rewrite Zsum_map_add, IH, (Zsum_flags _ _ Hnd). unfold flag.
    destruct (existsb (String.eqb (key x)) U); cbn [length]; lia.
Qed.

(** The values that are not missing are the values of the rows whose
    value is not missing. *)
Lemma dropna_values (l : list (Sample V)) :
  dropna (map s_value l)
  = map s_value (List.filter (fun r => negb (isna (s_value r))) l).
Proof.
  unfold dropna. induction l as [|r l IH]; [done|]. cbn [map List.filter].
  destruct (negb (isna (s_value r))); cbn [map]; by rewrite IH.
Qed.

Lemma filter_comm {A} (p q : A -> bool) l :
  List.filter p (List.filter q l) = List.filter q (List.filter p l).
Proof.
  induction l as [|x l IH]; [done|]. cbn [List.filter].
  destruct (p x) eqn:Ep, (q x) eqn:Eq; cbn [List.filter];
    rewrite ?Ep, ?Eq, IH; done.
Qed.

(** X14. The counts of the rows add up to the number of samples whose value
    is not missing: each of them is counted in exactly one row, and a
    sample whose value is NaN in none. The alert counts add up to the
    number of alerts whose type has a sample: an alert of a type without
    samples is counted in no row. *)
Theorem summary_counts_add_up (df_samples : list (Sample V))
  (df_alerts : list (Alert V)) (rows : list (SummaryRow F)) :
  summary_csv df_samples df_alerts = Ok rows ->
  Zsum (map row_count rows)
  = Z.of_nat (length (dropna (map s_value df_samples)))
  /\ Zsum (map row_alert_count rows)
     = Z.of_nat (length (List.filter
                           (fun a => existsb (String.eqb (a_type a))
                                       (map s_type df_samples))
                           df_alerts))
  /\ Zsum (map row_alert_count rows) <= Z.of_nat (length df_alerts).
Proof.
  intros H. apply summary_csv_inv in H as (_ & _ & ->).
  set (U := sorted (unique (map s_type df_samples))).
  assert (Hnd : NoDup U) by apply summary_sensors_NoDup.
  assert (HU : forall k, existsb (String.eqb k) U
                         = existsb (String.eqb k) (map s_type df_samples)).
  { intros k. apply eq_true_iff_eq. rewrite !existsb_exists.
    split; intros (x & Hx & E); exists x; (split; [|done]);
      by apply summary_sensors_In. }
  rewrite !map_map. cbn [row_count row_alert_count row_for row_of].
  unfold series_count, values_of_type, alerts_of_type.
  set (valid := fun r : Sample V => negb (isna (s_value r))).
  assert (E1 : Zsum (map (fun x =>
                 Z.of_nat (length (dropna (map s_value
                   (List.filter (fun r => String.eqb (s_type r) x)
                      df_samples))))) U)
               = Z.of_nat (length (dropna (map s_value df_samples)))).
  { transitivity
      (Zsum (map (fun u =>
                    Z.of_nat (length (List.filter
                       (fun r => String.eqb (s_type r) u)
                       (List.filter valid df_samples)))) U)).
    { f_equal. apply map_ext. intros u.
      by rewrite dropna_values, length_map, filter_comm. }
    rewrite (count_by_key s_type U (List.filter valid df_samples) Hnd).
    rewrite dropna_values, length_map. do 2 f_equal.
    apply forallb_filter_id. apply forallb_forall. intros s Hs.
    apply filter_In in Hs as [Hs _].
    rewrite HU. apply existsb_exists. exists (s_type s).
    split; [by apply in_map | apply String.eqb_refl]. }
  assert (E2 := count_by_key a_type U df_alerts Hnd).
  split; [exact E1|]. split.
  - rewrite E2. do 2 f_equal. apply filter_ext. intros a. apply HU.
  - rewrite E2. apply inj_le, filter_length_le.
Qed.

End summary_more.

Lemma summary_rows_ascending_witness :
  exists rows,
    ParseLogs.summary_csv Spec.summary_example_samples Spec.summary_example_alerts
    = Ok rows
    /\ StronglySorted Spec.str_lt (map ParseLogs.row_sensor rows).
Proof.
  eexists. split; [vm_compute; reflexivity|].
  eapply (summary_rows_ascending Spec.summary_example_samples
            Spec.summary_example_alerts).
  vm_compute. reflexivity.
Defined.

Lemma summary_counts_add_up_witness :
  exists rows,
    ParseLogs.summary_csv Spec.summary_example_samples Spec.summary_example_alerts
    = Ok rows
    /\ Spec.Zsum (map ParseLogs.row_count rows)
       = Z.of_nat (length (ParseLogs.dropna
                             (map ParseLogs.s_value
                                Spec.summary_example_samples)))
    /\ Spec.Zsum (map ParseLogs.row_alert_count rows) = 1.
Proof.
  eexists. split; [vm_compute; reflexivity|].
  destruct (summary_counts_add_up Spec.summary_example_samples
              Spec.summary_example_alerts _ eq_refl) as (H1 & H2 & _).
  split; [exact H1 | exact H2].
Defined.

(** ** plot_timeseries: a window of one row, the markers, the charts *)

Section moving_average_more.
Import ParseLogs Spec.
Context {T : Type}.
Variable sort_values : list (Sample float) -> list (Sample float).
Variable to_datetime : list Z -> pyresult (list T).
Hypothesis sort_values_perm : forall d, Permutation (sort_values d) d.

(** With a window of one row no two windows overlap: every window is set
    up afresh. *)
Lemma roll_mean_from_one values minp (len : nat) :
  forall (k : Z) prev st,
    0 <= k -> k + Z.of_nat len <= Z.of_nat (length values) ->
    match prev with
    | None => True
    | Some b => snd b <= k
    end ->
    roll_mean_from values 1 minp (seqZ k (Z.of_nat len)) prev st
    = map (fun i => calc_mean minp (fresh_state values i (i + 1)))
        (seqZ k (Z.of_nat len)).
Proof.
  induction len as [|len IH]; intros k prev st Hk Hn Hprev.
  - by rewrite seqZ_nil by lia.
  - rewrite seqZ_cons by lia.
    replace (Z.pred (Z.of_nat (S len))) with (Z.of_nat len) by lia.
    cbn [roll_mean_from map].
    rewrite (window_bounds_inside _ 1 k) by lia.
    replace (Z.max 0 (k + 1 - 1)) with k by lia.
    assert (E : match prev with
                | Some (ps, pe) =>
                    if pe <=? k then fresh_state values k (k + 1)
                    else foldl add_mean
                           (foldl remove_mean st (slice values ps k))
                           (slice values pe (k + 1))
                | None => fresh_state values k (k + 1)
                end = fresh_state values k (k + 1)).
    { destruct prev as [[ps pe]|]; [|done]. cbn [snd] in Hprev.
      by destruct (Z.leb_spec pe k); [|lia]. }
    rewrite E. f_equal.
    replace (Z.succ k) with (k + 1) by lia.
    apply IH; [lia | lia | cbn [snd]; lia].
Qed.

(** The mean of a window of one value: the value, or NaN for NaN. *)
Lemma calc_mean_one values (i : nat) v :
  values !! i = Some v ->
  calc_mean 1 (fresh_state values (Z.of_nat i) (Z.of_nat i + 1))
  = if Float64.isnan v then Float64.nan else v.
Proof.
  intros Hv. unfold fresh_state, slice.
  rewrite Nat2Z.id.
  replace (Z.to_nat (Z.of_nat i + 1) - i)%nat with 1%nat by lia.
  rewrite (drop_S _ _ _ Hv), (nth_lookup_Some _ _ _ _ Hv).
  change (take 1 (v :: drop (S i) values)) with [v]. cbn [foldl].
  unfold add_mean, mean_setup.
  cbn [prev_value nobs num_consecutive_same_value].
  rewrite float_eqb_refl.
  destruct (Float64.isnan v); [reflexivity|]. cbn [negb].
  unfold calc_mean. cbn [nobs num_consecutive_same_value prev_value].
  reflexivity.
Qed.

(** X18. With a window of one row the moving average of a row is its raw
    value when that is a number, and NaN when the raw value is NaN or
    infinite. *)
Theorem moving_average_window_one (d : list (Sample float)) ts :
  to_datetime (map s_ts_ms (sort_values d)) = Ok ts ->
  exists series,
    ma_series sort_values to_datetime d 1
    = Ok {| mf_ts := ts; mf_points := series |}
    /\ length series = length d
    /\ forall p, In p series ->
         (Float64.is_finite (mp_value p) = true -> mp_ma p = mp_value p)
         /\ (Float64.is_finite (mp_value p) = false
             -> mp_ma p = Float64.nan).
Proof.
  intros Hts.
  destruct (ma_series_ok sort_values to_datetime sort_values_perm d 1 ts
              ltac:(lia) Hts) as (means & Hm & Hlen & Hs).
  exists (zip_with with_ma (sort_values d) means). split; [exact Hs|].
  assert (Hlen' : length means = length (sort_values d)).
  { rewrite Hlen. symmetry. apply Permutation_length, sort_values_perm. }
  split; [by rewrite length_zip_with, Hlen', Nat.min_id, <- Hlen'|].
  intros p Hp.
  apply list_elem_of_In, list_elem_of_lookup in Hp as (i & Hi).
  apply lookup_zip_with_Some in Hi as (s & m & -> & Hsi & Hmi).
  cbn [with_ma mp_value mp_ma].
  unfold rolling_mean in Hm. cbn [Z.ltb Z.compare orb] in Hm.
  injection Hm as Hm.
  set (values := prep_values (map s_value (sort_values d))) in *.
  rewrite (roll_mean_from_one values 1 (length values) 0 None) in Hm
    by (done || lia).
  rewrite <- Hm in Hmi.
  assert (Hv : values !! i
               = Some (if Float64.isinf (s_value s) then Float64.nan
                       else s_value s)).
  { subst values. unfold prep_values. by rewrite !lookup_map, Hsi. }
  assert (Hi' : seqZ 0 (Z.of_nat (length values)) !! i
                = Some (0 + Z.of_nat i)).
  { apply lookup_seqZ_lt. apply lookup_lt_Some in Hv. lia. }
  rewrite lookup_map, Hi' in Hmi. cbn [fmap option_fmap option_map] in Hmi.
  injection Hmi as <-. rewrite Z.add_0_l, (calc_mean_one _ _ _ Hv).
  by destruct (s_value s).
Qed.

End moving_average_more.

Section markers.
Import ParseLogs Spec.

Lemma every_nth_from_lookup {A} (step skip : nat) (xs : list A) (j : nat) :
  (1 <= step)%nat ->
  every_nth_from step skip xs !! j = xs !! (skip + j * step)%nat.
Proof.
  intros Hstep. revert skip j.
  induction xs as [|x r IH]; intros skip j; [done|].
  cbn [every_nth_from]. destruct skip as [|k].
  - destruct j as [|j]; [done|]. cbn [lookup list_lookup].
    rewrite IH.
    replace (0 + S j * step)%nat with (S (step - 1 + j * step)) by lia.
    done.
  - rewrite IH. done.
Qed.

Lemma marker_step_covers (N : Z) :
  1 <= marker_step N /\ N <= max_markers * marker_step N.
Proof.
  unfold marker_step, ceil_div, max_markers.
  assert (H := Z.mul_div_le (- N) 30 ltac:(lia)). lia.
Qed.

(** X20. The markers are the rows at positions 0, step, 2 step, ...: the first
    row always has one, and whatever the number of rows there are at most
    30 markers. *)
Theorem markers_at_most_thirty {A} (d : list A) :
  let step := Z.to_nat (marker_step (Z.of_nat (length d))) in
  (1 <= step)%nat
  /\ (forall j, marker_rows d !! j = d !! (j * step)%nat)
  /\ marker_rows d !! 0%nat = d !! 0%nat
  /\ (length (marker_rows d) <= 30)%nat
  /\ ((length d <= 30)%nat -> marker_rows d = d).
Proof.
  intros step.
  destruct (marker_step_covers (Z.of_nat (length d))) as [H1 H2].
  unfold max_markers in H2.
  assert (Hstep : (1 <= step)%nat) by (subst step; lia).
  assert (Hlook : forall j, marker_rows d !! j = d !! (j * step)%nat).
  { intros j. unfold marker_rows, every_nth. fold step.
    by rewrite every_nth_from_lookup. }
  split; [done|]. split; [done|]. split; [by rewrite Hlook|]. split.
  - destruct (Nat.le_gt_cases (length (marker_rows d)) 30) as [|Hgt]; [done|].
    destruct (lookup_lt_is_Some_2 (marker_rows d) 30 Hgt) as [x Hx].
    rewrite Hlook in Hx. apply lookup_lt_Some in Hx. subst step. lia.
  - intros Hle. apply list_eq. intros j. rewrite Hlook.
    assert (step = 1%nat) as ->; [|by rewrite Nat.mul_1_r].
    subst step. unfold marker_step, ceil_div, max_markers in *.
    assert (- 1 <= (- Z.of_nat (length d)) / 30).
    { apply Z.div_le_lower_bound; lia. }
    lia.
Qed.

End markers.

Lemma filter_nil {A} (p : A -> bool) (l : list A) :
  List.filter p l = [] <-> forall x, In x l -> p x = false.
Proof.
  induction l as [|x l IH]; cbn [List.filter]; [by split|].
  destruct (p x) eqn:E; split.
  - done.
  - intros H. specialize (H x ltac:(by left)). congruence.
  - intros H y [<- | Hy]; [done | by apply IH].
  - intros H. apply IH. intros y ?. apply H. by right.
Qed.

Section charts.
Import ParseLogs Spec.
Context {T : Type}.
Variable sort_values : list (Sample float) -> list (Sample float).
Variable to_datetime : list Z -> pyresult (list T).
Hypothesis sort_values_perm : forall d, Permutation (sort_values d) d.

(** X21. In the loop of [main] the sensors are the types of the samples, so
    the rows of a sensor are never empty. [plot_timeseries] then never
    skips its chart for want of samples: it ends with the exception of
    the conversion of the time stamps, or with [ValueError] for a window
    below one row, or it has a frame with one point for each sample of
    the sensor. [plot_histogram] skips its chart exactly when every
    value of the sensor is NaN, and else bins the values that are not. *)
Theorem charts_are_never_skipped (df : list (Sample float)) (s : string)
  (window : Z) :
  In s (sorted (unique (map s_type df))) ->
  let d := List.filter (fun r => String.eqb (s_type r) s) df in
  d <> []
  /\ plot_timeseries sort_values to_datetime df s window <> Ok None
  /\ (forall e,
        to_datetime (map s_ts_ms (sort_values d)) = Raise e ->
        plot_timeseries sort_values to_datetime df s window = Raise e)
  /\ (forall ts,
        to_datetime (map s_ts_ms (sort_values d)) = Ok ts ->
        (window < 1 ->
         plot_timeseries sort_values to_datetime df s window
         = Raise ValueError)
        /\ (0 < window < 2 ^ 63 ->
            exists series,
              plot_timeseries sort_values to_datetime df s window
              = Ok (Some {| mf_ts := ts; mf_points := series |})
              /\ length series = length d))
  /\ (histogram_values df s = Ok None
      <-> forall r, In r d -> Float64.isnan (s_value r) = true)
  /\ (histogram_values df s = Ok None
      \/ histogram_values df s = Ok (Some (dropna (map s_value d)))).
Proof.
  intros Hs d. apply (proj1 (summary_sensors_In _ _)) in Hs.
  assert (Hv := proj2 (values_of_type_In s df) Hs).
  unfold values_of_type in Hv. fold d in Hv.
  assert (Hd : d <> []) by (intros E; by rewrite E in Hv).
  split; [exact Hd|].
  assert (Hplot : plot_timeseries sort_values to_datetime df s window
                  = frame ← ma_series sort_values to_datetime d window;
                    Ok (Some frame)).
  { rewrite plot_timeseries_series. destruct df as [|r df']; [done|].
    fold d. by destruct d. }
  assert (Hhist : histogram_values df s
                  = match dropna (map s_value d) with
                    | [] => Ok None
                    | vals => Ok (Some vals)
                    end).
  { unfold histogram_values. destruct df as [|r df']; [done|].
    by rewrite rows_of_type_cons. }
  rewrite Hplot, Hhist. split; [|split; [|split; [|split]]].
  - by destruct (ma_series sort_values to_datetime d window).
  - intros e He. by rewrite (ma_series_raises _ _ _ _ _ He).
  - intros ts Hts. split.
    + intros Hw. by rewrite (ma_series_refused _ _ _ _ _ Hw Hts).
    + intros [Hw _].
      destruct (ma_series_ok sort_values to_datetime sort_values_perm
                  d window ts Hw Hts) as (means & _ & Hlen & ->).
      eexists. split; [reflexivity|].
      rewrite length_zip_with, Hlen.
      rewrite (Permutation_length (sort_values_perm d)). lia.
  - rewrite dropna_values.
    assert (Hm : forall l : list (Sample float),
               match map s_value l with
               | [] => Ok None
               | v :: vs => Ok (Some (v :: vs))
               end = Ok None <-> l = []) by (intros [|]; split; done).
    rewrite Hm, filter_nil.
    split; intros H r Hr; specialize (H r Hr);
      change (isna (s_value r)) with (Float64.isnan (s_value r)) in *;
      by destruct (Float64.isnan (s_value r)).
  - destruct (dropna (map s_value d)); [by left | by right].
Qed.

End charts.

Lemma moving_average_window_one_witness :
  exists series,
    ParseLogs.ma_series ParseLogs.sort_by_ts (fun ts : list Z => Ok ts)
      Spec.three_samples 1
    = Ok {| ParseLogs.mf_ts :=
              map ParseLogs.s_ts_ms
                (ParseLogs.sort_by_ts Spec.three_samples);
            ParseLogs.mf_points := series |}
    /\ length series = length Spec.three_samples.
Proof.
  destruct (moving_average_window_one ParseLogs.sort_by_ts
              (fun ts : list Z => Ok ts) sort_by_ts_perm
              Spec.three_samples _ eq_refl) as (series & H1 & H2 & _).
  exists series. split; [exact H1 | exact H2].
Defined.

Lemma charts_are_never_skipped_witness :
  In "TEMP"
    (ParseLogs.sorted
       (ParseLogs.unique (map ParseLogs.s_type Spec.three_samples)))
  /\ ParseLogs.plot_timeseries ParseLogs.sort_by_ts
       (fun ts : list Z => Ok ts) Spec.three_samples "TEMP" 5 <> Ok None
  /\ (ParseLogs.histogram_values Spec.three_samples "TEMP" = Ok None
      \/ ParseLogs.histogram_values Spec.three_samples "TEMP"
         = Ok (Some (ParseLogs.dropna
                       (map ParseLogs.s_value
                          (List.filter
                             (fun r => String.eqb (ParseLogs.s_type r) "TEMP")
                             Spec.three_samples))))).
Proof.
  assert (Hin : In "TEMP"
                  (ParseLogs.sorted
                     (ParseLogs.unique
                        (map ParseLogs.s_type Spec.three_samples))))
    by (left; reflexivity).
  split; [exact Hin|].
  destruct (charts_are_never_skipped ParseLogs.sort_by_ts
              (fun ts : list Z => Ok ts) sort_by_ts_perm
              Spec.three_samples "TEMP" 5 Hin)
    as (_ & H1 & _ & _ & _ & H2).
  split; [exact H1 | exact H2].
Defined.

(** ** plot_alerts_timeline *)

Section alerts_timeline_facts.
Import ParseLogs Spec.
Context {V T : Type}.
Variable sort_alerts : list (Alert V) -> list (Alert V).
Variable to_datetime : list Z -> pyresult (list T).
Hypothesis sort_alerts_perm : forall d, Permutation (sort_alerts d) d.

#[local] Abbreviation plot_alerts :=
  (plot_alerts_timeline sort_alerts to_datetime).

Lemma enumerate_from (m : gmap string nat) (k : nat) (l : list string) :
  NoDup l ->
  (forall j t, l !! j = Some t ->
     foldl (fun m '(i, t) => <[t := i]> m) m (zip (seq k (length l)) l) !! t
     = Some (k + j)%nat)
  /\ (forall t, ~ In t l ->
        foldl (fun m '(i, t) => <[t := i]> m) m (zip (seq k (length l)) l)
          !! t = m !! t).
Proof.
  revert m k. induction l as [|x l IH]; intros m k Hnd.
  - split; [done | done].
  - apply NoDup_cons in Hnd as [Hx Hnd]. cbn [length seq zip zip_with foldl].
    destruct (IH (<[x := k]> m) (S k) Hnd) as [IH1 IH2]. split.
    + intros [|j] t Hj.
      * injection Hj as <-. rewrite IH2.
        -- rewrite lookup_insert_eq. f_equal. lia.
        -- intros Hin. apply Hx. by apply list_elem_of_In.
      * rewrite (IH1 j t Hj). f_equal. lia.
    + intros t Ht. rewrite IH2 by (intros ?; apply Ht; by right).
      apply lookup_insert_ne. intros ->. apply Ht. by left.
Qed.

(** The dict of the heights gives every type its position in the sorted
    list of the types, and knows no other key. *)
Lemma enumerate_dict_lookup (types : list string) :
  NoDup types ->
  (forall j t, types !! j = Some t -> enumerate_dict types !! t = Some j)
  /\ (forall t, ~ In t types -> enumerate_dict types !! t = None).
Proof.
  intros Hnd. destruct (enumerate_from ∅ 0 types Hnd) as [H1 H2]. split.
  - intros j t Hj. unfold enumerate_dict. by rewrite (H1 j t Hj).
  - intros t Ht. unfold enumerate_dict. by rewrite (H2 t Ht).
Qed.

Lemma timeline_lanes (df : list (Alert V)) (types : list string) :
  df <> [] -> NoDup types ->
  py_map (timeline_lane df (enumerate_dict types)) types
  = Ok (map (lane_for df types) types).
Proof.
  intros Hdf Hnd. apply py_map_ok. intros t Ht.
  destruct df as [|a df]; [done|].
  unfold timeline_lane. rewrite rows_of_type_cons.
  cbn [mbind pyresult_bind]. unfold py_item, lane_for.
  apply list_elem_of_In, list_elem_of_lookup in Ht as (j & Hj).
  destruct (enumerate_dict_lookup types Hnd) as [H1 _].
  by rewrite (H1 j t Hj).
Qed.

Lemma column_ok {R A} (f : R -> A) (df : list R) :
  df <> [] -> column f df = Ok (map f df).
Proof. by destruct df. Qed.

(** The figure of a frame with rows, by the conversion of the time
    stamps. *)
Lemma plot_alerts_unfold (df_alerts : list (Alert V)) :
  df_alerts <> [] ->
  let df := sort_alerts df_alerts in
  let types := sorted (unique (map a_type df)) in
  plot_alerts df_alerts
  = match to_datetime (map a_ts_ms df) with
    | Raise e => Raise e
    | Ok ts =>
        Ok (Some {| tl_ts := ts;
                    tl_ys := map (fun a => enumerate_dict types !! a_type a) df;
                    tl_lanes := map (lane_for df types) types |})
    end.
Proof.
  intros Hne df types.
  assert (Hdf : df <> []).
  { intros E. apply Hne. apply Permutation_nil.
    rewrite <- E. apply sort_alerts_perm. }
  unfold plot_alerts_timeline. destruct df_alerts as [|a0 r0]; [done|].
  fold df. destruct (to_datetime (map a_ts_ms df)) as [ts|e]; [|done].
  cbn [mbind pyresult_bind]. rewrite (column_ok a_type df Hdf).
  cbn [mbind pyresult_bind]. fold types.
  rewrite timeline_lanes; [done | done | apply summary_sensors_NoDup].
Qed.

(** X22. The timeline is left out exactly when there is no alert. Otherwise,
    once the time stamps are converted, it has one lane for each type of
    alert, in ascending order of the type and at heights 0, 1, 2, ...;
    every alert has a height, that of the lane of its type, and lies in
    that lane; and the lanes hold as many points as there are alerts. *)
Theorem alerts_timeline_lanes (df_alerts : list (Alert V)) :
  (plot_alerts df_alerts = Ok None <-> df_alerts = [])
  /\ (df_alerts <> [] ->
      forall e, to_datetime (map a_ts_ms (sort_alerts df_alerts)) = Raise e ->
                plot_alerts df_alerts = Raise e)
  /\ (df_alerts <> [] ->
      forall ts, to_datetime (map a_ts_ms (sort_alerts df_alerts)) = Ok ts ->
      exists tl,
        plot_alerts df_alerts = Ok (Some tl)
        /\ tl_ts tl = ts
        /\ StronglySorted str_lt (map lane_type (tl_lanes tl))
        /\ (forall k, In k (map lane_type (tl_lanes tl))
                      <-> In k (map a_type df_alerts))
        /\ (forall j l, tl_lanes tl !! j = Some l ->
              lane_y l = j
              /\ lane_rows l
                 = List.filter (fun a => String.eqb (a_type a) (lane_type l))
                     (sort_alerts df_alerts))
        /\ (forall i a, sort_alerts df_alerts !! i = Some a ->
              exists y l,
                tl_ys tl !! i = Some (Some y)
                /\ tl_lanes tl !! y = Some l
                /\ lane_type l = a_type a
                /\ In a (lane_rows l))
        /\ Zsum (map (fun l => Z.of_nat (length (lane_rows l))) (tl_lanes tl))
           = Z.of_nat (length df_alerts)).
Proof.
  split; [|split].
  - split; [|by intros ->].
    destruct df_alerts as [|a r] eqn:E; [done|]. rewrite <- E.
    assert (Hne : df_alerts <> []) by (by rewrite E).
    rewrite (plot_alerts_unfold _ Hne).
    by destruct (to_datetime _).
  - intros Hne e He. by rewrite (plot_alerts_unfold _ Hne), He.
  - intros Hne ts Hts. rewrite (plot_alerts_unfold _ Hne), Hts.
    set (df := sort_alerts df_alerts).
    set (types := sorted (unique (map a_type df))).
    assert (Hnd : NoDup types) by apply summary_sensors_NoDup.
    destruct (enumerate_dict_lookup types Hnd) as [Hdict _].
    assert (Htypes : map lane_type (map (lane_for df types) types) = types).
    { rewrite map_map. cbn [lane_type lane_for]. apply map_id. }
    assert (Hmem : forall k, In k types <-> In k (map a_type df_alerts)).
    { intros k. subst types. rewrite summary_sensors_In.
      rewrite <- !list_elem_of_In.
      assert (Hp : Permutation (map a_type df) (map a_type df_alerts))
        by apply Permutation_map, sort_alerts_perm.
      by rewrite Hp. }
    eexists. split; [reflexivity|]. cbn [tl_ts tl_ys tl_lanes].
    split; [done|]. split; [|split; [|split; [|split]]].
    + rewrite Htypes. apply sorted_strict, unique_from_NoDup.
    + intros k. by rewrite Htypes.
    + intros j l Hl. rewrite lookup_map in Hl.
      destruct (types !! j) as [t|] eqn:Ej; [|done].
      injection Hl as <-. cbn [lane_for lane_y lane_type lane_rows].
      by rewrite (Hdict j t Ej).
    + intros i a Ha.
      assert (Hin : In (a_type a) types).
      { subst types. apply summary_sensors_In. apply in_map.
        apply list_elem_of_In. by apply (list_elem_of_lookup_2 _ i). }
      apply list_elem_of_In, list_elem_of_lookup in Hin as (y & Hy).
      exists y, (lane_for df types (a_type a)).
      rewrite !lookup_map, Ha, Hy. cbn [fmap option_fmap option_map].
      rewrite (Hdict y _ Hy). split; [done|]. split; [done|].
      split; [done|]. cbn [lane_for lane_rows].
      apply filter_In. split; [|apply String.eqb_refl].
      apply list_elem_of_In. by apply (list_elem_of_lookup_2 _ i).
    + rewrite map_map. cbn [lane_for lane_rows].
      rewrite (count_by_key a_type types df Hnd).
      assert (Hall : List.filter
                       (fun x => existsb (String.eqb (a_type x)) types) df
                     = df).
      { apply forallb_filter_id, forallb_forall. intros a Ha.
        apply existsb_exists. exists (a_type a).
        split; [|apply String.eqb_refl].
        subst types. apply summary_sensors_In. by apply in_map. }
      rewrite Hall. f_equal. apply Permutation_length, sort_alerts_perm.
Qed.

End alerts_timeline_facts.

Section sort_alerts_facts.
Import ParseLogs.
Context {V : Type}.

Lemma insert_alert_by_ts_perm (x : Alert V) l :
  Permutation (insert_alert_by_ts x l) (x :: l).
Proof.
  induction l as [|y l IH]; simpl; [done|].
  destruct (a_ts_ms x <=? a_ts_ms y); [done|].
  rewrite IH. apply perm_swap.
Qed.

Lemma sort_alerts_by_ts_perm (l : list (Alert V)) :
  Permutation (sort_alerts_by_ts l) l.
Proof.
  unfold sort_alerts_by_ts. induction l as [|x l IH]; simpl; [done|].
  by rewrite insert_alert_by_ts_perm, IH.
Qed.

End sort_alerts_facts.

Lemma alerts_timeline_lanes_witness :
  exists tl,
    ParseLogs.plot_alerts_timeline ParseLogs.sort_alerts_by_ts
      (fun ts : list Z => Ok ts) Spec.summary_example_alerts = Ok (Some tl)
    /\ Spec.Zsum
         (map (fun l => Z.of_nat (length (ParseLogs.lane_rows l)))
            (ParseLogs.tl_lanes tl))
       = Z.of_nat (length Spec.summary_example_alerts).
Proof.
  destruct (alerts_timeline_lanes ParseLogs.sort_alerts_by_ts
              (fun ts : list Z => Ok ts) sort_alerts_by_ts_perm
              Spec.summary_example_alerts) as (_ & _ & H).
  destruct (H ltac:(discriminate) _ eq_refl)
    as (tl & H1 & _ & _ & _ & _ & _ & H7).
  exists tl. split; [exact H1 | exact H7].
Defined.

(** ** main *)

Section main_facts.
Import ParseLogs Spec.
Context {V F : Type} `{!Missing V, !Series V F}.
Variable py_float : string -> pyresult V.
Variable py_int : V -> pyresult Z.

(** X23. How [main] reaches the charts. A missing file ends the run with exit
    code 2 and a log without a parsed sample with exit code 3. A log with
    samples and without a single parsed alert ends with an uncaught
    [KeyError] from the summary, before any chart. With samples and
    alerts the run enters the loop of the charts with one summary row for
    each sensor of the loop. *)
Theorem main_outcome (text : string) :
  let samples := sample_rows py_float py_int text in
  let alerts := alert_rows py_float py_int text in
  main_until_charts py_float py_int None = SysExit 2
  /\ (samples = [] ->
      main_until_charts py_float py_int (Some text) = SysExit 3)
  /\ (samples <> [] -> alerts = [] ->
      main_until_charts py_float py_int (Some text) = Uncaught KeyError)
  /\ (samples <> [] -> alerts <> [] ->
      exists rows,
        main_until_charts py_float py_int (Some text)
        = Charts rows (sorted (unique (map s_type samples)))
        /\ summary_csv samples alerts = Ok rows
        /\ map row_sensor rows = sorted (unique (map s_type samples))
        /\ rows <> []).
Proof.
  intros samples alerts. split; [done|].
  assert (Hparse : parse_log py_float py_int text = Ok (samples, alerts)).
  { unfold parse_log. apply parse_lines_spec. }
  unfold main_until_charts. rewrite Hparse.
  clearbody samples alerts. clear Hparse. split; [|split].
  - by intros ->.
  - intros Hs Ha. rewrite Ha, summary_csv_no_alerts.
    by destruct samples.
  - intros Hs Ha.
    rewrite (summary_csv_ok _ _ Hs Ha), (column_ok s_type samples Hs).
    exists (map (row_for samples alerts)
              (sorted (unique (map s_type samples)))).
    split; [by destruct samples|]. split; [reflexivity|]. split.
    + rewrite map_map. cbn [row_sensor row_for]. apply map_id.
    + destruct samples as [|s r]; [done|].
      assert (Hin : In (s_type s)
                      (sorted (unique (map s_type (s :: r))))).
      { apply summary_sensors_In. by left. }
      by destruct (sorted (unique (map s_type (s :: r)))).
Qed.

End main_facts.
